(** * LaLuna point of sale: inventory valuation and recipe costing

    A shallow embedding of the ledger functions of [src/index.tsx] and the
    properties the design document states about them.

    Conventions of the embedding.
    - A TypeScript [number] is an IEEE 754 binary64 value, and the file
      reads the program's arithmetic in two ways.  Module [Binary64] has
      the ledger functions on [float], the primitive binary64 numbers:
      every [+], [*], [/] and comparison is the program's own, with its
      rounding, [NaN] and the infinities.  The properties of the average
      cost, of the sellable stock, of the sale and of the ledger round trip
      are stated on it.  Outside that module a [number] is an exact
      rational ([Q]): the same functions with every operation carried out
      without rounding, where results that go through a division are
      compared with [==] ([Qeq]).  That reading serves the properties that
      rounding does not touch and, through [exactLedger], says what a
      stored binary64 ledger stands for.
    - [Array.prototype.reduce] is [fold_left], [find] is [List.find],
      [findIndex] returns [None] where JavaScript returns [-1].
    - [new Date().toISOString()] is an input of each handler ([now]).
    - Record fields that several TypeScript types share ([quantity], [id],
      [name], ...) carry a short prefix, since one Rocq name space holds them
      all. *)

From Stdlib Require Import List String Bool ZArith QArith Qround Qminmax Lqa Lia.
From Stdlib Require Import Floats.
Import ListNotations.

Open Scope Q_scope.
Set Warnings "-inexact-float".

(** ** Type definitions (index.tsx, lines 13-101) *)

Record StockHistoryItem : Type := mkStockHistoryItem {
  sh_date : string;
  sh_quantity : Q;
  sh_unitCost : Q   (* cost per unit for this specific batch *)
}.

Record Ingredient : Type := mkIngredient {
  ing_id : string;
  ing_name : string;
  ing_unit : string;
  ing_price : Q;
  ing_lowStockThreshold : Q;
  stockHistory : list StockHistoryItem
}.

Record RecipeItem : Type := mkRecipeItem {
  ingredientId : string;
  ri_quantity : Q
}.

Inductive ProductKind : Type := KindProduct | KindMiscCost.

Record Product : Type := mkProduct {
  p_id : string;
  p_name : string;
  p_price : Q;
  p_quantity : Q;
  p_cost : Q;
  p_type : ProductKind;
  recipe : list RecipeItem
}.

(** [actualStock: number | ''] : [None] is the empty input field. *)
Record StockCountItem : Type := mkStockCountItem {
  sc_ingredientId : string;
  sc_ingredientName : string;
  sc_unit : string;
  expectedStock : Q;
  actualStock : option Q;
  sc_unitCost : Q
}.

(** The element type of [finalItems] in [handleFinalizeCount]: the spread
    [{ ...item, actualStock: actual }] makes [actualStock] a [number]. *)
Record FinalCountItem : Type := mkFinalCountItem {
  fc_ingredientId : string;
  fc_ingredientName : string;
  fc_unit : string;
  fc_expectedStock : Q;
  fc_actualStock : Q;
  fc_unitCost : Q
}.

Record StockCount : Type := mkStockCount {
  count_id : string;
  count_timestamp : string;
  count_items : list FinalCountItem;
  totalVarianceValue : Q
}.

Inductive CartItemType : Type := PRODUCT | INGREDIENT.

Record CartItem : Type := mkCartItem {
  itemId : string;
  ci_name : string;
  ci_price : Q;
  ci_quantity : Q;
  ci_type : CartItemType
}.

Inductive InventoryTab : Type :=
  PRODUCTS | INGREDIENTS | MISC | STOCK_COUNT | STOCK_HISTORY.

(** ** JavaScript library functions used by the ledger *)

(** [x > y] on numbers. *)
Definition Qgt_bool (x y : Q) : bool := negb (Qle_bool x y).

(** [arr.findIndex(pred)], with [None] for [-1]. *)
Fixpoint findIndex {A : Type} (pred : A -> bool) (arr : list A) : option nat :=
  match arr with
  | [] => None
  | x :: rest =>
      if pred x then Some O
      else match findIndex pred rest with
           | Some k => Some (S k)
           | None => None
           end
  end.

(** [Math.min(x, ...xs)] on the spread of a non-empty array. *)
Definition Math_min (x : Q) (xs : list Q) : Q := fold_left Qmin xs x.

(** [Math.floor], as a number again. *)
Definition Math_floor (x : Q) : Q := inject_Z (Qfloor x).

(** [i => i.id === target] *)
Definition hasId (target : string) (i : Ingredient) : bool :=
  String.eqb (ing_id i) target.

(** ** Helper functions (index.tsx, lines 129-138) *)

Definition getIngredientTotalStock (ingredient : Ingredient) : Q :=
  fold_left (fun sum record => sum + sh_quantity record)
            (stockHistory ingredient) 0.

Definition getIngredientAverageCost (ingredient : Ingredient) : Q :=
  let totalStock := getIngredientTotalStock ingredient in
  if Qle_bool totalStock 0 then 0
  else
    let totalCost :=
      fold_left (fun sum record => sum + sh_quantity record * sh_unitCost record)
                (stockHistory ingredient) 0 in
    totalCost / totalStock.

(** ** Recipe resolver (index.tsx, lines 227-244) *)

Definition calculateProductCost (recipe : list RecipeItem)
                                (ingredients : list Ingredient) : Q :=
  fold_left
    (fun totalCost recipeItem =>
       match find (hasId (ingredientId recipeItem)) ingredients with
       | None => totalCost
       | Some ingredient =>
           totalCost + getIngredientAverageCost ingredient * ri_quantity recipeItem
       end)
    recipe 0.

(** The callback of [recipe.map] in [calculateProductStock]. *)
Definition stockLevel (ingredients : list Ingredient) (recipeItem : RecipeItem) : Q :=
  let ingredient := find (hasId (ingredientId recipeItem)) ingredients in
  let ingredientStock :=
    match ingredient with
    | Some i => getIngredientTotalStock i
    | None => 0
    end in
  if (match ingredient with None => true | Some _ => false end)
     || Qeq_bool ingredientStock 0
     || Qeq_bool (ri_quantity recipeItem) 0
  then 0
  else Math_floor (ingredientStock / ri_quantity recipeItem).

Definition calculateProductStock (recipe : list RecipeItem)
                                 (ingredients : list Ingredient) : Q :=
  match recipe with
  | [] => 0
  | first :: rest =>
      Math_min (stockLevel ingredients first) (map (stockLevel ingredients) rest)
  end.

(** ** Record updates written as object spreads in the source *)

(** [{ ...i, stockHistory: h }] *)
Definition setStockHistory (i : Ingredient) (h : list StockHistoryItem) : Ingredient :=
  mkIngredient (ing_id i) (ing_name i) (ing_unit i) (ing_price i)
               (ing_lowStockThreshold i) h.

(** [i.stockHistory.push(b)] on an ingredient that owns its history array. *)
Definition pushBatch (i : Ingredient) (b : StockHistoryItem) : Ingredient :=
  setStockHistory i (stockHistory i ++ [b]).

(** [arr[k].stockHistory.push(b)]; [k] always comes from [findIndex], so it
    is in range (out of range the list is returned as it is). *)
Fixpoint pushBatchAt (k : nat) (b : StockHistoryItem) (arr : list Ingredient)
  : list Ingredient :=
  match arr, k with
  | [], _ => []
  | i :: rest, O => pushBatch i b :: rest
  | i :: rest, S k' => i :: pushBatchAt k' b rest
  end.

(** ** Ingredient modal, editing an existing ingredient
       (index.tsx, lines 296-309)

    The branch of [IngredientModal.handleSubmit] taken when [ingredient] is
    set, after the name checks passed.  The form fields arrive parsed
    ([parseFloat(...) || 0], [parseInt(..., 10) || 0]).  [newUnitCost] is
    the local constant of that name. *)
Definition newUnitCost (addQuantity addTotalCost : Q) : Q :=
  if Qgt_bool addTotalCost 0 && Qgt_bool addQuantity 0
  then addTotalCost / addQuantity else 0.

Definition handleSubmit_editing (now : string) (ingredient : Ingredient)
    (name unit : string) (price : Q) (lowStockThreshold : Z)
    (addQuantity addTotalCost : Q) : Ingredient :=
  let updatedIngredient :=
    mkIngredient (ing_id ingredient) name unit price (inject_Z lowStockThreshold)
                 (stockHistory ingredient) in
  if Qgt_bool addQuantity 0 then
    pushBatch updatedIngredient
      (mkStockHistoryItem now addQuantity (newUnitCost addQuantity addTotalCost))
  else updatedIngredient.

(** ** Consumption on a completed sale (index.tsx, lines 1665-1700) *)

(** The closure [processIngredient] of [handleFinalizeTransaction]; the
    array [updatedIngredients] it mutates is passed and returned. *)
Definition processIngredient (now : string) (updatedIngredients : list Ingredient)
    (id : string) (qty avgCost : Q) : list Ingredient :=
  match findIndex (hasId id) updatedIngredients with
  | Some ingIndex =>
      pushBatchAt ingIndex (mkStockHistoryItem now (- qty) avgCost)
                  updatedIngredients
  | None => updatedIngredients
  end.

(** The body of [cart.forEach], one cart item. *)
Definition deductCartItem (now : string) (ingredients : list Ingredient)
    (inventory : list Product) (updatedIngredients : list Ingredient)
    (cartItem : CartItem) : list Ingredient :=
  match ci_type cartItem with
  | PRODUCT =>
      match find (fun p => String.eqb (p_id p) (itemId cartItem)) inventory with
      | Some product =>
          fold_left
            (fun updated recipeItem =>
               match find (hasId (ingredientId recipeItem)) ingredients with
               | Some ingredient =>
                   let quantityToDecrement :=
                     ri_quantity recipeItem * ci_quantity cartItem in
                   processIngredient now updated (ingredientId recipeItem)
                     quantityToDecrement (getIngredientAverageCost ingredient)
               | None => updated
               end)
            (recipe product) updatedIngredients
      | None => updatedIngredients
      end
  | INGREDIENT =>
      match find (hasId (itemId cartItem)) ingredients with
      | Some ingredient =>
          processIngredient now updatedIngredients (itemId cartItem)
            (ci_quantity cartItem) (getIngredientAverageCost ingredient)
      | None => updatedIngredients
      end
  end.

(** Step 1 of [handleFinalizeTransaction]: the argument of [setIngredients].
    [updatedIngredients] starts as a copy of [ingredients] with copied
    history arrays, so [ingredients] itself keeps the state at sale start. *)
Definition handleFinalizeTransaction (now : string) (ingredients : list Ingredient)
    (inventory : list Product) (cart : list CartItem) : list Ingredient :=
  let updatedIngredients :=
    map (fun i => setStockHistory i (stockHistory i)) ingredients in
  fold_left (deductCartItem now ingredients inventory) cart updatedIngredients.

(** ** Stock count (index.tsx, lines 899-951) *)

(** The [useEffect] of [NewStockCountView] that fills [countItems]. *)
Definition initialCountItems (ingredients : list Ingredient) : list StockCountItem :=
  map (fun ing =>
         mkStockCountItem (ing_id ing) (ing_name ing) (ing_unit ing)
           (getIngredientTotalStock ing) None (getIngredientAverageCost ing))
      ingredients.

(** [value] is the parsed input: [None] for the empty string. *)
Definition handleCountChange (countItems : list StockCountItem) (id : string)
    (value : option Q) : list StockCountItem :=
  map (fun item =>
         if String.eqb (sc_ingredientId item) id
         then mkStockCountItem (sc_ingredientId item) (sc_ingredientName item)
                (sc_unit item) (expectedStock item) value (sc_unitCost item)
         else item)
      countItems.

(** One round of the [countItems.map] callback of [handleFinalizeCount],
    which also adds to the variable [totalVarianceValue] it closes over. *)
Definition finalizeItem (acc : list FinalCountItem * Q) (item : StockCountItem)
  : list FinalCountItem * Q :=
  let actual :=
    match actualStock item with
    | Some n => n
    | None => expectedStock item
    end in
  let variance := actual - expectedStock item in
  (fst acc ++ [mkFinalCountItem (sc_ingredientId item) (sc_ingredientName item)
                 (sc_unit item) (expectedStock item) actual (sc_unitCost item)],
   snd acc + variance * sc_unitCost item).

(** [confirmFinalize] and [confirmApply] are the answers to the two
    [window.confirm] dialogs; [stamp] is [Date.now()] as text.  The result
    is the new content of the [ingredients] and [stockCounts] stores. *)
Definition handleFinalizeCount (confirmFinalize confirmApply : bool)
    (stamp now : string) (ingredients : list Ingredient)
    (countItems : list StockCountItem) (stockCounts : list StockCount)
  : list Ingredient * list StockCount :=
  if negb confirmFinalize then (ingredients, stockCounts)
  else
    let done := fold_left finalizeItem countItems ([], 0) in
    let finalItems := fst done in
    let newCount := mkStockCount ("sc_" ++ stamp) now finalItems (snd done) in
    let stockCounts' := newCount :: stockCounts in
    if confirmApply then
      (map (fun ing =>
              match find (fun ci => String.eqb (fc_ingredientId ci) (ing_id ing))
                         finalItems with
              | None => ing
              | Some countedItem =>
                  let newHistory :=
                    mkStockHistoryItem now (fc_actualStock countedItem)
                                       (fc_unitCost countedItem) in
                  setStockHistory ing [newHistory]
              end)
           ingredients,
       stockCounts')
    else (ingredients, stockCounts').

(** ** Bulk edit (index.tsx, lines 1163-1206) *)

(** The fields of [data] after [parseFloatOrUndefined] and
    [parseIntOrUndefined]: [None] is [undefined].  The inputs are number
    fields, so a present value parses to a number. *)
Record BulkEditData : Type := mkBulkEditData {
  data_price : option Q;
  data_lowStockThreshold : option Z;
  data_stock : option Z;
  data_cost : option Q
}.

(** [selectedItems.has(id)] *)
Definition has (selectedItems : list string) (id : string) : bool :=
  existsb (String.eqb id) selectedItems.

(** The [prev => prev.map(...)] of the ingredients tab, one ingredient. *)
Definition bulkSaveIngredient (now : string) (selectedItems : list string)
    (data : BulkEditData) (stockOp : string) (ing : Ingredient) : Ingredient :=
  if has selectedItems (ing_id ing) then
    let newIng := setStockHistory ing (stockHistory ing) in
    let newIng :=
      match data_price data with
      | Some price =>
          mkIngredient (ing_id newIng) (ing_name newIng) (ing_unit newIng) price
                       (ing_lowStockThreshold newIng) (stockHistory newIng)
      | None => newIng
      end in
    let newIng :=
      match data_lowStockThreshold data with
      | Some lowStockThreshold =>
          mkIngredient (ing_id newIng) (ing_name newIng) (ing_unit newIng)
                       (ing_price newIng) (inject_Z lowStockThreshold)
                       (stockHistory newIng)
      | None => newIng
      end in
    match data_stock data with
    | Some stockValue =>
        let quantity :=
          if String.eqb stockOp "add" then inject_Z stockValue
          else - inject_Z stockValue in
        pushBatch newIng (mkStockHistoryItem now quantity 0)
    | None => newIng
    end
  else ing.

(** The new content of the [ingredients] and [inventory] stores. *)
Definition handleBulkSave (activeTab : InventoryTab) (selectedItems : list string)
    (now : string) (data : BulkEditData) (stockOp : string)
    (ingredients : list Ingredient) (inventory : list Product)
  : list Ingredient * list Product :=
  match activeTab with
  | INGREDIENTS =>
      (map (bulkSaveIngredient now selectedItems data stockOp) ingredients,
       inventory)
  | PRODUCTS =>
      match data_price data with
      | None => (ingredients, inventory)
      | Some newValue =>
          (ingredients,
           map (fun p =>
                  if has selectedItems (p_id p)
                  then mkProduct (p_id p) (p_name p) newValue (p_quantity p)
                                 (p_cost p) (p_type p) (recipe p)
                  else p)
               inventory)
      end
  | _ =>
      match data_cost data with
      | None => (ingredients, inventory)
      | Some newValue =>
          (ingredients,
           map (fun p =>
                  if has selectedItems (p_id p)
                  then mkProduct (p_id p) (p_name p) (p_price p) (p_quantity p)
                                 newValue (p_type p) (recipe p)
                  else p)
               inventory)
      end
  end.

(** ** Ingredient modal, the submit handler (index.tsx, lines 277-332) *)

(** The form fields as the handler reads them: the numbers arrive parsed
    ([parseFloat(String(...)) || 0], [parseInt(String(...), 10) || 0]).
    [form_id] is [ingredient.id] when an ingredient is edited and the empty
    string for a new one; the form has no input for it. *)
Record IngredientForm : Type := mkIngredientForm {
  form_id : string;
  form_name : string;
  form_unit : string;
  form_price : Q;
  form_lowStockThreshold : Z;
  form_stock : Z;
  form_totalCost : Q;
  form_addQuantity : Q;
  form_addTotalCost : Q
}.

(** The three messages [setError] is called with before the handler
    returns without saving. *)
Inductive SubmitError : Type :=
| NameAndUnitRequired
| NameAlreadyExists (name : string)
| StockMustBePositive.

(** [!s] for a string. *)
Definition isEmpty (s : string) : bool := String.eqb s EmptyString.

Module IngredientModal.
Section WithLowerCase.

(** [String.prototype.toLowerCase], a library function. *)
Variable toLowerCase : string -> string.

(** [inl] is the error shown, [inr] the argument of [onSave].  [stamp] is
    [Date.now()] as text. *)
Definition handleSubmit (now stamp : string) (ingredients : list Ingredient)
    (ingredient : option Ingredient) (formData : IngredientForm)
  : SubmitError + Ingredient :=
  if isEmpty (form_name formData) || isEmpty (form_unit formData) then
    inl NameAndUnitRequired
  else
    let existingIngredient :=
      find (fun i =>
              String.eqb (toLowerCase (ing_name i)) (toLowerCase (form_name formData))
              && negb (String.eqb (ing_id i) (form_id formData)))
           ingredients in
    match existingIngredient with
    | Some _ => inl (NameAlreadyExists (form_name formData))
    | None =>
        match ingredient with
        | Some ingredient =>
            inr (handleSubmit_editing now ingredient (form_name formData)
                   (form_unit formData) (form_price formData)
                   (form_lowStockThreshold formData)
                   (form_addQuantity formData) (form_addTotalCost formData))
        | None =>
            let stock := form_stock formData in
            let totalCost := form_totalCost formData in
            if (stock <=? 0)%Z then inl StockMustBePositive
            else
              let unitCost := totalCost / inject_Z stock in
              inr (mkIngredient ("ing_" ++ stamp) (form_name formData)
                     (form_unit formData) (form_price formData)
                     (inject_Z (form_lowStockThreshold formData))
                     [mkStockHistoryItem now (inject_Z stock) unitCost])
        end
    end.

End WithLowerCase.
End IngredientModal.

(** ** Product modal (index.tsx, lines 415-447) *)

(** [arr[k] = x] on a copy of the array, for [k] in range (it comes from
    [findIndex]). *)
Fixpoint replaceAt {A : Type} (k : nat) (x : A) (arr : list A) : list A :=
  match arr, k with
  | [], _ => []
  | _ :: rest, O => x :: rest
  | y :: rest, S k' => y :: replaceAt k' x rest
  end.

Record ProductFormData : Type := mkProductFormData {
  pf_id : string;
  pf_name : string;
  pf_price : Q;
  pf_cost : Q;
  pf_type : ProductKind;
  pf_recipe : list RecipeItem
}.

Module ProductModal.

(** The new [formData.recipe].  [ingId] and [qty] are the fields of
    [recipeBuilder]; [qty] is [None] for the empty input and the parsed
    number otherwise. *)
Definition handleAddIngredientToRecipe (ingId : string) (qty : option Q)
    (recipe : list RecipeItem) : list RecipeItem :=
  match qty with
  | None => recipe
  | Some quantity =>
      if isEmpty ingId || Qle_bool quantity 0 then recipe
      else
        let newRecipeItem := mkRecipeItem ingId quantity in
        let existingItemIndex :=
          findIndex (fun item =>
                       String.eqb (ingredientId item) (ingredientId newRecipeItem))
                    recipe in
        match existingItemIndex with
        | Some k => replaceAt k newRecipeItem recipe
        | None => recipe ++ [newRecipeItem]
        end
  end.

Definition handleRemoveIngredient (id : string) (recipe : list RecipeItem)
  : list RecipeItem :=
  filter (fun item => negb (String.eqb (ingredientId item) id)) recipe.

(** The argument of [onSave]. *)
Definition handleSubmit (stamp : string) (formData : ProductFormData) : Product :=
  mkProduct
    (if isEmpty (pf_id formData) then "prod_" ++ stamp else pf_id formData)
    (pf_name formData)
    (pf_price formData)
    (match pf_type formData with KindMiscCost => 1 | KindProduct => 0 end)
    (match pf_type formData with KindMiscCost => pf_cost formData | KindProduct => 0 end)
    (pf_type formData)
    (match pf_type formData with KindProduct => pf_recipe formData | KindMiscCost => [] end).

End ProductModal.

(** ** Inventory view: save and delete (index.tsx, lines 1082-1161) *)

Definition handleProductSave (prev : list Product) (product : Product)
  : list Product :=
  match find (fun p => String.eqb (p_id p) (p_id product)) prev with
  | Some _ =>
      map (fun p => if String.eqb (p_id p) (p_id product) then product else p) prev
  | None => prev ++ [product]
  end.

Definition handleIngredientSave (prev : list Ingredient) (ingredient : Ingredient)
  : list Ingredient :=
  match find (fun i => String.eqb (ing_id i) (ing_id ingredient)) prev with
  | Some _ =>
      map (fun i => if String.eqb (ing_id i) (ing_id ingredient) then ingredient else i)
          prev
  | None => prev ++ [ingredient]
  end.

(** [{ ...p, recipe: r }] *)
Definition setRecipe (p : Product) (r : list RecipeItem) : Product :=
  mkProduct (p_id p) (p_name p) (p_price p) (p_quantity p) (p_cost p) (p_type p) r.

(** [confirmed] is the answer to [window.confirm]; the result is the new
    content of the [ingredients] and [inventory] stores. *)
Definition handleDelete (confirmed : bool) (activeTab : InventoryTab) (id : string)
    (ingredients : list Ingredient) (inventory : list Product)
  : list Ingredient * list Product :=
  if negb confirmed then (ingredients, inventory)
  else
    match activeTab with
    | INGREDIENTS =>
        (filter (fun i => negb (String.eqb (ing_id i) id)) ingredients,
         map (fun p =>
                setRecipe p
                  (filter (fun r => negb (String.eqb (ingredientId r) id)) (recipe p)))
             inventory)
    | PRODUCTS | MISC =>
        (ingredients, filter (fun p => negb (String.eqb (p_id p) id)) inventory)
    | _ => (ingredients, inventory)
    end.

Definition handleBulkDelete (confirmed : bool) (activeTab : InventoryTab)
    (selectedItems : list string)
    (ingredients : list Ingredient) (inventory : list Product)
  : list Ingredient * list Product :=
  if confirmed then
    match activeTab with
    | INGREDIENTS =>
        (filter (fun i => negb (has selectedItems (ing_id i))) ingredients,
         map (fun p =>
                setRecipe p
                  (filter (fun r => negb (has selectedItems (ingredientId r)))
                          (recipe p)))
             inventory)
    | _ =>
        (ingredients, filter (fun p => negb (has selectedItems (p_id p))) inventory)
    end
  else (ingredients, inventory).

(** ** Point of sale (index.tsx, lines 1388-1391 and 1592-1749) *)

Record Tax : Type := mkTax {
  tax_id : string;
  tax_name : string;
  rate : Q
}.

Inductive PaymentMode : Type := Cash | EPayment | Internal.

Record Transaction : Type := mkTransaction {
  tx_id : string;
  tx_items : list CartItem;
  tx_total : Q;
  tx_timestamp : string;
  tx_paymentMode : option PaymentMode;
  tx_notes : string;
  isEmployeeMeal : bool
}.

Record KitchenOrder : Type := mkKitchenOrder {
  ko_id : string;
  orderNumber : Z;
  ko_timestamp : string;
  ko_items : list CartItem
}.

Record LastOrderNumber : Type := mkLastOrderNumber {
  lo_date : string;   (* YYYY-MM-DD *)
  lo_number : Z
}.

(** The entries of [menuProducts] and [extraItems]. *)
Record SellableItem : Type := mkSellableItem {
  item_id : string;
  item_name : string;
  item_price : Q;
  item_stock : Q;
  item_type : CartItemType
}.

(** [Omit<Transaction, 'id' | 'items' | 'timestamp'>] *)
Record TransactionDetails : Type := mkTransactionDetails {
  d_total : Q;
  d_paymentMode : PaymentMode;
  d_notes : string;
  d_isEmployeeMeal : bool
}.

(** The stores and the component state the sale handlers write to. *)
Record PosState : Type := mkPosState {
  pos_ingredients : list Ingredient;
  pos_transactions : list Transaction;
  pos_kitchenOrders : list KitchenOrder;
  pos_lastOrderNumber : LastOrderNumber;
  pos_cart : list CartItem;
  pos_notes : string
}.

(** [{ ...ci, quantity: q }] *)
Definition setQuantity (ci : CartItem) (q : Q) : CartItem :=
  mkCartItem (itemId ci) (ci_name ci) (ci_price ci) q (ci_type ci).

(** [s.split('T')[0]]: the text before the first ['T']. *)
Fixpoint beforeT (s : string) : string :=
  match s with
  | EmptyString => EmptyString
  | String c rest =>
      if Ascii.eqb c (Ascii.ascii_of_nat 84) (* 'T' *) then EmptyString
      else String c (beforeT rest)
  end.

Module CartView.

Definition cartSubtotal (cart : list CartItem) : Q :=
  fold_left (fun sum item => sum + ci_price item * ci_quantity item) cart 0.

(** [{ ...tax, amount }] as the pair of the tax and its amount. *)
Definition taxBreakdown (taxes : list Tax) (cart : list CartItem) : list (Tax * Q) :=
  map (fun tax => (tax, cartSubtotal cart * (rate tax / 100))) taxes.

Definition totalTax (taxes : list Tax) (cart : list CartItem) : Q :=
  fold_left (fun sum tax => sum + snd tax) (taxBreakdown taxes cart) 0.

Definition total (taxes : list Tax) (cart : list CartItem) : Q :=
  cartSubtotal cart + totalTax taxes cart.

End CartView.

Module POSView.

Definition menuProducts (inventory : list Product) (ingredients : list Ingredient)
  : list SellableItem :=
  map (fun p =>
         mkSellableItem (p_id p) (p_name p) (p_price p)
           (calculateProductStock (recipe p) ingredients) PRODUCT)
      (filter (fun p => match p_type p with KindProduct => true | KindMiscCost => false end)
              inventory).

Definition extraItems (ingredients : list Ingredient) : list SellableItem :=
  map (fun i =>
         mkSellableItem (ing_id i) (ing_name i) (ing_price i)
           (getIngredientTotalStock i) INGREDIENT)
      (filter (fun i => Qgt_bool (ing_price i) 0) ingredients).

Definition allSellableItems (inventory : list Product)
    (ingredients : list Ingredient) : list SellableItem :=
  menuProducts inventory ingredients ++ extraItems ingredients.

(** The new cart and the item id [triggerStockError] is called with, if it
    is called. *)
Definition addToCart (cart : list CartItem) (item : SellableItem)
  : list CartItem * option string :=
  let cartItem := find (fun ci => String.eqb (itemId ci) (item_id item)) cart in
  let currentCartQuantity :=
    match cartItem with
    | Some ci => ci_quantity ci
    | None => 0
    end in
  if Qgt_bool (item_stock item) currentCartQuantity then
    (match find (fun ci => String.eqb (itemId ci) (item_id item)) cart with
     | Some _ =>
         map (fun ci =>
                if String.eqb (itemId ci) (item_id item)
                then setQuantity ci (ci_quantity ci + 1)
                else ci)
             cart
     | None =>
         cart ++ [mkCartItem (item_id item) (item_name item) (item_price item) 1
                             (item_type item)]
     end,
     None)
  else (cart, Some (item_id item)).

Definition updateCartQuantity (sellable : list SellableItem)
    (cart : list CartItem) (id : string) (amount : Q)
  : list CartItem * option string :=
  match find (fun p => String.eqb (item_id p) id) sellable with
  | None => (cart, None)
  | Some sellableItem =>
      match find (fun i => String.eqb (itemId i) id) cart with
      | None => (cart, None)
      | Some item =>
          let newQuantity := ci_quantity item + amount in
          if Qgt_bool newQuantity (item_stock sellableItem) then (cart, Some id)
          else if Qle_bool newQuantity 0 then
            (filter (fun i => negb (String.eqb (itemId i) id)) cart, None)
          else
            (map (fun i =>
                    if String.eqb (itemId i) id then setQuantity i newQuantity else i)
                 cart,
             None)
      end
  end.

(** The whole handler: step 1 is the ledger update, steps 2 to 4 record
    the transaction, number the kitchen order and clear the cart.  [stamp]
    is [Date.now()] as text. *)
Definition handleFinalizeTransaction (now stamp : string) (inventory : list Product)
    (details : TransactionDetails) (st : PosState) : PosState :=
  let cart := pos_cart st in
  let updatedIngredients :=
    handleFinalizeTransaction now (pos_ingredients st) inventory cart in
  let transaction :=
    mkTransaction ("trans_" ++ stamp) cart (d_total details) now
                  (Some (d_paymentMode details)) (d_notes details)
                  (d_isEmployeeMeal details) in
  let today := beforeT now in
  let lastOrderNumber := pos_lastOrderNumber st in
  let newOrderNumber :=
    if String.eqb (lo_date lastOrderNumber) today
    then (lo_number lastOrderNumber + 1)%Z else 1%Z in
  mkPosState updatedIngredients
             (pos_transactions st ++ [transaction])
             (pos_kitchenOrders st ++
              [mkKitchenOrder ("ko_" ++ stamp) newOrderNumber now cart])
             (mkLastOrderNumber today newOrderNumber)
             []
             EmptyString.

Definition handlePayment (now stamp : string) (inventory : list Product)
    (paymentMode : PaymentMode) (st : PosState) : PosState :=
  handleFinalizeTransaction now stamp inventory
    (mkTransactionDetails
       (fold_left (fun sum item => sum + ci_price item * ci_quantity item)
                  (pos_cart st) 0)
       paymentMode (pos_notes st) false)
    st.

Definition handleEmployeeMeal (confirmed : bool) (now stamp : string)
    (inventory : list Product) (st : PosState) : PosState :=
  if negb confirmed then st
  else
    handleFinalizeTransaction now stamp inventory
      (mkTransactionDetails 0 Internal ("Employee Meal. " ++ pos_notes st) true)
      st.

End POSView.

(** ** Time clock (index.tsx, lines 1552-1590) *)

Inductive Role : Type := Admin | Employee.

Record User : Type := mkUser {
  user_id : string;
  user_name : string;
  pin : string;
  role : Role;
  dailyRate : option Q
}.

Record TimeClockEntry : Type := mkTimeClockEntry {
  tc_id : string;
  tc_userId : string;
  startTime : string;
  endTime : option string
}.

(** [!e.endTime]: no end time, or an empty one. *)
Definition notEnded (e : TimeClockEntry) : bool :=
  match endTime e with
  | None => true
  | Some s => isEmpty s
  end.

(** [timeClockEntries.find(e => e.userId === currentUser.id && !e.endTime)] *)
Definition openShift (timeClockEntries : list TimeClockEntry) (currentUser : User)
  : option TimeClockEntry :=
  find (fun e => String.eqb (tc_userId e) (user_id currentUser) && notEnded e)
       timeClockEntries.

Section TimeClock.

(** [new Date(iso).getTime()]: milliseconds since the epoch, a library
    function. *)
Variable getTime : string -> Q.

(** The cost booked at clock-out. *)
Definition laborCost (dailyRate : Q) (start finish : string) : Q :=
  let durationHours := (getTime finish - getTime start) / (1000 * 60 * 60) in
  let hourlyRate := dailyRate / 12 in
  let paidHours := Qmin durationHours 12 in
  paidHours * hourlyRate.

(** The new content of the [timeClockEntries] and [inventory] stores.
    [Product] carries no [timestamp] here; the labor cost item is the
    record without it. *)
Definition handleTimeClock (now stamp : string) (currentUser : User)
    (timeClockEntries : list TimeClockEntry) (inventory : list Product)
  : list TimeClockEntry * list Product :=
  match openShift timeClockEntries currentUser with
  | Some shift => (* clocking out *)
      let endTime := now in
      let entries :=
        map (fun e =>
               if String.eqb (tc_id e) (tc_id shift)
               then mkTimeClockEntry (tc_id e) (tc_userId e) (startTime e)
                                     (Some endTime)
               else e)
            timeClockEntries in
      match dailyRate currentUser with
      | Some r =>
          if Qgt_bool r 0 then
            let cost := laborCost r (startTime shift) endTime in
            let laborCostItem :=
              mkProduct ("misc_" ++ stamp) ("Labor Cost: " ++ user_name currentUser)
                        0 1 cost KindMiscCost [] in
            (entries, inventory ++ [laborCostItem])
          else (entries, inventory)
      | None => (entries, inventory)
      end
  | None => (* clocking in *)
      let newEntry :=
        mkTimeClockEntry ("tc_" ++ stamp) (user_id currentUser) now None in
      (timeClockEntries ++ [newEntry], inventory)
  end.

End TimeClock.

(** ** Dashboard figures (index.tsx, lines 588-638) *)

Record DashboardStats : Type := mkDashboardStats {
  totalRevenue : Q;
  grossProfit : Q;
  netProfit : Q;
  totalLaborCost : Q;
  totalOperatingCosts : Q;
  productCount : nat
}.

Module DashboardView.

(** The callback of the reduce that sums the cost of goods sold: the cost
    of one sold item line. *)
Definition itemCost (inventory : list Product) (ingredients : list Ingredient)
    (item : CartItem) : Q :=
  match ci_type item with
  | PRODUCT =>
      match find (fun p => String.eqb (p_id p) (itemId item)) inventory with
      | Some product => calculateProductCost (recipe product) ingredients
      | None => 0
      end
  | INGREDIENT =>
      match find (hasId (itemId item)) ingredients with
      | Some ingredient => getIngredientAverageCost ingredient
      | None => 0
      end
  end.

(** [item.name.startsWith("Labor Cost:")] *)
Definition isLaborCost (item : Product) : bool :=
  String.prefix "Labor Cost:" (p_name item).

(** [filteredTransactions] and [filteredMiscCosts] are the transactions and
    the misc costs the date filter lets through. *)
Definition stats (inventory : list Product) (ingredients : list Ingredient)
    (filteredTransactions : list Transaction) (filteredMiscCosts : list Product)
  : DashboardStats :=
  let totalRevenue :=
    fold_left (fun sum t => sum + tx_total t)
              (filter (fun t => negb (isEmployeeMeal t)) filteredTransactions) 0 in
  let totalCostOfGoodsSold :=
    fold_left (fun sum item =>
                 sum + itemCost inventory ingredients item * ci_quantity item)
              (flat_map tx_items filteredTransactions) 0 in
  let grossProfit := totalRevenue - totalCostOfGoodsSold in
  let totalLaborCost :=
    fold_left (fun sum item => sum + p_cost item)
              (filter isLaborCost filteredMiscCosts) 0 in
  let otherMiscCosts :=
    fold_left (fun sum item => sum + p_cost item)
              (filter (fun item => negb (isLaborCost item)) filteredMiscCosts) 0 in
  let totalOperatingCosts := otherMiscCosts + totalLaborCost in
  let netProfit := grossProfit - totalOperatingCosts in
  mkDashboardStats totalRevenue grossProfit netProfit totalLaborCost
    totalOperatingCosts
    (List.length
       (filter (fun p => match p_type p with KindProduct => true | KindMiscCost => false end)
               inventory)).

Definition lowStockIngredients (ingredients : list Ingredient) : list Ingredient :=
  filter (fun i =>
            let totalStock := getIngredientTotalStock i in
            Qgt_bool (ing_lowStockThreshold i) 0
            && Qle_bool totalStock (ing_lowStockThreshold i))
         ingredients.

End DashboardView.

(** ** Taxes (index.tsx, lines 1930-1951) *)

Module SettingsView.

(** [newTaxRate] is [None] for the empty input; [stamp] is [Date.now()] as
    text.  The result is the argument of [onTaxesChange], or the taxes as
    they are when the handler returns early. *)
Definition handleAddTax (stamp : string) (newTaxName : string)
    (newTaxRate : option Q) (taxes : list Tax) : list Tax :=
  match newTaxRate with
  | None => taxes
  | Some rate =>
      if isEmpty newTaxName then taxes
      else if Qgt_bool 0 rate then taxes
      else taxes ++ [mkTax ("tax_" ++ stamp) newTaxName rate]
  end.

Definition handleDeleteTax (id : string) (taxes : list Tax) : list Tax :=
  filter (fun t => negb (String.eqb (tax_id t) id)) taxes.

End SettingsView.

(** ** Migration of stored ingredients (index.tsx, lines 156-179) *)

(** A number property of a stored record as [JSON.parse] returns it: a
    number, or [null] (which is what [JSON.stringify] writes for [NaN] and
    the infinities). *)
Inductive StoredNumber : Type :=
| JNull
| JNumber (value : Q).

(** [null] in arithmetic and comparisons counts as 0. *)
Definition toNumber (x : StoredNumber) : Q :=
  match x with
  | JNull => 0
  | JNumber value => value
  end.

Record StoredBatch : Type := mkStoredBatch {
  sb_date : string;
  sb_quantity : StoredNumber;
  sb_unitCost : StoredNumber
}.

(** An ingredient as [JSON.parse] returns it from local storage: besides
    the fields of today it may still carry the legacy [stock], [unitCost]
    and [cost], and may lack [price], [lowStockThreshold] or
    [stockHistory].  [None] is an absent property and [Some JNull] one that
    is present and [null]; for [stockHistory], which is only tested with
    [!], [None] stands for both. *)
Record StoredIngredient : Type := mkStoredIngredient {
  st_id : string;
  st_name : string;
  st_unit : string;
  st_price : option StoredNumber;
  st_lowStockThreshold : option StoredNumber;
  st_stockHistory : option (list StoredBatch);
  st_stock : option StoredNumber;
  st_unitCost : option StoredNumber;
  st_cost : option StoredNumber
}.

(** [if (!x) x = 0]: an absent property, [null] and 0 all give 0. *)
Definition orZero (x : option StoredNumber) : StoredNumber :=
  match x with
  | Some (JNumber value) => if Qeq_bool value 0 then JNumber 0 else JNumber value
  | Some JNull | None => JNumber 0
  end.

(** The callback of [parsed.map] for the key ['pos-ingredients'].  The
    legacy branch is taken when the record has a [stock] property, be it
    [null]; [??] passes over an absent and over a [null] unit cost. *)
Definition migrateIngredient (now : string) (i : StoredIngredient)
  : StoredIngredient :=
  let price := Some (orZero (st_price i)) in
  let lowStockThreshold := Some (orZero (st_lowStockThreshold i)) in
  match st_stockHistory i, st_stock i with
  | None, Some stock =>
      let unitCost :=
        match st_unitCost i with
        | Some (JNumber unitCost) => JNumber unitCost
        | Some JNull | None =>
            match st_cost i with
            | Some cost =>
                if Qgt_bool (toNumber stock) 0
                then JNumber (toNumber cost / toNumber stock)
                else JNumber 0
            | None => JNumber 0
            end
        end in
      mkStoredIngredient (st_id i) (st_name i) (st_unit i) price lowStockThreshold
        (Some [mkStoredBatch now stock unitCost]) None None None
  | None, None =>
      mkStoredIngredient (st_id i) (st_name i) (st_unit i) price lowStockThreshold
        (Some []) (st_stock i) (st_unitCost i) (st_cost i)
  | Some history, _ =>
      mkStoredIngredient (st_id i) (st_name i) (st_unit i) price lowStockThreshold
        (Some history) (st_stock i) (st_unitCost i) (st_cost i)
  end.

(** * The ledger in binary64 (index.tsx, lines 129-138, 227-244, 296-309,
      1163-1189 and 1665-1700)

    The same functions as above, with [number] as the program has it: an
    IEEE 754 binary64 value.  The operators [+], [-], [*], [/], [<], [<=]
    and [===] of JavaScript on numbers are the primitive operations of
    [float], rounded to nearest, ties to even. *)

Module Binary64.

Record StockHistoryItem : Type := mkStockHistoryItem {
  sh_date : string;
  sh_quantity : float;
  sh_unitCost : float   (* cost per unit for this specific batch *)
}.

Record Ingredient : Type := mkIngredient {
  ing_id : string;
  ing_name : string;
  ing_unit : string;
  ing_price : float;
  ing_lowStockThreshold : float;
  stockHistory : list StockHistoryItem
}.

Record RecipeItem : Type := mkRecipeItem {
  ingredientId : string;
  ri_quantity : float
}.

Record Product : Type := mkProduct {
  p_id : string;
  p_name : string;
  p_price : float;
  p_quantity : float;
  p_cost : float;
  p_type : ProductKind;
  recipe : list RecipeItem
}.

Record CartItem : Type := mkCartItem {
  itemId : string;
  ci_name : string;
  ci_price : float;
  ci_quantity : float;
  ci_type : CartItemType
}.

(** *** JavaScript library functions on numbers *)

(** [x || 0] on a number: [NaN], [0] and [-0] are falsy. *)
Definition orZero (x : float) : float :=
  if is_nan x || (x =? 0)%float then 0%float else x.

(** [Math.floor]: the largest integer that is not above [x]; [NaN], the
    infinities and the zeros are returned as they are.  A finite [x] is
    [m * 2^e] for its mantissa and exponent; with [e < 0] the integer part
    is below [2^52], which binary64 holds exactly. *)
Definition Math_floor (x : float) : float :=
  match Prim2SF x with
  | S754_finite s m e =>
      if (0 <=? e)%Z then x
      else
        let n := Z.shiftr (if s then Z.neg m else Z.pos m) (- e) in
        if (n =? 0)%Z then 0%float
        else SF2Prim (binary_normalize prec emax n 0 false)
  | _ => x
  end.

(** The loop of [Math.min] (ECMAScript, Math.min, step 4), [lowest] being
    the number kept so far: a [NaN] ends it, [-0] replaces [+0], a smaller
    number replaces a larger one. *)
Fixpoint Math_min_from (lowest : float) (coerced : list float) : float :=
  match coerced with
  | [] => lowest
  | number :: rest =>
      if is_nan number then nan
      else if (is_zero number && get_sign number)
              && (is_zero lowest && negb (get_sign lowest))
      then Math_min_from number rest
      else if (number <? lowest)%float then Math_min_from number rest
      else Math_min_from lowest rest
  end.

(** [Math.min(...values)]; [Infinity] for no value at all. *)
Definition Math_min (values : list float) : float :=
  Math_min_from infinity values.

(** [i => i.id === target] *)
Definition hasId (target : string) (i : Ingredient) : bool :=
  String.eqb (ing_id i) target.

(** *** Helper functions (lines 129-138) *)

Definition getIngredientTotalStock (ingredient : Ingredient) : float :=
  fold_left (fun sum record => (sum + sh_quantity record)%float)
            (stockHistory ingredient) 0%float.

Definition getIngredientAverageCost (ingredient : Ingredient) : float :=
  let totalStock := getIngredientTotalStock ingredient in
  if (totalStock <=? 0)%float then 0%float
  else
    let totalCost :=
      fold_left
        (fun sum record => (sum + sh_quantity record * sh_unitCost record)%float)
        (stockHistory ingredient) 0%float in
    (totalCost / totalStock)%float.

(** *** Recipe resolver (lines 235-244) *)

(** The callback of [recipe.map] in [calculateProductStock]. *)
Definition stockLevel (ingredients : list Ingredient) (recipeItem : RecipeItem)
  : float :=
  let ingredient := find (hasId (ingredientId recipeItem)) ingredients in
  let ingredientStock :=
    match ingredient with
    | Some i => getIngredientTotalStock i
    | None => 0%float
    end in
  if (match ingredient with None => true | Some _ => false end)
     || (ingredientStock =? 0)%float
     || (ri_quantity recipeItem =? 0)%float
  then 0%float
  else Math_floor (ingredientStock / ri_quantity recipeItem).

Definition calculateProductStock (recipe : list RecipeItem)
                                 (ingredients : list Ingredient) : float :=
  match recipe with
  | [] => 0%float
  | _ :: _ => Math_min (map (stockLevel ingredients) recipe)
  end.

(** *** Record updates written as object spreads in the source *)

(** [{ ...i, stockHistory: h }] *)
Definition setStockHistory (i : Ingredient) (h : list StockHistoryItem) : Ingredient :=
  mkIngredient (ing_id i) (ing_name i) (ing_unit i) (ing_price i)
               (ing_lowStockThreshold i) h.

(** [i.stockHistory.push(b)] on an ingredient that owns its history array. *)
Definition pushBatch (i : Ingredient) (b : StockHistoryItem) : Ingredient :=
  setStockHistory i (stockHistory i ++ [b]).

(** [arr[k].stockHistory.push(b)]; [k] always comes from [findIndex], so it
    is in range (out of range the list is returned as it is). *)
Fixpoint pushBatchAt (k : nat) (b : StockHistoryItem) (arr : list Ingredient)
  : list Ingredient :=
  match arr, k with
  | [], _ => []
  | i :: rest, O => pushBatch i b :: rest
  | i :: rest, S k' => i :: pushBatchAt k' b rest
  end.

(** *** Ingredient modal, editing an existing ingredient (lines 296-309)

    The arguments [price], [addQuantity] and [addTotalCost] are the results
    of [parseFloat] and [lowStockThreshold] the result of [parseInt], each
    possibly [NaN]; the handler reads them through [|| 0]. *)
Definition newUnitCost (addQuantity addTotalCost : float) : float :=
  if (0 <? addTotalCost)%float && (0 <? addQuantity)%float
  then (addTotalCost / addQuantity)%float else 0%float.

Definition handleSubmit_editing (now : string) (ingredient : Ingredient)
    (name unit : string) (price lowStockThreshold : float)
    (parsedAddQuantity parsedAddTotalCost : float) : Ingredient :=
  let addQuantity := orZero parsedAddQuantity in
  let addTotalCost := orZero parsedAddTotalCost in
  let updatedIngredient :=
    mkIngredient (ing_id ingredient) name unit (orZero price)
                 (orZero lowStockThreshold) (stockHistory ingredient) in
  if (0 <? addQuantity)%float then
    pushBatch updatedIngredient
      (mkStockHistoryItem now addQuantity (newUnitCost addQuantity addTotalCost))
  else updatedIngredient.

(** *** Consumption on a completed sale (lines 1665-1700) *)

(** The closure [processIngredient] of [handleFinalizeTransaction]; the
    array [updatedIngredients] it mutates is passed and returned. *)
Definition processIngredient (now : string) (updatedIngredients : list Ingredient)
    (id : string) (qty avgCost : float) : list Ingredient :=
  match findIndex (hasId id) updatedIngredients with
  | Some ingIndex =>
      pushBatchAt ingIndex (mkStockHistoryItem now (- qty)%float avgCost)
                  updatedIngredients
  | None => updatedIngredients
  end.

(** The body of [cart.forEach], one cart item. *)
Definition deductCartItem (now : string) (ingredients : list Ingredient)
    (inventory : list Product) (updatedIngredients : list Ingredient)
    (cartItem : CartItem) : list Ingredient :=
  match ci_type cartItem with
  | PRODUCT =>
      match find (fun p => String.eqb (p_id p) (itemId cartItem)) inventory with
      | Some product =>
          fold_left
            (fun updated recipeItem =>
               match find (hasId (ingredientId recipeItem)) ingredients with
               | Some ingredient =>
                   let quantityToDecrement :=
                     (ri_quantity recipeItem * ci_quantity cartItem)%float in
                   processIngredient now updated (ingredientId recipeItem)
                     quantityToDecrement (getIngredientAverageCost ingredient)
               | None => updated
               end)
            (recipe product) updatedIngredients
      | None => updatedIngredients
      end
  | INGREDIENT =>
      match find (hasId (itemId cartItem)) ingredients with
      | Some ingredient =>
          processIngredient now updatedIngredients (itemId cartItem)
            (ci_quantity cartItem) (getIngredientAverageCost ingredient)
      | None => updatedIngredients
      end
  end.

(** Step 1 of [handleFinalizeTransaction]: the argument of [setIngredients].
    [updatedIngredients] starts as a copy of [ingredients] with copied
    history arrays, so [ingredients] itself keeps the state at sale start. *)
Definition handleFinalizeTransaction (now : string) (ingredients : list Ingredient)
    (inventory : list Product) (cart : list CartItem) : list Ingredient :=
  let updatedIngredients :=
    map (fun i => setStockHistory i (stockHistory i)) ingredients in
  fold_left (deductCartItem now ingredients inventory) cart updatedIngredients.

(** *** Bulk edit of ingredients (lines 1163-1189)

    [price], [lowStockThreshold] and [stockValue] are the results of
    [parseFloatOrUndefined] and [parseIntOrUndefined]: [None] is
    [undefined], and a present value may be [NaN]. *)
Definition bulkSaveIngredient (now : string) (selectedItems : list string)
    (price lowStockThreshold stockValue : option float) (stockOp : string)
    (ing : Ingredient) : Ingredient :=
  if has selectedItems (ing_id ing) then
    let newIng := setStockHistory ing (stockHistory ing) in
    let newIng :=
      match price with
      | Some price =>
          mkIngredient (ing_id newIng) (ing_name newIng) (ing_unit newIng) price
                       (ing_lowStockThreshold newIng) (stockHistory newIng)
      | None => newIng
      end in
    let newIng :=
      match lowStockThreshold with
      | Some lowStockThreshold =>
          mkIngredient (ing_id newIng) (ing_name newIng) (ing_unit newIng)
                       (ing_price newIng) lowStockThreshold (stockHistory newIng)
      | None => newIng
      end in
    match stockValue with
    | Some stockValue =>
        if is_nan stockValue then newIng
        else
          let quantity :=
            if String.eqb stockOp "add" then stockValue else (- stockValue)%float in
          pushBatch newIng (mkStockHistoryItem now quantity 0%float)
    | None => newIng
    end
  else ing.

(** [handleBulkSave] in the ingredients tab: the argument of
    [setIngredients]. *)
Definition handleBulkSave (selectedItems : list string) (now : string)
    (price lowStockThreshold stockValue : option float) (stockOp : string)
    (ingredients : list Ingredient) : list Ingredient :=
  map (bulkSaveIngredient now selectedItems price lowStockThreshold stockValue
                          stockOp)
      ingredients.

End Binary64.

(** ** The formulas of the design document

    Written after the document's words, to be compared with the functions
    above. *)

(** Σ over a list of numbers; 0 for the empty list. *)
Fixpoint Qsum (l : list Q) : Q :=
  match l with
  | [] => 0
  | x :: rest => x + Qsum rest
  end.

(** [totalStock = Σ batch.quantity] *)
Definition spec_totalStock (batches : list StockHistoryItem) : Q :=
  Qsum (map sh_quantity batches).

(** [Σ (batch.quantity × batch.unitCost)], the net cost basis. *)
Definition spec_costBasis (batches : list StockHistoryItem) : Q :=
  Qsum (map (fun batch => sh_quantity batch * sh_unitCost batch) batches).

(** [ingredientById(id)]: the first ingredient of the set with that id. *)
Definition ingredientById (ingredients : list Ingredient) (id : string)
  : option Ingredient :=
  find (hasId id) ingredients.

(** What one recipe line adds to the cost of a recipe:
    [averageCost(ingredientById(line.ingredientId)) × line.quantity], and 0
    for an id that resolves to no ingredient. *)
Definition spec_lineCost (ingredients : list Ingredient) (line : RecipeItem) : Q :=
  match ingredientById ingredients (ingredientId line) with
  | Some ingredient => getIngredientAverageCost ingredient * ri_quantity line
  | None => 0
  end.

(** [cost(recipe, ingredients)]: the sum over the recipe lines. *)
Definition spec_cost (recipe : list RecipeItem) (ingredients : list Ingredient) : Q :=
  Qsum (map (spec_lineCost ingredients) recipe).

(** What one recipe line allows to make:
    [floor(totalStock(ingredient) / line.quantity)], and 0 if the ingredient
    is missing, its stock is 0, or the line quantity is 0. *)
Definition spec_lineStock (ingredients : list Ingredient) (line : RecipeItem) : Q :=
  match ingredientById ingredients (ingredientId line) with
  | None => 0
  | Some ingredient =>
      if Qeq_dec (getIngredientTotalStock ingredient) 0 then 0
      else if Qeq_dec (ri_quantity line) 0 then 0
      else inject_Z (Qfloor (getIngredientTotalStock ingredient / ri_quantity line))
  end.

(** The quantities a sale deducts from the ingredient [id], in cart order:
    [recipeLine.quantity × cartLine.quantity] for every recipe line of a
    PRODUCT cart line that refers to [id] (the product being the first of
    the inventory with the cart line's item id), and [cartLine.quantity]
    for an INGREDIENT cart line whose item is [id]. *)
Definition spec_deductions (inventory : list Product) (cart : list CartItem)
    (id : string) : list Q :=
  flat_map
    (fun cartLine =>
       match ci_type cartLine with
       | PRODUCT =>
           match find (fun p => String.eqb (p_id p) (itemId cartLine)) inventory with
           | Some product =>
               flat_map
                 (fun recipeLine =>
                    if String.eqb (ingredientId recipeLine) id
                    then [ri_quantity recipeLine * ci_quantity cartLine]
                    else [])
                 (recipe product)
           | None => []
           end
       | INGREDIENT =>
           if String.eqb (itemId cartLine) id then [ci_quantity cartLine] else []
       end)
    cart.

(** The ingredient after a sale: its history followed by one negative batch
    per deducted quantity, each at [unitCost]. *)
Definition withDeductions (now : string) (unitCost : Q) (deductions : list Q)
    (ing : Ingredient) : Ingredient :=
  setStockHistory ing
    (stockHistory ing ++
     map (fun deduction => mkStockHistoryItem now (- deduction) unitCost)
         deductions).

(** What the sale loop maintains for the ingredient [id]: looked up in
    the array being updated, it is the ingredient of the sale-start array
    followed by the deductions [deductions], priced at its sale-start
    average cost. *)
Definition holdsDeductions (now : string) (ingredients : list Ingredient)
    (id : string) (updated : list Ingredient) (deductions : list Q) : Prop :=
  ingredientById updated id =
  option_map
    (fun ing => withDeductions now (getIngredientAverageCost ing) deductions ing)
    (ingredientById ingredients id).

(** The count a line stands for at finalize time: the number entered, or
    the expected stock when the field was left empty. *)
Definition spec_actual (item : StockCountItem) : Q :=
  match actualStock item with
  | Some entered => entered
  | None => expectedStock item
  end.

(** [totalVarianceValue = Σ (actual − expected) × unitCostAtCount] *)
Definition spec_totalVarianceValue (lines : list FinalCountItem) : Q :=
  Qsum (map (fun line =>
               (fc_actualStock line - fc_expectedStock line) * fc_unitCost line)
            lines).

(** The draft of a stock count after the user typed into the count fields:
    [edits] are the [(id, value)] arguments of the successive
    [handleCountChange] calls. *)
Definition countItemsAfter (ingredients : list Ingredient)
    (edits : list (string * option Q)) : list StockCountItem :=
  fold_left (fun countItems edit => handleCountChange countItems (fst edit) (snd edit))
            edits (initialCountItems ingredients).

(** A count line that belongs to an ingredient and carries its total stock
    and average cost. *)
Definition draftedFrom (ing : Ingredient) (item : StockCountItem) : Prop :=
  sc_ingredientId item = ing_id ing /\
  expectedStock item = getIngredientTotalStock ing /\
  sc_unitCost item = getIngredientAverageCost ing.

(** The same ledger figures: total stock and average cost. *)
Definition sameValuation (before after : Ingredient) : Prop :=
  getIngredientTotalStock after == getIngredientTotalStock before /\
  getIngredientAverageCost after == getIngredientAverageCost before.






(** ** Sample data

    The scenario of the design document (Flour and Bread) and a few ledgers
    used to run the functions on concrete inputs. *)

Definition batch (q c : Q) : StockHistoryItem :=
  mkStockHistoryItem "2024-01-01T00:00:00.000Z" q c.

Definition flour : Ingredient :=
  mkIngredient "ing_1" "Flour" "g" 0 0 [batch 1000 (5 # 100)].

Definition bread : Product :=
  mkProduct "prod_1" "Bread" 60 0 0 KindProduct [mkRecipeItem "ing_1" 200].

(** Ten units bought at 1, then twelve taken out: two units short. *)
Definition oversoldSugar : Ingredient :=
  mkIngredient "ing_2" "Sugar" "g" 0 0 [batch 10 1; batch (-12) 0].

Definition syrup : Product :=
  mkProduct "prod_2" "Syrup" 20 0 0 KindProduct [mkRecipeItem "ing_2" 1].

(** Ten units of salt bought at 1. *)
Definition salt : Ingredient :=
  mkIngredient "ing_3" "Salt" "g" 0 0 [batch 10 1].

(** Flour bought (1000 at 0.05), partly sold (400 at the average cost) and
    restocked (500 at 0.08). *)
Definition flourTraded : Ingredient :=
  pushBatch
    (pushBatch
       (pushBatch (mkIngredient "ing_1" "Flour" "g" 0 0 []) (batch 1000 (5 # 100)))
       (batch (- (400)) (5 # 100)))
    (batch 500 (8 # 100)).

(** ** Definitions for the further properties *)

(** The shape shared by [handleIngredientSave] and [handleProductSave]:
    replace the entries with the key of [x] by [x], or append [x] when no
    entry has that key. *)
Definition upsertBy {A : Type} (key : A -> string) (prev : list A) (x : A) : list A :=
  match find (fun y => String.eqb (key y) (key x)) prev with
  | Some _ => map (fun y => if String.eqb (key y) (key x) then x else y) prev
  | None => prev ++ [x]
  end.

(** No two ingredients share a name, upper and lower case not told apart. *)
Definition uniqueNames (toLowerCase : string -> string)
    (ingredients : list Ingredient) : Prop :=
  NoDup (map (fun i => toLowerCase (ing_name i)) ingredients).

(** [toLowerCase] on ASCII letters, to run the handlers on sample data. *)
Definition lowerAscii (c : Ascii.ascii) : Ascii.ascii :=
  let n := Ascii.nat_of_ascii c in
  if ((65 <=? n) && (n <=? 90))%nat then Ascii.ascii_of_nat (n + 32) else c.

Fixpoint asciiToLowerCase (s : string) : string :=
  match s with
  | EmptyString => EmptyString
  | String c rest => String (lowerAscii c) (asciiToLowerCase rest)
  end.

(** A filled-in form for a new ingredient: 20 units of pepper for 50. *)
Definition pepperForm : IngredientForm :=
  mkIngredientForm EmptyString "Pepper" "g" 0 0 20 50 0 0.

(** The form that renames Flour to Bread Flour and adds 500 units for 40. *)
Definition flourForm : IngredientForm :=
  mkIngredientForm "ing_1" "Bread Flour" "g" 0 0 0 0 500 40.

(** What the form saves for [pepperForm] at time stamp 17. *)
Definition pepper : Ingredient :=
  mkIngredient "ing_17" "Pepper" "g" 0 0
    [mkStockHistoryItem "t" (inject_Z 20) (50 / inject_Z 20)].

(** What the form saves for [flourForm] on [flour]. *)
Definition breadFlour : Ingredient :=
  handleSubmit_editing "t" flour "Bread Flour" "g" 0 0 500 40.

(** A recipe names each ingredient once and asks for positive quantities. *)
Definition recipeWellFormed (recipe : list RecipeItem) : Prop :=
  NoDup (map ingredientId recipe) /\
  Forall (fun line => 0 < ri_quantity line) recipe.

(** Every recipe line of every product refers to an ingredient of the set. *)
Definition recipesResolve (ingredients : list Ingredient)
    (inventory : list Product) : Prop :=
  Forall (fun p =>
            Forall (fun line =>
                      ingredientById ingredients (ingredientId line) <> None)
                   (recipe p))
         inventory.

(** The recipe lookup by ingredient id. *)
Definition recipeLine (recipe : list RecipeItem) (id : string) : option RecipeItem :=
  find (fun line => String.eqb (ingredientId line) id) recipe.

(** The quantity of an item in the cart, 0 when it is not there
    ([currentCartQuantity] in [addToCart]). *)
Definition cartQuantity (cart : list CartItem) (id : string) : Q :=
  match find (fun ci => String.eqb (itemId ci) id) cart with
  | Some ci => ci_quantity ci
  | None => 0
  end.

(** A cart holds each item once, in a positive quantity. *)
Definition cartWellFormed (cart : list CartItem) : Prop :=
  NoDup (map itemId cart) /\
  Forall (fun ci => 0 < ci_quantity ci) cart.

(** [{ ...st, cart }] *)
Definition setCart (st : PosState) (cart : list CartItem) : PosState :=
  mkPosState (pos_ingredients st) (pos_transactions st) (pos_kitchenOrders st)
             (pos_lastOrderNumber st) cart (pos_notes st).

(** One paid sale: the cart is filled with [cart] and paid in cash at time
    [now] (with [Date.now()] reading [stamp]). *)
Definition payFor (inventory : list Product) (st : PosState)
    (sale : string * string * list CartItem) : PosState :=
  POSView.handlePayment (fst (fst sale)) (snd (fst sale)) inventory Cash
                        (setCart st (snd sale)).

(** A till with Flour in stock, Bread on the menu, and order 7 as the last
    order of the first of January. *)
Definition openTill : PosState :=
  mkPosState [flour] [] [] (mkLastOrderNumber "2024-01-01" 7) []
             EmptyString.

(** Two sales of the second of January. *)
Definition secondOfJanuary : list (string * string * list CartItem) :=
  [("2024-01-02T09:00:00.000Z"%string, "1"%string,
    [mkCartItem "prod_1" "Bread" 60 2 PRODUCT]);
   ("2024-01-02T09:30:00.000Z"%string, "2"%string,
    [mkCartItem "prod_1" "Bread" 60 1 PRODUCT])].

(** The entries of a user that have no end time. *)
Definition openShiftsOf (timeClockEntries : list TimeClockEntry) (uid : string)
  : list TimeClockEntry :=
  filter (fun e => String.eqb (tc_userId e) uid && notEnded e) timeClockEntries.

(** No user has two shifts open. *)
Definition atMostOneOpenShift (timeClockEntries : list TimeClockEntry) : Prop :=
  forall uid, (List.length (openShiftsOf timeClockEntries uid) <= 1)%nat.


(** A clock that reads the number of hours written in the time stamp: the
    sample time stamps below are "8" and "21". *)
Definition hoursClock (iso : string) : Q :=
  if String.eqb iso "8" then 8 * 3600000
  else if String.eqb iso "21" then 21 * 3600000
  else 0.

Definition ana : User := mkUser "user_1" "Ana" "1234" Employee (Some 600).

Definition anaOnShift : list TimeClockEntry :=
  [mkTimeClockEntry "tc_1" "user_1" "8" None].

(** ** The formulas of the design document, evaluated in binary64 *)

(** Σ over a list of numbers, the terms added one after the other from 0:
    the sum of [terms ++ [x]] is the sum of [terms], plus [x]. *)
Definition sum64 (terms : list float) : float :=
  fold_right (fun term sum => (sum + term)%float) 0%float (rev terms).

(** [totalStock = Σ batch.quantity] *)
Definition spec_totalStock64 (batches : list Binary64.StockHistoryItem) : float :=
  sum64 (map Binary64.sh_quantity batches).

(** [Σ (batch.quantity × batch.unitCost)], the net cost basis. *)
Definition spec_costBasis64 (batches : list Binary64.StockHistoryItem) : float :=
  sum64 (map (fun batch =>
                (Binary64.sh_quantity batch * Binary64.sh_unitCost batch)%float)
             batches).

(** [ingredientById(id)]: the first ingredient of the set with that id. *)
Definition ingredientById64 (ingredients : list Binary64.Ingredient) (id : string)
  : option Binary64.Ingredient :=
  find (Binary64.hasId id) ingredients.

(** What one recipe line allows to make:
    [floor(totalStock(ingredient) / line.quantity)], and 0 if the ingredient
    is missing, its stock is 0, or the line quantity is 0. *)
Definition spec_lineStock64 (ingredients : list Binary64.Ingredient)
    (line : Binary64.RecipeItem) : float :=
  match ingredientById64 ingredients (Binary64.ingredientId line) with
  | None => 0%float
  | Some ingredient =>
      let totalStock := Binary64.getIngredientTotalStock ingredient in
      if (totalStock =? 0)%float then 0%float
      else if (Binary64.ri_quantity line =? 0)%float then 0%float
      else Binary64.Math_floor (totalStock / Binary64.ri_quantity line)
  end.

(** The quantities a sale deducts from the ingredient [id], in cart order:
    [recipeLine.quantity × cartLine.quantity] for every recipe line of a
    PRODUCT cart line that refers to [id] (the product being the first of
    the inventory with the cart line's item id), and [cartLine.quantity]
    for an INGREDIENT cart line whose item is [id]. *)
Definition spec_deductions64 (inventory : list Binary64.Product)
    (cart : list Binary64.CartItem) (id : string) : list float :=
  flat_map
    (fun cartLine =>
       match Binary64.ci_type cartLine with
       | PRODUCT =>
           match find (fun p => String.eqb (Binary64.p_id p)
                                           (Binary64.itemId cartLine))
                      inventory with
           | Some product =>
               flat_map
                 (fun recipeLine =>
                    if String.eqb (Binary64.ingredientId recipeLine) id
                    then [(Binary64.ri_quantity recipeLine
                           * Binary64.ci_quantity cartLine)%float]
                    else [])
                 (Binary64.recipe product)
           | None => []
           end
       | INGREDIENT =>
           if String.eqb (Binary64.itemId cartLine) id
           then [Binary64.ci_quantity cartLine] else []
       end)
    cart.

(** The ingredient [sold] is the ingredient [ing] after a sale that deducted
    [deductions] from it: the same id, name, unit, price and threshold, and
    the history of [ing] followed by one batch [-deduction] per deduction,
    each priced at the average cost of [ing]. *)
Definition soldFrom (now : string) (ing sold : Binary64.Ingredient)
    (deductions : list float) : Prop :=
  Binary64.stockHistory sold =
    Binary64.stockHistory ing ++
    map (fun deduction =>
           Binary64.mkStockHistoryItem now (- deduction)%float
             (Binary64.getIngredientAverageCost ing))
        deductions /\
  Binary64.ing_id sold = Binary64.ing_id ing /\
  Binary64.ing_name sold = Binary64.ing_name ing /\
  Binary64.ing_unit sold = Binary64.ing_unit ing /\
  Binary64.ing_price sold = Binary64.ing_price ing /\
  Binary64.ing_lowStockThreshold sold = Binary64.ing_lowStockThreshold ing.

(** What the sale loop maintains for the ingredient [id]: looked up in the
    array being updated, it is the ingredient of the sale-start array after
    the deductions [deductions]; an id that resolves to no ingredient at
    sale start resolves to none. *)
Definition holdsDeductions64 (now : string)
    (ingredients : list Binary64.Ingredient) (id : string)
    (updated : list Binary64.Ingredient) (deductions : list float) : Prop :=
  match ingredientById64 ingredients id with
  | None => ingredientById64 updated id = None
  | Some ing =>
      exists sold,
        ingredientById64 updated id = Some sold /\
        soldFrom now ing sold deductions
  end.

(** ** The exact reading of a binary64 ledger

    The number a binary64 value stands for: [m * 2^e] for a finite value of
    mantissa [m] and exponent [e], with its sign, and 0 for the zeros.
    [NaN] and the infinities stand for no number; they read as 0. *)
Definition exact (x : float) : Q :=
  match Prim2SF x with
  | S754_finite s m e => inject_Z (if s then Z.neg m else Z.pos m) * Qpower 2 e
  | _ => 0
  end.

Definition exactBatch (b : Binary64.StockHistoryItem) : StockHistoryItem :=
  mkStockHistoryItem (Binary64.sh_date b) (exact (Binary64.sh_quantity b))
                     (exact (Binary64.sh_unitCost b)).

(** The ledger the program stores, batch by batch, as exact numbers: on it
    [getIngredientTotalStock] and [getIngredientAverageCost] are the
    formulas of the design document evaluated without rounding. *)
Definition exactLedger (ing : Binary64.Ingredient) : Ingredient :=
  mkIngredient (Binary64.ing_id ing) (Binary64.ing_name ing)
               (Binary64.ing_unit ing) (exact (Binary64.ing_price ing))
               (exact (Binary64.ing_lowStockThreshold ing))
               (map exactBatch (Binary64.stockHistory ing)).

(** The same figures in binary64: total stock and average cost are equal
    as numbers. *)
Definition sameValuation64 (before after : Binary64.Ingredient) : Prop :=
  (Binary64.getIngredientTotalStock after
   =? Binary64.getIngredientTotalStock before)%float = true /\
  (Binary64.getIngredientAverageCost after
   =? Binary64.getIngredientAverageCost before)%float = true.



(** ** Sample ledgers in binary64 *)

Definition batch64 (q c : float) : Binary64.StockHistoryItem :=
  Binary64.mkStockHistoryItem "2024-01-01T00:00:00.000Z" q c.

(** The scenario of the design document: 1000 g of flour at 0.05, and bread
    that takes 200 g. *)
Definition flour64 : Binary64.Ingredient :=
  Binary64.mkIngredient "ing_1" "Flour" "g" 0 0 [batch64 1000 0.05].

Definition bread64 : Binary64.Product :=
  Binary64.mkProduct "prod_1" "Bread" 60 0 0 KindProduct
    [Binary64.mkRecipeItem "ing_1" 200].

(** Three batches of 0.1, 0.2 and -0.3, each at unit cost 1. *)
Definition tenths : Binary64.Ingredient :=
  Binary64.mkIngredient "ing_8" "Tenths" "g" 0 0
    [batch64 0.1 1; batch64 0.2 1; batch64 (-0.3) 1].

(** Five kilograms of rice bought for 3.35 in all: 0.67 a kilogram. *)
Definition rice : Binary64.Ingredient :=
  Binary64.mkIngredient "ing_4" "Rice" "kg" 0 0 [batch64 5 (3.35 / 5)].

(** 30.62 litres of milk bought at 1. *)
Definition milk : Binary64.Ingredient :=
  Binary64.mkIngredient "ing_5" "Milk" "l" 0 0 [batch64 30.62 1].



(** Coffee bought twice: 53 at 9.76 and 45 at 2.77. *)
Definition coffee : Binary64.Ingredient :=
  Binary64.mkIngredient "ing_9" "Coffee" "kg" 0 0
    [batch64 53 9.76; batch64 45 2.77].


(** * Theorems *)

(** ** Sums and [reduce] *)

Section Reduce.
Context {A : Type} (f : A -> Q).

Lemma reduce_add_from (l : list A) (init : Q) :
  fold_left (fun sum x => sum + f x) l init == init + Qsum (map f l).
Proof.
  revert init; induction l as [|x l IH]; intros init; simpl.
  - ring.
  - rewrite IH. ring.
Qed.

Lemma reduce_add (l : list A) :
  fold_left (fun sum x => sum + f x) l 0 == Qsum (map f l).
Proof. rewrite reduce_add_from. ring. Qed.

End Reduce.

Lemma Qsum_app (l1 l2 : list Q) : Qsum (l1 ++ l2) == Qsum l1 + Qsum l2.
Proof.
  induction l1 as [|x l1 IH]; simpl.
  - ring.
  - rewrite IH. ring.
Qed.

Lemma Qsum_zero {A : Type} (f : A -> Q) (l : list A) :
  Forall (fun x => f x == 0) l -> Qsum (map f l) == 0.
Proof.
  induction 1 as [|x l Hx _ IH]; cbn [map Qsum].
  - reflexivity.
  - rewrite Hx, IH. ring.
Qed.

(** ** Lists, minimum and maximum *)

Lemma Forall2_map_right {A B C : Type} (R : A -> C -> Prop) (g : B -> C)
    (l : list A) (l' : list B) :
  Forall2 (fun a b => R a (g b)) l l' -> Forall2 R l (map g l').
Proof. induction 1; cbn [map]; constructor; assumption. Qed.

Lemma Forall2_map_self {A B : Type} (R : A -> B -> Prop) (g : A -> B) (l : list A) :
  Forall (fun a => R a (g a)) l -> Forall2 R l (map g l).
Proof. induction 1; cbn [map]; constructor; assumption. Qed.

Lemma Forall2_In_left {A B : Type} (R : A -> B -> Prop) (l : list A) (l' : list B)
    (a : A) :
  Forall2 R l l' -> In a l -> exists b, In (a, b) (combine l l') /\ R a b /\ In b l'.
Proof.
  induction 1 as [|x y l l' Hxy _ IH]; intros Hin; [destruct Hin|].
  destruct Hin as [->|Hin].
  - exists y. cbn; auto.
  - destruct (IH Hin) as (b & H1 & H2 & H3). exists b. cbn; auto.
Qed.

Lemma Qgt_bool_iff (x y : Q) : Qgt_bool x y = true <-> y < x.
Proof.
  unfold Qgt_bool. destruct (Qle_bool x y) eqn:E; cbn [negb]; split.
  - discriminate.
  - intros H. apply Qle_bool_iff in E. lra.
  - intros _. apply Qnot_le_lt. intros H. apply Qle_bool_iff in H. congruence.
  - reflexivity.
Qed.

Lemma Qmin_cases (x y : Q) : Qmin x y = x \/ Qmin x y = y.
Proof. unfold Qmin, GenericMinMax.gmin. destruct (x ?= y); auto. Qed.

Lemma Math_min_le_first (xs : list Q) (x : Q) : Math_min x xs <= x.
Proof.
  unfold Math_min. revert x. induction xs as [|y xs IH]; intros x; simpl.
  - apply Qle_refl.
  - eapply Qle_trans; [apply IH | apply Q.le_min_l].
Qed.

Lemma Math_min_le_rest (xs : list Q) (x y : Q) : In y xs -> Math_min x xs <= y.
Proof.
  unfold Math_min. revert x. induction xs as [|z xs IH]; intros x Hin; simpl.
  - destruct Hin.
  - destruct Hin as [->|Hin].
    + eapply Qle_trans; [apply (Math_min_le_first xs) | apply Q.le_min_r].
    + now apply IH.
Qed.




(** ** Stock ledger *)

Lemma totalStock_spec (ingredient : Ingredient) :
  getIngredientTotalStock ingredient == spec_totalStock (stockHistory ingredient).
Proof. apply reduce_add. Qed.

Lemma averageCost_nonpositive (ingredient : Ingredient) :
  getIngredientTotalStock ingredient <= 0 ->
  getIngredientAverageCost ingredient = 0.
Proof.
  intros H. unfold getIngredientAverageCost.
  apply Qle_bool_iff in H. now rewrite H.
Qed.

Lemma averageCost_positive (ingredient : Ingredient) :
  0 < getIngredientTotalStock ingredient ->
  getIngredientAverageCost ingredient ==
  spec_costBasis (stockHistory ingredient) / getIngredientTotalStock ingredient.
Proof.
  intros H. unfold getIngredientAverageCost.
  destruct (Qle_bool (getIngredientTotalStock ingredient) 0) eqn:E.
  - apply Qle_bool_iff in E. lra.
  - cbv zeta.
    rewrite (reduce_add (fun r => sh_quantity r * sh_unitCost r)).
    reflexivity.
Qed.



(** ** The ledger after a push *)

Lemma spec_totalStock_push (h : list StockHistoryItem) (b : StockHistoryItem) :
  spec_totalStock (h ++ [b]) == spec_totalStock h + sh_quantity b.
Proof.
  unfold spec_totalStock. rewrite map_app, Qsum_app. cbn [map Qsum]. ring.
Qed.

Lemma spec_costBasis_push (h : list StockHistoryItem) (b : StockHistoryItem) :
  spec_costBasis (h ++ [b]) ==
  spec_costBasis h + sh_quantity b * sh_unitCost b.
Proof.
  unfold spec_costBasis. rewrite map_app, Qsum_app. cbn [map Qsum]. ring.
Qed.

Lemma totalStock_pushBatch (ing : Ingredient) (b : StockHistoryItem) :
  getIngredientTotalStock (pushBatch ing b) ==
  getIngredientTotalStock ing + sh_quantity b.
Proof.
  rewrite !totalStock_spec. cbn [pushBatch setStockHistory stockHistory].
  apply spec_totalStock_push.
Qed.

(** ** Recipe resolver *)

Lemma calculateProductCost_from (ingredients : list Ingredient)
    (recipe : list RecipeItem) (init : Q) :
  fold_left
    (fun totalCost recipeItem =>
       match find (hasId (ingredientId recipeItem)) ingredients with
       | None => totalCost
       | Some ingredient =>
           totalCost + getIngredientAverageCost ingredient * ri_quantity recipeItem
       end)
    recipe init
  == init + spec_cost recipe ingredients.
Proof.
  revert init. induction recipe as [|line recipe IH]; intros init.
  - unfold spec_cost; simpl. ring.
  - cbn [fold_left]. rewrite IH.
    unfold spec_cost; cbn [map Qsum]. unfold spec_lineCost at 2, ingredientById.
    destruct (find (hasId (ingredientId line)) ingredients); ring.
Qed.

(** C6.  The cost of a recipe is the sum over its lines of the average cost
    of the ingredient with the line's id times the line's quantity; a line
    whose id is unknown adds 0, and the function returns a number for every
    input. *)
Theorem calculateProductCost_sum (recipe : list RecipeItem)
    (ingredients : list Ingredient) :
  calculateProductCost recipe ingredients ==
    Qsum (map (spec_lineCost ingredients) recipe) /\
  (forall line,
     ingredientById ingredients (ingredientId line) = None ->
     spec_lineCost ingredients line = 0 /\
     calculateProductCost (recipe ++ [line]) ingredients ==
     calculateProductCost recipe ingredients) /\
  (forall line ingredient,
     ingredientById ingredients (ingredientId line) = Some ingredient ->
     spec_lineCost ingredients line =
     getIngredientAverageCost ingredient * ri_quantity line).
Proof.
  assert (E : forall r, calculateProductCost r ingredients == spec_cost r ingredients).
  { intros r. unfold calculateProductCost.
    rewrite calculateProductCost_from. ring. }
  split; [apply E|]. split.
  - intros line Hnone. unfold spec_lineCost at 1. rewrite Hnone. split; [reflexivity|].
    rewrite !E. unfold spec_cost. rewrite map_app, Qsum_app.
    cbn [map Qsum]. unfold spec_lineCost at 2. rewrite Hnone. ring.
  - intros line ingredient Hsome. unfold spec_lineCost. now rewrite Hsome.
Qed.

Lemma stockLevel_spec (ingredients : list Ingredient) (line : RecipeItem) :
  stockLevel ingredients line = spec_lineStock ingredients line.
Proof.
  unfold stockLevel, spec_lineStock, ingredientById, Math_floor.
  destruct (find (hasId (ingredientId line)) ingredients) as [ing|]; [|reflexivity].
  cbn [orb].
  destruct (Qeq_dec (getIngredientTotalStock ing) 0) as [E|N].
  - apply Qeq_bool_iff in E. now rewrite E.
  - destruct (Qeq_bool (getIngredientTotalStock ing) 0) eqn:B.
    + apply Qeq_bool_iff in B. contradiction.
    + cbn [orb]. destruct (Qeq_dec (ri_quantity line) 0) as [E'|N'].
      * apply Qeq_bool_iff in E'. now rewrite E'.
      * destruct (Qeq_bool (ri_quantity line) 0) eqn:B'; [|reflexivity].
        apply Qeq_bool_iff in B'. contradiction.
Qed.

Lemma calculateProductStock_le (ingredients : list Ingredient)
    (recipe : list RecipeItem) (line : RecipeItem) :
  In line recipe ->
  calculateProductStock recipe ingredients <= stockLevel ingredients line.
Proof.
  destruct recipe as [|first rest]; [intros []|].
  intros [->|Hin]; cbn [calculateProductStock].
  - apply Math_min_le_first.
  - apply Math_min_le_rest. now apply in_map.
Qed.

(** C10.  A recipe line with positive quantity whose ingredient exists and
    has negative total stock escapes the zero guard (which tests for stock
    exactly 0): the line's value is floor(total stock / quantity), a
    negative number, and so the product stock, the minimum over the lines,
    is negative. *)
Theorem calculateProductStock_negative (recipe : list RecipeItem)
    (ingredients : list Ingredient) (line : RecipeItem) (ingredient : Ingredient) :
  In line recipe ->
  0 < ri_quantity line ->
  find (hasId (ingredientId line)) ingredients = Some ingredient ->
  getIngredientTotalStock ingredient < 0 ->
  stockLevel ingredients line =
    Math_floor (getIngredientTotalStock ingredient / ri_quantity line) /\
  stockLevel ingredients line < 0 /\
  calculateProductStock recipe ingredients < 0.
Proof.
  intros Hin Hq Hfind Hneg.
  assert (E : stockLevel ingredients line =
              Math_floor (getIngredientTotalStock ingredient / ri_quantity line)).
  { unfold stockLevel. rewrite Hfind. cbn [orb].
    destruct (Qeq_bool (getIngredientTotalStock ingredient) 0) eqn:B.
    - apply Qeq_bool_iff in B. lra.
    - destruct (Qeq_bool (ri_quantity line) 0) eqn:B'; [|reflexivity].
      apply Qeq_bool_iff in B'. lra. }
  assert (L : stockLevel ingredients line < 0).
  { rewrite E. unfold Math_floor.
    eapply Qle_lt_trans; [apply Qfloor_le|].
    apply Qlt_shift_div_r; [assumption|]. lra. }
  split; [exact E|]. split; [exact L|].
  eapply Qle_lt_trans; [apply (calculateProductStock_le _ _ _ Hin) | exact L].
Qed.

Lemma calculateProductStock_negative_witness :
  let line := mkRecipeItem "ing_2" 1 in
  In line (recipe syrup) /\
  0 < ri_quantity line /\
  find (hasId (ingredientId line)) [flour; oversoldSugar] = Some oversoldSugar /\
  getIngredientTotalStock oversoldSugar < 0 /\
  calculateProductStock (recipe syrup) [flour; oversoldSugar] < 0.
Proof.
  cbv zeta.
  assert (Hin : In (mkRecipeItem "ing_2" 1) (recipe syrup)) by (now left).
  assert (Hq : 0 < ri_quantity (mkRecipeItem "ing_2" 1)) by reflexivity.
  assert (Hfind : find (hasId (ingredientId (mkRecipeItem "ing_2" 1)))
                       [flour; oversoldSugar] = Some oversoldSugar)
    by reflexivity.
  assert (Hneg : getIngredientTotalStock oversoldSugar < 0) by reflexivity.
  refine (conj Hin (conj Hq (conj Hfind (conj Hneg _)))).
  exact (proj2 (proj2 (calculateProductStock_negative
                         (recipe syrup) [flour; oversoldSugar]
                         (mkRecipeItem "ing_2" 1) oversoldSugar
                         Hin Hq Hfind Hneg))).
Defined.

(** ** Consumption on a completed sale *)

Lemma setStockHistory_same (i : Ingredient) :
  setStockHistory i (stockHistory i) = i.
Proof. now destruct i. Qed.

Lemma copy_ingredients (ingredients : list Ingredient) :
  map (fun i => setStockHistory i (stockHistory i)) ingredients = ingredients.
Proof.
  induction ingredients as [|i l IH]; cbn [map]; [reflexivity|].
  now rewrite setStockHistory_same, IH.
Qed.

(** Looking up [id] after [processIngredient] pushed a batch for [id0]. *)
Lemma find_processIngredient (now : string) (updated : list Ingredient)
    (id0 id : string) (qty avgCost : Q) :
  find (hasId id) (processIngredient now updated id0 qty avgCost) =
  if String.eqb id0 id
  then option_map (fun i => pushBatch i (mkStockHistoryItem now (- qty) avgCost))
                  (find (hasId id) updated)
  else find (hasId id) updated.
Proof.
  unfold processIngredient.
  set (b := mkStockHistoryItem now (- qty) avgCost).
  induction updated as [|i rest IH].
  - cbn. now destruct (String.eqb id0 id).
  - assert (Hid : hasId id (pushBatch i b) = hasId id i) by reflexivity.
    assert (Hsame : String.eqb id0 id = true -> hasId id i = hasId id0 i).
    { intros E. apply String.eqb_eq in E. now subst id. }
    assert (Hother : String.eqb id0 id = false -> hasId id0 i = true ->
                     hasId id i = false).
    { unfold hasId. intros E E0. apply String.eqb_eq in E0.
      now rewrite E0. }
    cbn [findIndex]. destruct (hasId id0 i) eqn:E0.
    + cbn [pushBatchAt find]. rewrite Hid.
      destruct (String.eqb id0 id) eqn:E.
      * rewrite (Hsame eq_refl). reflexivity.
      * rewrite (Hother eq_refl eq_refl). reflexivity.
    + destruct (findIndex (hasId id0) rest) as [k|]; cbn [pushBatchAt find];
        destruct (String.eqb id0 id) eqn:E.
      * rewrite (Hsame eq_refl). exact IH.
      * destruct (hasId id i); [reflexivity | exact IH].
      * rewrite (Hsame eq_refl). exact IH.
      * reflexivity.
Qed.

Lemma withDeductions_push (now : string) (c q : Q) (ded : list Q) (ing : Ingredient) :
  pushBatch (withDeductions now c ded ing) (mkStockHistoryItem now (- q) c) =
  withDeductions now c (ded ++ [q]) ing.
Proof.
  unfold withDeductions, pushBatch. cbn [setStockHistory stockHistory ing_id
    ing_name ing_unit ing_price ing_lowStockThreshold].
  now rewrite map_app, app_assoc.
Qed.

Section Sale.
Variables (now : string) (ingredients : list Ingredient)
          (inventory : list Product) (id : string).

(** One deduction of [q] from [id0], seen from the ingredient [id]: it
    holds one more deduction when [id0] is [id], and the same otherwise. *)
Lemma deduct_step (updated : list Ingredient) (id0 : string) (q : Q)
    (ded : list Q) :
  holdsDeductions now ingredients id updated ded ->
  holdsDeductions now ingredients id
    match find (hasId id0) ingredients with
    | Some ingredient =>
        processIngredient now updated id0 q (getIngredientAverageCost ingredient)
    | None => updated
    end
    (ded ++ if String.eqb id0 id then [q] else []).
Proof.
  unfold holdsDeductions, ingredientById. intros Hinv.
  destruct (String.eqb id0 id) eqn:E.
  - apply String.eqb_eq in E. subst id0.
    destruct (find (hasId id) ingredients) as [ing|] eqn:Hfind.
    + rewrite find_processIngredient, String.eqb_refl, Hinv.
      cbn [option_map]. now rewrite withDeductions_push.
    + exact Hinv.
  - rewrite app_nil_r.
    destruct (find (hasId id0) ingredients) as [ing0|]; [|exact Hinv].
    now rewrite find_processIngredient, E.
Qed.

(** The inner loop, over the recipe of a sold product. *)
Lemma deduct_recipe (cartItem : CartItem) (lines : list RecipeItem) :
  forall (updated : list Ingredient) (ded : list Q),
  holdsDeductions now ingredients id updated ded ->
  holdsDeductions now ingredients id
    (fold_left
       (fun updated recipeItem =>
          match find (hasId (ingredientId recipeItem)) ingredients with
          | Some ingredient =>
              let quantityToDecrement :=
                ri_quantity recipeItem * ci_quantity cartItem in
              processIngredient now updated (ingredientId recipeItem)
                quantityToDecrement (getIngredientAverageCost ingredient)
          | None => updated
          end)
       lines updated)
    (ded ++
     flat_map (fun recipeLine =>
                 if String.eqb (ingredientId recipeLine) id
                 then [ri_quantity recipeLine * ci_quantity cartItem]
                 else [])
              lines).
Proof.
  induction lines as [|line lines IH]; intros updated ded Hinv.
  - cbn [fold_left flat_map]. now rewrite app_nil_r.
  - cbn [fold_left flat_map]. cbv zeta. rewrite app_assoc.
    apply IH. now apply deduct_step.
Qed.

(** The outer loop, over the cart. *)
Lemma deduct_cart (cart : list CartItem) :
  forall (updated : list Ingredient) (ded : list Q),
  holdsDeductions now ingredients id updated ded ->
  holdsDeductions now ingredients id
    (fold_left (deductCartItem now ingredients inventory) cart updated)
    (ded ++ spec_deductions inventory cart id).
Proof.
  unfold spec_deductions.
  induction cart as [|cartItem cart IH]; intros updated ded Hinv.
  - cbn [fold_left flat_map]. now rewrite app_nil_r.
  - cbn [fold_left flat_map]. rewrite app_assoc. apply IH.
    unfold deductCartItem. destruct (ci_type cartItem).
    + destruct (find (fun p => String.eqb (p_id p) (itemId cartItem)) inventory)
        as [product|].
      * now apply deduct_recipe.
      * now rewrite app_nil_r.
    + now apply deduct_step.
Qed.

(** The ledger after a sale, ingredient by ingredient. *)
Lemma handleFinalizeTransaction_ledger (cart : list CartItem) :
  holdsDeductions now ingredients id
    (handleFinalizeTransaction now ingredients inventory cart)
    (spec_deductions inventory cart id).
Proof.
  unfold handleFinalizeTransaction. cbv zeta. rewrite copy_ingredients.
  apply (deduct_cart cart ingredients []).
  unfold holdsDeductions.
  destruct (ingredientById ingredients id) as [ing|]; [|reflexivity].
  cbn [option_map]. unfold withDeductions. cbn [map].
  now rewrite app_nil_r, setStockHistory_same.
Qed.

End Sale.

(** ** Stock count reconciliation *)

Lemma initialCountItems_drafted (ingredients : list Ingredient) :
  Forall2 draftedFrom ingredients (initialCountItems ingredients).
Proof.
  induction ingredients as [|ing ingredients IH]; cbn [initialCountItems map].
  - constructor.
  - constructor; [now repeat split | exact IH].
Qed.

Lemma handleCountChange_drafted (ingredients : list Ingredient)
    (countItems : list StockCountItem) (id : string) (value : option Q) :
  Forall2 draftedFrom ingredients countItems ->
  Forall2 draftedFrom ingredients (handleCountChange countItems id value).
Proof.
  induction 1 as [|ing item ingredients countItems H _ IH];
    cbn [handleCountChange map]; constructor; [|exact IH].
  destruct (String.eqb (sc_ingredientId item) id); [|exact H].
  destruct H as (H1 & H2 & H3). now repeat split.
Qed.

Lemma countItemsAfter_drafted (ingredients : list Ingredient)
    (edits : list (string * option Q)) :
  Forall2 draftedFrom ingredients (countItemsAfter ingredients edits).
Proof.
  unfold countItemsAfter.
  generalize (initialCountItems_drafted ingredients).
  generalize (initialCountItems ingredients) as countItems.
  induction edits as [|[id value] edits IH]; intros countItems H.
  - exact H.
  - cbn [fold_left]. apply IH. now apply handleCountChange_drafted.
Qed.

(** The item [finalizeItem] appends for a line. *)
Lemma finalizeItem_from (countItems : list StockCountItem)
    (acc : list FinalCountItem * Q) :
  let done := fold_left finalizeItem countItems acc in
  fst done =
    fst acc ++
    map (fun item =>
           mkFinalCountItem (sc_ingredientId item) (sc_ingredientName item)
             (sc_unit item) (expectedStock item) (spec_actual item)
             (sc_unitCost item))
        countItems /\
  snd done ==
    snd acc +
    Qsum (map (fun item =>
                 (spec_actual item - expectedStock item) * sc_unitCost item)
              countItems).
Proof.
  cbv zeta. revert acc.
  induction countItems as [|item countItems IH]; intros acc; cbn [fold_left map Qsum].
  - split; [now rewrite app_nil_r | ring].
  - destruct (IH (finalizeItem acc item)) as [IH1 IH2]. split.
    + rewrite IH1. cbn [finalizeItem fst]. now rewrite <- app_assoc.
    + rewrite IH2. cbn [finalizeItem snd]. unfold spec_actual. ring.
Qed.

(** C7.  A draft starts with one line per ingredient holding its total
    stock as expected stock, its average cost as unit cost, and no actual
    count.  When the count is finalized after any sequence of edits, each
    recorded line still carries these two figures; a line left unset is
    recorded with actual = expected and a variance value of 0, a line with
    an entered number keeps that number; and the recorded total variance
    value is the sum of (actual - expected) x unit cost over the recorded
    lines. *)
Theorem handleFinalizeCount_variance (ingredients : list Ingredient)
    (edits : list (string * option Q)) (stockCounts : list StockCount)
    (stamp now : string) (confirmApply : bool) :
  let countItems := countItemsAfter ingredients edits in
  let stores :=
    handleFinalizeCount true confirmApply stamp now ingredients countItems
                        stockCounts in
  Forall2 (fun ing item => draftedFrom ing item /\ actualStock item = None)
          ingredients (initialCountItems ingredients) /\
  exists newCount,
    snd stores = newCount :: stockCounts /\
    Forall2 (fun ing line =>
               fc_ingredientId line = ing_id ing /\
               fc_expectedStock line = getIngredientTotalStock ing /\
               fc_unitCost line = getIngredientAverageCost ing)
            ingredients (count_items newCount) /\
    Forall2 (fun item line =>
               match actualStock item with
               | None =>
                   fc_actualStock line = fc_expectedStock line /\
                   (fc_actualStock line - fc_expectedStock line)
                   * fc_unitCost line == 0
               | Some entered => fc_actualStock line = entered
               end)
            countItems (count_items newCount) /\
    totalVarianceValue newCount == spec_totalVarianceValue (count_items newCount).
Proof.
  cbv zeta. split.
  { unfold initialCountItems. apply Forall2_map_self, Forall_forall.
    intros ing _. now repeat split. }
  pose proof (countItemsAfter_drafted ingredients edits) as Hdraft.
  set (countItems := countItemsAfter ingredients edits) in *.
  destruct (finalizeItem_from countItems ([], 0)) as [Hitems Htotal].
  cbn [fst snd app] in Hitems, Htotal.
  exists (mkStockCount ("sc_" ++ stamp) now
            (fst (fold_left finalizeItem countItems ([], 0)))
            (snd (fold_left finalizeItem countItems ([], 0)))).
  split.
  { unfold handleFinalizeCount. cbn [negb]. now destruct confirmApply. }
  cbn [count_items totalVarianceValue]. rewrite Hitems. split; [|split].
  - apply Forall2_map_right. cbn [fc_ingredientId fc_expectedStock fc_unitCost].
    exact Hdraft.
  - apply Forall2_map_self, Forall_forall. intros item _.
    cbn [fc_actualStock fc_expectedStock fc_unitCost]. unfold spec_actual.
    destruct (actualStock item); [reflexivity|]. split; [reflexivity|ring].
  - rewrite Htotal. unfold spec_totalVarianceValue. rewrite map_map.
    cbn [fc_actualStock fc_expectedStock fc_unitCost]. ring.
Qed.

(** With unique ids, the line found for an ingredient by its id is the line
    drafted from it. *)
Lemma find_counted (finalOf : StockCountItem -> FinalCountItem)
    (ingredients : list Ingredient) (countItems : list StockCountItem) :
  (forall item, fc_ingredientId (finalOf item) = sc_ingredientId item) ->
  Forall2 draftedFrom ingredients countItems ->
  NoDup (map ing_id ingredients) ->
  forall ing item,
    In (ing, item) (combine ingredients countItems) ->
    find (fun ci => String.eqb (fc_ingredientId ci) (ing_id ing))
         (map finalOf countItems)
    = Some (finalOf item).
Proof.
  intros Hid. induction 1 as [|i t ingredients countItems Hit _ IH];
    intros Hnodup ing item Hin; [destruct Hin|].
  cbn [map] in Hnodup. inversion Hnodup as [|? ? Hfresh Hnodup']; subst.
  cbn [map find]. rewrite Hid. destruct Hit as (Hit & _).
  destruct Hin as [E|Hin].
  - inversion E; subst. rewrite Hit, String.eqb_refl. reflexivity.
  - assert (Hne : ing_id i <> ing_id ing).
    { intros E. apply Hfresh. rewrite E.
      apply in_map. now apply in_combine_l in Hin. }
    rewrite Hit. apply String.eqb_neq in Hne. rewrite Hne.
    now apply IH.
Qed.

(** A history collapsed to one batch holding the total stock at the average
    cost has the same total stock and the same average cost. *)
Lemma single_batch_valuation (ing : Ingredient) (date : string) (q : Q) :
  q == getIngredientTotalStock ing ->
  sameValuation ing
    (setStockHistory ing
       [mkStockHistoryItem date q (getIngredientAverageCost ing)]).
Proof.
  intros Hq.
  assert (Ht : getIngredientTotalStock
                 (setStockHistory ing
                    [mkStockHistoryItem date q (getIngredientAverageCost ing)])
               == getIngredientTotalStock ing).
  { unfold getIngredientTotalStock at 1. cbn. rewrite Hq. ring. }
  split; [exact Ht|].
  destruct (Qlt_le_dec 0 (getIngredientTotalStock ing)) as [Hpos|Hnonpos].
  - rewrite averageCost_positive by (rewrite Ht; exact Hpos).
    rewrite Ht. cbn [setStockHistory stockHistory].
    unfold spec_costBasis. cbn [map Qsum sh_quantity sh_unitCost].
    rewrite Hq. field. lra.
  - rewrite (averageCost_nonpositive ing Hnonpos).
    rewrite averageCost_nonpositive by (rewrite Ht; exact Hnonpos).
    reflexivity.
Qed.

(** C8.  Ingredient ids are unique.  If at finalize time every count line
    stands for its expected stock (left unset, or entered equal to it), the
    recorded total variance value is 0; and applying the count replaces the
    history of every ingredient by one batch of its total stock at its
    average cost, which leaves the total stock and the average cost of
    every ingredient unchanged. *)
Theorem handleFinalizeCount_idempotent (ingredients : list Ingredient)
    (edits : list (string * option Q)) (stockCounts : list StockCount)
    (stamp now : string) :
  NoDup (map ing_id ingredients) ->
  Forall (fun item => spec_actual item == expectedStock item)
         (countItemsAfter ingredients edits) ->
  let stores :=
    handleFinalizeCount true true stamp now ingredients
      (countItemsAfter ingredients edits) stockCounts in
  (exists newCount,
     snd stores = newCount :: stockCounts /\ totalVarianceValue newCount == 0) /\
  Forall2 (fun before after =>
             sameValuation before after /\
             exists q, q == getIngredientTotalStock before /\
               stockHistory after =
               [mkStockHistoryItem now q (getIngredientAverageCost before)])
          ingredients (fst stores).
Proof.
  intros Hnodup Hsame. cbv zeta.
  pose proof (countItemsAfter_drafted ingredients edits) as Hdraft.
  set (countItems := countItemsAfter ingredients edits) in *.
  destruct (finalizeItem_from countItems ([], 0)) as [Hitems Htotal].
  cbn [fst snd app] in Hitems, Htotal.
  unfold handleFinalizeCount. cbn [negb fst snd]. split.
  - eexists. split; [reflexivity|]. cbn [totalVarianceValue].
    rewrite Htotal, Qsum_zero; [ring|].
    eapply Forall_impl; [|exact Hsame]. cbv beta. intros item H.
    rewrite H. ring.
  - rewrite Hitems. apply Forall2_map_self, Forall_forall. intros ing Hin.
    destruct (Forall2_In_left _ _ _ _ Hdraft Hin) as (item & Hpair & Hd & Hitem).
    match goal with |- context [map ?f countItems] => set (finalOf := f) end.
    rewrite (find_counted finalOf _ _ (fun _ => eq_refl) Hdraft Hnodup _ _ Hpair).
    subst finalOf. cbn [fc_actualStock fc_unitCost].
    destruct Hd as (_ & Hexp & Hcost).
    assert (Hq : spec_actual item == getIngredientTotalStock ing).
    { rewrite <- Hexp. exact (proj1 (Forall_forall _ _) Hsame item Hitem). }
    rewrite Hcost. split.
    + now apply single_batch_valuation.
    + exists (spec_actual item). now split.
Qed.

Lemma handleFinalizeCount_idempotent_witness :
  let ingredients := [flour; oversoldSugar] in
  let edits := [("ing_1"%string, Some 1000)] in
  NoDup (map ing_id ingredients) /\
  Forall (fun item => spec_actual item == expectedStock item)
         (countItemsAfter ingredients edits) /\
  let stores :=
    handleFinalizeCount true true "1" "t" ingredients
      (countItemsAfter ingredients edits) [] in
  (exists newCount,
     snd stores = [newCount] /\ totalVarianceValue newCount == 0) /\
  Forall2 (fun before after =>
             sameValuation before after /\
             exists q, q == getIngredientTotalStock before /\
               stockHistory after =
               [mkStockHistoryItem "t" q (getIngredientAverageCost before)])
          ingredients (fst stores).
Proof.
  cbv zeta.
  assert (H1 : NoDup (map ing_id [flour; oversoldSugar])).
  { cbn. repeat constructor; cbn; intuition discriminate. }
  assert (H2 : Forall (fun item => spec_actual item == expectedStock item)
                 (countItemsAfter [flour; oversoldSugar]
                    [("ing_1"%string, Some 1000)])).
  { repeat constructor. }
  refine (conj H1 (conj H2 _)).
  exact (handleFinalizeCount_idempotent [flour; oversoldSugar]
           [("ing_1"%string, Some 1000)] [] "1" "t" H1 H2).
Defined.

(** ** Bulk edit *)






(** ** Bounds of the average cost *)



(** ** The scenarios of the design document, run on the functions *)

Example flour_averageCost : getIngredientAverageCost flour == 5 # 100.
Proof. reflexivity. Qed.

Example bread_cost : calculateProductCost (recipe bread) [flour] == 10.
Proof. reflexivity. Qed.

Example bread_stock : calculateProductStock (recipe bread) [flour] == 5.
Proof. reflexivity. Qed.

Example selling_two_loaves :
  let sold :=
    handleFinalizeTransaction "t" [flour] [bread]
      [mkCartItem "prod_1" "Bread" 60 2 PRODUCT] in
  map stockHistory sold =
    [[batch 1000 (5 # 100);
      mkStockHistoryItem "t" (- (200 * 2)) (getIngredientAverageCost flour)]] /\
  Forall (fun ing => getIngredientTotalStock ing == 600 /\
                     getIngredientAverageCost ing == 5 # 100) sold /\
  calculateProductStock (recipe bread) sold == 3.
Proof.
  cbv zeta. split; [reflexivity|]. split; [|reflexivity].
  now repeat constructor.
Qed.

Example counting_flour_short :
  let counted :=
    [mkStockCountItem "ing_1" "Flour" "g" 600 (Some 550) (5 # 100)] in
  let flour600 := mkIngredient "ing_1" "Flour" "g" 0 0 [batch 600 (5 # 100)] in
  let stores := handleFinalizeCount true true "1" "t" [flour600] counted [] in
  Forall (fun c => totalVarianceValue c == - (25 # 10)) (snd stores) /\
  List.length (snd stores) = 1%nat /\
  map stockHistory (fst stores) = [[mkStockHistoryItem "t" 550 (5 # 100)]].
Proof.
  cbv zeta. split; [now repeat constructor|]. split; reflexivity.
Qed.

(** * The ledger in binary64 *)

(** ** Comparison of binary64 numbers *)

Lemma SFcompare_refl (x : spec_float) :
  x <> S754_nan -> SFcompare x x = Some Eq.
Proof.
  destruct x as [s|s| |s m e]; intros H; try reflexivity.
  - now destruct s.
  - contradiction.
  - cbn. rewrite Z.compare_refl.
    change (Pos.compare_cont Eq m m) with (Pos.compare m m).
    rewrite Pos.compare_refl. now destruct s.
Qed.

Lemma SFcompare_None (x y : spec_float) :
  SFcompare x y = None <-> x = S754_nan \/ y = S754_nan.
Proof.
  destruct x as [sx|sx| |sx mx ex], y as [sy|sy| |sy my ey]; cbn;
    split; intros H; try discriminate; try reflexivity; auto;
    destruct H; discriminate.
Qed.

Lemma SFcompare_antisym (x y : spec_float) (c : comparison) :
  SFcompare x y = Some c -> SFcompare y x = Some (CompOpp c).
Proof.
  destruct x as [sx|sx| |sx mx ex], y as [sy|sy| |sy my ey]; cbn;
    intros H; try discriminate; injection H as <-;
    try (destruct sx); try (destruct sy); try reflexivity;
    rewrite (Z.compare_antisym ex ey);
    change (Pos.compare_cont Eq my mx) with (Pos.compare my mx);
    change (Pos.compare_cont Eq mx my) with (Pos.compare mx my);
    rewrite (Pos.compare_antisym mx my);
    destruct (ex ?= ey)%Z; cbn; try reflexivity;
    destruct (mx ?= my)%positive; reflexivity.
Qed.

Lemma SFleb_trans (x y z : spec_float) :
  SFleb x y = true -> SFleb y z = true -> SFleb x z = true.
Proof.
  unfold SFleb.
  destruct x as [sx|sx| |sx mx ex], y as [sy|sy| |sy my ey],
           z as [sz|sz| |sz mz ez]; cbn;
    try (destruct sx); try (destruct sy); try (destruct sz); cbn;
    try reflexivity; try discriminate;
    change (Pos.compare_cont Eq mx my) with (Pos.compare mx my);
    change (Pos.compare_cont Eq my mz) with (Pos.compare my mz);
    change (Pos.compare_cont Eq mx mz) with (Pos.compare mx mz);
    destruct (Z.compare_spec ex ey), (Z.compare_spec ey ez),
             (Z.compare_spec ex ez); cbn;
    try reflexivity; try discriminate; try lia;
    destruct (Pos.compare_spec mx my), (Pos.compare_spec my mz),
             (Pos.compare_spec mx mz); cbn;
    try reflexivity; try discriminate; try lia.
Qed.

Lemma is_nan_Prim2SF (x : float) :
  is_nan x = true <-> Prim2SF x = S754_nan.
Proof.
  unfold is_nan. rewrite eqb_spec. unfold SFeqb. split.
  - intros H. destruct (SFcompare (Prim2SF x) (Prim2SF x)) as [c|] eqn:E.
    + destruct (Prim2SF x) eqn:Ex; try reflexivity;
        rewrite SFcompare_refl in E by discriminate;
        injection E as <-; discriminate.
    + apply SFcompare_None in E. now destruct E.
  - intros ->. reflexivity.
Qed.

Lemma is_nan_false (x : float) :
  is_nan x = false <-> Prim2SF x <> S754_nan.
Proof.
  rewrite <- is_nan_Prim2SF. destruct (is_nan x); split; congruence.
Qed.

Lemma is_nan_eq (x : float) : is_nan x = true -> x = nan.
Proof.
  intros H. apply Prim2SF_inj. apply is_nan_Prim2SF in H. now rewrite H.
Qed.

(** Two numbers that are not [NaN] compare. *)
Lemma compare_defined (x y : float) :
  is_nan x = false -> is_nan y = false ->
  exists c, SFcompare (Prim2SF x) (Prim2SF y) = Some c.
Proof.
  intros Hx Hy. apply is_nan_false in Hx, Hy.
  destruct (SFcompare (Prim2SF x) (Prim2SF y)) as [c|] eqn:E; [now exists c|].
  apply SFcompare_None in E. tauto.
Qed.

Lemma leb_refl (x : float) : is_nan x = false -> (x <=? x)%float = true.
Proof.
  intros H. rewrite leb_spec. unfold SFleb.
  now rewrite SFcompare_refl by (now apply is_nan_false).
Qed.

Lemma ltb_leb (x y : float) : (x <? y)%float = true -> (x <=? y)%float = true.
Proof.
  rewrite ltb_spec, leb_spec. unfold SFltb, SFleb.
  now destruct (SFcompare (Prim2SF x) (Prim2SF y)) as [[]|].
Qed.

Lemma not_ltb_leb (x y : float) :
  is_nan x = false -> is_nan y = false ->
  (x <? y)%float = false -> (y <=? x)%float = true.
Proof.
  intros Hx Hy. rewrite ltb_spec, leb_spec. unfold SFltb, SFleb.
  destruct (compare_defined x y Hx Hy) as [c E].
  rewrite E, (SFcompare_antisym _ _ _ E). now destruct c.
Qed.

Lemma leb_trans (x y z : float) :
  (x <=? y)%float = true -> (y <=? z)%float = true -> (x <=? z)%float = true.
Proof. rewrite !leb_spec. apply SFleb_trans. Qed.

Lemma leb_not_nan (x y : float) :
  (x <=? y)%float = true -> is_nan x = false /\ is_nan y = false.
Proof.
  rewrite leb_spec. unfold SFleb. intros H.
  split; apply is_nan_false; intros E; rewrite E in H;
    [|destruct (Prim2SF x)]; discriminate.
Qed.

(** Both zeros are equal as numbers. *)
Lemma zeros_leb (x y : float) :
  is_zero x = true -> is_zero y = true -> (x <=? y)%float = true.
Proof.
  unfold is_zero. rewrite !eqb_spec, leb_spec. unfold SFeqb, SFleb.
  change (Prim2SF zero) with (S754_zero false).
  destruct (Prim2SF x) as [sx|sx| |sx mx ex], (Prim2SF y) as [sy|sy| |sy my ey];
    cbn; try discriminate; try reflexivity;
    try (destruct sx; discriminate); try (destruct sy; discriminate).
Qed.

(** Only [Infinity] is not below [Infinity]. *)
Lemma not_below_infinity (x : float) :
  is_nan x = false -> (x <? infinity)%float = false -> x = infinity.
Proof.
  intros Hx. rewrite ltb_spec. unfold SFltb.
  change (Prim2SF infinity) with (S754_infinity false).
  intros H. apply Prim2SF_inj.
  change (Prim2SF infinity) with (S754_infinity false).
  apply is_nan_false in Hx.
  destruct (Prim2SF x) as [sx|sx| |sx mx ex]; cbn in H;
    try discriminate; try contradiction; try (destruct sx; discriminate).
  now destruct sx.
Qed.

(** ** [Math.min] *)

Lemma Math_min_from_nan (xs : list float) :
  forall lowest,
  Exists (fun x => is_nan x = true) xs ->
  Binary64.Math_min_from lowest xs = nan.
Proof.
  induction xs as [|x xs IH]; intros lowest H; [inversion H|].
  cbn [Binary64.Math_min_from].
  destruct (is_nan x) eqn:Ex; [reflexivity|].
  inversion H as [? ? Hx|? ? Hxs]; subst; [congruence|].
  destruct (_ && _); [now apply IH|].
  destruct (x <? lowest)%float; now apply IH.
Qed.

Lemma Math_min_from_In (xs : list float) :
  forall lowest,
  Forall (fun x => is_nan x = false) xs ->
  In (Binary64.Math_min_from lowest xs) (lowest :: xs).
Proof.
  induction xs as [|x xs IH]; intros lowest H; [now left|].
  inversion H as [|? ? Hx Hxs]; subst.
  cbn [Binary64.Math_min_from]. rewrite Hx.
  assert (Hkeep : In (Binary64.Math_min_from lowest xs) (lowest :: x :: xs)).
  { destruct (IH lowest Hxs) as [E|Hin]; [now left | right; now right]. }
  assert (Htake : In (Binary64.Math_min_from x xs) (lowest :: x :: xs)).
  { right. apply (IH x Hxs). }
  destruct (_ && _); [exact Htake|].
  now destruct (x <? lowest)%float.
Qed.

Lemma Math_min_from_le (xs : list float) :
  forall lowest,
  is_nan lowest = false ->
  Forall (fun x => is_nan x = false) xs ->
  (Binary64.Math_min_from lowest xs <=? lowest)%float = true /\
  Forall (fun x => (Binary64.Math_min_from lowest xs <=? x)%float = true) xs.
Proof.
  induction xs as [|x xs IH]; intros lowest Hl H.
  - cbn. split; [now apply leb_refl | constructor].
  - inversion H as [|? ? Hx Hxs]; subst.
    cbn [Binary64.Math_min_from]. rewrite Hx.
    destruct (IH x Hx Hxs) as [Htx Htxs].
    destruct (IH lowest Hl Hxs) as [Hkl Hkxs].
    destruct ((is_zero x && get_sign x)
              && (is_zero lowest && negb (get_sign lowest))) eqn:Ez.
    + apply andb_prop in Ez. destruct Ez as [Ezx Ezl].
      apply andb_prop in Ezx, Ezl.
      split; [|now constructor].
      eapply leb_trans; [exact Htx|].
      apply zeros_leb; tauto.
    + destruct (x <? lowest)%float eqn:Elt.
      * split; [|now constructor].
        eapply leb_trans; [exact Htx | now apply ltb_leb].
      * split; [exact Hkl|]. constructor; [|exact Hkxs].
        eapply leb_trans; [exact Hkl | now apply not_ltb_leb].
Qed.

(** [Math.min] of at least one number, none of them [NaN]: a lower bound
    of the numbers, and one of them. *)
Lemma Math_min_spec (x : float) (xs : list float) :
  Forall (fun y => is_nan y = false) (x :: xs) ->
  Forall (fun y => (Binary64.Math_min (x :: xs) <=? y)%float = true) (x :: xs) /\
  In (Binary64.Math_min (x :: xs)) (x :: xs).
Proof.
  intros H. inversion H as [|? ? Hx Hxs]; subst.
  assert (E : Binary64.Math_min (x :: xs) = Binary64.Math_min_from x xs).
  { unfold Binary64.Math_min. cbn [Binary64.Math_min_from]. rewrite Hx.
    change (is_zero infinity) with false. rewrite andb_false_r.
    destruct (x <? infinity)%float eqn:Elt; [reflexivity|].
    now rewrite (not_below_infinity x Hx Elt). }
  rewrite E. destruct (Math_min_from_le xs x Hx Hxs) as [H1 H2].
  split; [now constructor | now apply Math_min_from_In].
Qed.

(** ** Stock ledger *)

Lemma reduce_sum64 {A : Type} (f : A -> float) (l : list A) :
  fold_left (fun sum x => (sum + f x)%float) l 0%float = sum64 (map f l).
Proof.
  unfold sum64. generalize 0%float.
  induction l as [|x l IH]; intros init; cbn [map fold_left rev]; [reflexivity|].
  now rewrite fold_right_app, IH.
Qed.

(** C1.  In binary64, as the program computes.  The total stock is the sum
    of all batch quantities, taken in history order from 0 (0 for an empty
    history).  The average cost is 0 when that total is at most 0;
    otherwise it is the sum of quantity times unit cost over all batches,
    of either sign, divided by the total. *)
Theorem averageCost_weighted_average (ingredient : Binary64.Ingredient) :
  let batches := Binary64.stockHistory ingredient in
  Binary64.getIngredientTotalStock ingredient = spec_totalStock64 batches /\
  spec_totalStock64 [] = 0%float /\
  Binary64.getIngredientAverageCost ingredient =
    if (spec_totalStock64 batches <=? 0)%float then 0%float
    else (spec_costBasis64 batches / spec_totalStock64 batches)%float.
Proof.
  cbv zeta.
  assert (Ht : Binary64.getIngredientTotalStock ingredient =
               spec_totalStock64 (Binary64.stockHistory ingredient))
    by apply reduce_sum64.
  split; [exact Ht|]. split; [reflexivity|].
  unfold Binary64.getIngredientAverageCost. cbv zeta. rewrite Ht.
  destruct (spec_totalStock64 (Binary64.stockHistory ingredient) <=? 0)%float;
    [reflexivity|].
  f_equal.
  apply (reduce_sum64
           (fun r => (Binary64.sh_quantity r * Binary64.sh_unitCost r)%float)).
Qed.

(** ** Recipe resolver *)

Lemma stockLevel_spec64 (ingredients : list Binary64.Ingredient)
    (line : Binary64.RecipeItem) :
  Binary64.stockLevel ingredients line = spec_lineStock64 ingredients line.
Proof.
  unfold Binary64.stockLevel, spec_lineStock64, ingredientById64.
  destruct (find _ ingredients) as [ing|]; [|reflexivity].
  cbn [orb]. cbv zeta.
  destruct (Binary64.getIngredientTotalStock ing =? 0)%float; [reflexivity|].
  cbn [orb]. now destruct (Binary64.ri_quantity line =? 0)%float.
Qed.

(** C2.  In binary64, as the program computes.  An empty recipe has
    sellable stock 0.  For a recipe with at least one line the sellable
    stock is [Math.min] of what the lines allow, a line's value being
    floor(total stock / line quantity), and 0 if the ingredient is not
    found, its stock is 0 or the line quantity is 0.  That is the minimum:
    unless a line's value is [NaN] it is at most every line's value and is
    the value of one of the lines; and it is [NaN] if a line's value is. *)
Theorem calculateProductStock_minimum (ingredients : list Binary64.Ingredient)
    (first : Binary64.RecipeItem) (rest : list Binary64.RecipeItem) :
  Binary64.calculateProductStock [] ingredients = 0%float /\
  let recipe := first :: rest in
  let stock := Binary64.calculateProductStock recipe ingredients in
  let lineStock := spec_lineStock64 ingredients in
  (Forall (fun line => is_nan (lineStock line) = false) recipe ->
   Forall (fun line => (stock <=? lineStock line)%float = true) recipe /\
   Exists (fun line => stock = lineStock line) recipe) /\
  (Exists (fun line => is_nan (lineStock line) = true) recipe ->
   stock = nan).
Proof.
  split; [reflexivity|]. cbv zeta.
  assert (E : Binary64.calculateProductStock (first :: rest) ingredients =
              Binary64.Math_min (map (spec_lineStock64 ingredients) (first :: rest))).
  { cbn [Binary64.calculateProductStock]. f_equal.
    apply map_ext. intros line. apply stockLevel_spec64. }
  rewrite E. split.
  - intros Hnan.
    assert (Hnan' : Forall (fun y => is_nan y = false)
                           (map (spec_lineStock64 ingredients) (first :: rest))).
    { apply Forall_map. exact Hnan. }
    cbn [map] in Hnan'. destruct (Math_min_spec _ _ Hnan') as [Hle Hin].
    cbn [map]. split.
    + change (spec_lineStock64 ingredients first
              :: map (spec_lineStock64 ingredients) rest)
        with (map (spec_lineStock64 ingredients) (first :: rest)) in Hle.
      apply Forall_map in Hle. exact Hle.
    + change (spec_lineStock64 ingredients first
              :: map (spec_lineStock64 ingredients) rest)
        with (map (spec_lineStock64 ingredients) (first :: rest)) in Hin.
      apply in_map_iff in Hin. destruct Hin as (line & Hl & Hin).
      apply Exists_exists. exists line. split; [exact Hin | now symmetry].
  - intros Hnan. apply Math_min_from_nan.
    apply Exists_exists in Hnan. destruct Hnan as (line & Hin & Hl).
    apply Exists_exists. exists (spec_lineStock64 ingredients line).
    split; [now apply in_map | exact Hl].
Qed.


Lemma calculateProductStock_minimum_witness :
  let recipe := Binary64.recipe bread64 ++ [Binary64.mkRecipeItem "ing_4" 2] in
  let stock := Binary64.calculateProductStock recipe [flour64; rice] in
  Forall (fun line => is_nan (spec_lineStock64 [flour64; rice] line) = false)
         recipe /\
  (Forall (fun line => (stock <=? spec_lineStock64 [flour64; rice] line)%float
                       = true) recipe /\
   Exists (fun line => stock = spec_lineStock64 [flour64; rice] line) recipe).
Proof.
  cbv zeta.
  assert (H : Forall (fun line =>
                        is_nan (spec_lineStock64 [flour64; rice] line) = false)
                     (Binary64.recipe bread64 ++ [Binary64.mkRecipeItem "ing_4" 2])).
  { repeat constructor. }
  refine (conj H _).
  exact (proj1 (proj2 (calculateProductStock_minimum [flour64; rice]
                         (Binary64.mkRecipeItem "ing_1" 200)
                         [Binary64.mkRecipeItem "ing_4" 2])) H).
Defined.

(** ** Consumption on a completed sale *)

Lemma setStockHistory_same64 (i : Binary64.Ingredient) :
  Binary64.setStockHistory i (Binary64.stockHistory i) = i.
Proof. now destruct i. Qed.

Lemma copy_ingredients64 (ingredients : list Binary64.Ingredient) :
  map (fun i => Binary64.setStockHistory i (Binary64.stockHistory i)) ingredients
  = ingredients.
Proof.
  induction ingredients as [|i l IH]; cbn [map]; [reflexivity|].
  now rewrite setStockHistory_same64, IH.
Qed.

(** Looking up [id] after [processIngredient] pushed a batch for [id0]. *)
Lemma find_processIngredient64 (now : string) (updated : list Binary64.Ingredient)
    (id0 id : string) (qty avgCost : float) :
  find (Binary64.hasId id)
       (Binary64.processIngredient now updated id0 qty avgCost) =
  if String.eqb id0 id
  then option_map
         (fun i => Binary64.pushBatch i
                     (Binary64.mkStockHistoryItem now (- qty)%float avgCost))
         (find (Binary64.hasId id) updated)
  else find (Binary64.hasId id) updated.
Proof.
  unfold Binary64.processIngredient.
  set (b := Binary64.mkStockHistoryItem now (- qty)%float avgCost).
  induction updated as [|i rest IH].
  - cbn. now destruct (String.eqb id0 id).
  - assert (Hid : Binary64.hasId id (Binary64.pushBatch i b) = Binary64.hasId id i)
      by reflexivity.
    assert (Hsame : String.eqb id0 id = true ->
                    Binary64.hasId id i = Binary64.hasId id0 i).
    { intros E. apply String.eqb_eq in E. now subst id. }
    assert (Hother : String.eqb id0 id = false -> Binary64.hasId id0 i = true ->
                     Binary64.hasId id i = false).
    { unfold Binary64.hasId. intros E E0. apply String.eqb_eq in E0.
      now rewrite E0. }
    cbn [findIndex]. destruct (Binary64.hasId id0 i) eqn:E0.
    + cbn [Binary64.pushBatchAt find]. rewrite Hid.
      destruct (String.eqb id0 id) eqn:E.
      * rewrite (Hsame eq_refl). reflexivity.
      * rewrite (Hother eq_refl eq_refl). reflexivity.
    + destruct (findIndex (Binary64.hasId id0) rest) as [k|];
        cbn [Binary64.pushBatchAt find]; destruct (String.eqb id0 id) eqn:E.
      * rewrite (Hsame eq_refl). exact IH.
      * destruct (Binary64.hasId id i); [reflexivity | exact IH].
      * rewrite (Hsame eq_refl). exact IH.
      * reflexivity.
Qed.

Lemma soldFrom_push (now : string) (ing sold : Binary64.Ingredient)
    (deductions : list float) (q : float) :
  soldFrom now ing sold deductions ->
  soldFrom now ing
    (Binary64.pushBatch sold
       (Binary64.mkStockHistoryItem now (- q)%float
          (Binary64.getIngredientAverageCost ing)))
    (deductions ++ [q]).
Proof.
  intros (Hh & Hrest). split; [|exact Hrest].
  cbn [Binary64.pushBatch Binary64.setStockHistory Binary64.stockHistory].
  now rewrite Hh, map_app, app_assoc.
Qed.

Section Sale64.
Variables (now : string) (ingredients : list Binary64.Ingredient)
          (inventory : list Binary64.Product) (id : string).

(** One deduction of [q] from [id0], seen from the ingredient [id]: it
    holds one more deduction when [id0] is [id], and the same otherwise. *)
Lemma deduct_step64 (updated : list Binary64.Ingredient) (id0 : string)
    (q : float) (ded : list float) :
  holdsDeductions64 now ingredients id updated ded ->
  holdsDeductions64 now ingredients id
    match find (Binary64.hasId id0) ingredients with
    | Some ingredient =>
        Binary64.processIngredient now updated id0 q
          (Binary64.getIngredientAverageCost ingredient)
    | None => updated
    end
    (ded ++ if String.eqb id0 id then [q] else []).
Proof.
  unfold holdsDeductions64, ingredientById64. intros Hinv.
  destruct (String.eqb id0 id) eqn:E.
  - apply String.eqb_eq in E. subst id0.
    destruct (find (Binary64.hasId id) ingredients) as [ing|] eqn:Hfind;
      [|exact Hinv].
    destruct Hinv as (sold & Hsold & Hfrom).
    rewrite find_processIngredient64, String.eqb_refl, Hsold.
    cbn [option_map]. eexists. split; [reflexivity|].
    now apply soldFrom_push.
  - rewrite app_nil_r.
    destruct (find (Binary64.hasId id0) ingredients) as [ing0|];
      [|exact Hinv].
    now rewrite find_processIngredient64, E.
Qed.

(** The inner loop, over the recipe of a sold product. *)
Lemma deduct_recipe64 (cartItem : Binary64.CartItem)
    (lines : list Binary64.RecipeItem) :
  forall (updated : list Binary64.Ingredient) (ded : list float),
  holdsDeductions64 now ingredients id updated ded ->
  holdsDeductions64 now ingredients id
    (fold_left
       (fun updated recipeItem =>
          match find (Binary64.hasId (Binary64.ingredientId recipeItem))
                     ingredients with
          | Some ingredient =>
              let quantityToDecrement :=
                (Binary64.ri_quantity recipeItem
                 * Binary64.ci_quantity cartItem)%float in
              Binary64.processIngredient now updated
                (Binary64.ingredientId recipeItem)
                quantityToDecrement (Binary64.getIngredientAverageCost ingredient)
          | None => updated
          end)
       lines updated)
    (ded ++
     flat_map (fun recipeLine =>
                 if String.eqb (Binary64.ingredientId recipeLine) id
                 then [(Binary64.ri_quantity recipeLine
                        * Binary64.ci_quantity cartItem)%float]
                 else [])
              lines).
Proof.
  induction lines as [|line lines IH]; intros updated ded Hinv.
  - cbn [fold_left flat_map]. now rewrite app_nil_r.
  - cbn [fold_left flat_map]. cbv zeta. rewrite app_assoc.
    apply IH. now apply deduct_step64.
Qed.

(** The outer loop, over the cart. *)
Lemma deduct_cart64 (cart : list Binary64.CartItem) :
  forall (updated : list Binary64.Ingredient) (ded : list float),
  holdsDeductions64 now ingredients id updated ded ->
  holdsDeductions64 now ingredients id
    (fold_left (Binary64.deductCartItem now ingredients inventory) cart updated)
    (ded ++ spec_deductions64 inventory cart id).
Proof.
  unfold spec_deductions64.
  induction cart as [|cartItem cart IH]; intros updated ded Hinv.
  - cbn [fold_left flat_map]. now rewrite app_nil_r.
  - cbn [fold_left flat_map]. rewrite app_assoc. apply IH.
    unfold Binary64.deductCartItem. destruct (Binary64.ci_type cartItem).
    + destruct (find _ inventory) as [product|].
      * now apply deduct_recipe64.
      * now rewrite app_nil_r.
    + now apply deduct_step64.
Qed.

(** The ledger after a sale, ingredient by ingredient. *)
Lemma handleFinalizeTransaction_ledger64 (cart : list Binary64.CartItem) :
  holdsDeductions64 now ingredients id
    (Binary64.handleFinalizeTransaction now ingredients inventory cart)
    (spec_deductions64 inventory cart id).
Proof.
  unfold Binary64.handleFinalizeTransaction. cbv zeta.
  rewrite copy_ingredients64.
  apply (deduct_cart64 cart ingredients []).
  unfold holdsDeductions64.
  destruct (ingredientById64 ingredients id) as [ing|] eqn:E; [|reflexivity].
  exists ing. split; [reflexivity|].
  unfold soldFrom. cbn [map]. now rewrite app_nil_r.
Qed.

End Sale64.

(** C3.  In binary64, as the program computes.  After a sale is committed,
    the ingredient with a given id is found under that id with its history
    at sale start followed by one negative batch per deduction, in cart
    order: [-(recipeLine.quantity x cartLine.quantity)] for every recipe
    line of a PRODUCT cart line that refers to it, and [-cartLine.quantity]
    for an INGREDIENT cart line that sells it.  Every appended batch carries
    the average cost of that ingredient in the state at sale start, before
    any deduction of the same sale; its other fields are unchanged.  An id
    that resolves to no ingredient resolves to none afterwards. *)
Theorem handleFinalizeTransaction_deductions (now : string)
    (ingredients : list Binary64.Ingredient) (inventory : list Binary64.Product)
    (cart : list Binary64.CartItem) (id : string) :
  let after := Binary64.handleFinalizeTransaction now ingredients inventory cart in
  match ingredientById64 ingredients id with
  | None => ingredientById64 after id = None
  | Some ing =>
      exists sold,
        ingredientById64 after id = Some sold /\
        Binary64.stockHistory sold =
          Binary64.stockHistory ing ++
          map (fun deduction =>
                 Binary64.mkStockHistoryItem now (- deduction)%float
                   (Binary64.getIngredientAverageCost ing))
              (spec_deductions64 inventory cart id) /\
        Binary64.ing_id sold = Binary64.ing_id ing /\
        Binary64.ing_name sold = Binary64.ing_name ing /\
        Binary64.ing_unit sold = Binary64.ing_unit ing /\
        Binary64.ing_price sold = Binary64.ing_price ing /\
        Binary64.ing_lowStockThreshold sold = Binary64.ing_lowStockThreshold ing
  end.
Proof.
  cbv zeta.
  exact (handleFinalizeTransaction_ledger64 now ingredients inventory id cart).
Qed.

(** ** Ledger conservation *)

Lemma exact_opp (x : float) : exact (- x) == - exact x.
Proof.
  unfold exact. rewrite opp_spec.
  destruct (Prim2SF x) as [s|s| |s m e]; cbn [SFopp]; try reflexivity.
  destruct s; cbn [negb].
  - change (Z.neg m) with (- Z.pos m)%Z. rewrite inject_Z_opp. ring.
  - change (Z.neg m) with (- Z.pos m)%Z. rewrite inject_Z_opp. ring.
Qed.

(** A number above 0 is neither [NaN] nor a zero: [|| 0] leaves it. *)
Lemma orZero_positive (x : float) :
  (0 <? x)%float = true -> Binary64.orZero x = x.
Proof.
  intros H. unfold Binary64.orZero.
  assert (Hnan : is_nan x = false) by (apply ltb_leb, leb_not_nan in H; tauto).
  rewrite Hnan. cbn [orb].
  rewrite ltb_spec in H. rewrite eqb_spec. unfold SFltb, SFeqb in *.
  destruct (SFcompare (Prim2SF 0) (Prim2SF x)) as [c|] eqn:E; [|discriminate].
  rewrite (SFcompare_antisym _ _ _ E). now destruct c.
Qed.

(** Two batches that offset each other, [-q] and [+q] at one unit cost,
    leave the exact total stock and the exact average cost as they were. *)
Lemma offsetting_batches_valuation (ing after : Ingredient) (d1 d2 : string)
    (q1 q2 c1 c2 : Q) :
  stockHistory after =
    (stockHistory ing ++ [mkStockHistoryItem d1 q1 c1])
    ++ [mkStockHistoryItem d2 q2 c2] ->
  q1 == - q2 -> c1 == c2 ->
  sameValuation ing after.
Proof.
  intros Hh Hq Hc.
  assert (Hs : getIngredientTotalStock after == getIngredientTotalStock ing).
  { rewrite (totalStock_spec after), Hh, !spec_totalStock_push.
    rewrite <- totalStock_spec. cbn [sh_quantity]. rewrite Hq. ring. }
  assert (Hb : spec_costBasis (stockHistory after) ==
               spec_costBasis (stockHistory ing)).
  { rewrite Hh, !spec_costBasis_push. cbn [sh_quantity sh_unitCost].
    rewrite Hq, Hc. ring. }
  split; [exact Hs|].
  destruct (Qlt_le_dec 0 (getIngredientTotalStock ing)) as [Hpos|Hnonpos].
  - rewrite (averageCost_positive ing Hpos).
    rewrite averageCost_positive by (rewrite Hs; exact Hpos).
    now rewrite Hb, Hs.
  - rewrite (averageCost_nonpositive ing Hnonpos).
    rewrite averageCost_nonpositive by (rewrite Hs; exact Hnonpos).
    reflexivity.
Qed.

(** C5 (amended).  Selling [q > 0] units of an ingredient appends the batch
    [-q] at its average cost; restocking [q] units through the ingredient
    form, for a total cost that makes the new batch's unit cost that same
    average cost, appends the batch [+q].  The two batches offset each
    other: after both, the ledger, its numbers read exactly, has the total
    stock and the average cost it had before the sale.  The program's own
    figures are then [(totalStock - q) + q] and
    [((totalCost - q x averageCost) + q x averageCost)] divided by it,
    computed in binary64, which rounding can leave beside the figures
    before the sale. *)
Theorem ledger_conservation (saleTime restockTime : string)
    (ingredients : list Binary64.Ingredient) (inventory : list Binary64.Product)
    (ing : Binary64.Ingredient) (id : string) (q addTotalCost : float)
    (cartName name unit : string) (cartPrice price lowStockThreshold : float) :
  ingredientById64 ingredients id = Some ing ->
  (0 <? q)%float = true ->
  Binary64.newUnitCost q (Binary64.orZero addTotalCost) =
    Binary64.getIngredientAverageCost ing ->
  let sale := [Binary64.mkCartItem id cartName cartPrice q INGREDIENT] in
  exists sold,
    ingredientById64
      (Binary64.handleFinalizeTransaction saleTime ingredients inventory sale) id
      = Some sold /\
    Binary64.stockHistory sold =
      Binary64.stockHistory ing ++
      [Binary64.mkStockHistoryItem saleTime (- q)%float
         (Binary64.getIngredientAverageCost ing)] /\
    let restocked :=
      Binary64.handleSubmit_editing restockTime sold name unit price
        lowStockThreshold q addTotalCost in
    Binary64.stockHistory restocked =
      Binary64.stockHistory sold ++
      [Binary64.mkStockHistoryItem restockTime q
         (Binary64.getIngredientAverageCost ing)] /\
    Binary64.getIngredientTotalStock restocked =
      (Binary64.getIngredientTotalStock ing + - q + q)%float /\
    Binary64.getIngredientAverageCost restocked =
      (let averageCost := Binary64.getIngredientAverageCost ing in
       let totalStock := Binary64.getIngredientTotalStock ing + - q + q in
       let totalCost :=
         spec_costBasis64 (Binary64.stockHistory ing)
         + - q * averageCost + q * averageCost in
       if totalStock <=? 0 then 0 else totalCost / totalStock)%float /\
    sameValuation (exactLedger ing) (exactLedger restocked).
Proof.
  intros Hfind Hq Hu. cbv zeta.
  pose proof (handleFinalizeTransaction_ledger64 saleTime ingredients inventory id
                [Binary64.mkCartItem id cartName cartPrice q INGREDIENT]) as Hl.
  unfold holdsDeductions64 in Hl. rewrite Hfind in Hl.
  destruct Hl as (sold & Hsold & Hh & _).
  assert (Hded : spec_deductions64 inventory
                   [Binary64.mkCartItem id cartName cartPrice q INGREDIENT] id
                 = [q]).
  { unfold spec_deductions64.
    cbn [flat_map Binary64.ci_type Binary64.itemId Binary64.ci_quantity].
    now rewrite String.eqb_refl. }
  rewrite Hded in Hh. cbn [map] in Hh.
  exists sold. split; [exact Hsold|]. split; [exact Hh|].
  assert (Hrestock :
    Binary64.stockHistory
      (Binary64.handleSubmit_editing restockTime sold name unit price
         lowStockThreshold q addTotalCost) =
    Binary64.stockHistory sold ++
    [Binary64.mkStockHistoryItem restockTime q
       (Binary64.getIngredientAverageCost ing)]).
  { unfold Binary64.handleSubmit_editing. cbv zeta.
    rewrite (orZero_positive q Hq), Hq, Hu. reflexivity. }
  split; [exact Hrestock|].
  assert (Htotal :
    Binary64.getIngredientTotalStock
      (Binary64.handleSubmit_editing restockTime sold name unit price
         lowStockThreshold q addTotalCost) =
    (Binary64.getIngredientTotalStock ing + - q + q)%float).
  { unfold Binary64.getIngredientTotalStock.
    now rewrite Hrestock, Hh, !fold_left_app. }
  split; [exact Htotal|]. split.
  { unfold Binary64.getIngredientAverageCost at 1. cbv zeta. rewrite Htotal.
    rewrite Hrestock, Hh, !fold_left_app.
    cbn [fold_left Binary64.sh_quantity Binary64.sh_unitCost].
    now rewrite (reduce_sum64
                   (fun r => (Binary64.sh_quantity r * Binary64.sh_unitCost r)%float)). }
  apply (offsetting_batches_valuation _ _ saleTime restockTime
           (exact (- q)) (exact q)
           (exact (Binary64.getIngredientAverageCost ing))
           (exact (Binary64.getIngredientAverageCost ing))).
  - cbn [exactLedger stockHistory]. rewrite Hrestock, Hh, !map_app. reflexivity.
  - apply exact_opp.
  - reflexivity.
Qed.

Lemma ledger_conservation_witness :
  ingredientById64 [rice; milk] "ing_4" = Some rice /\
  (0 <? 2)%float = true /\
  Binary64.newUnitCost 2 (Binary64.orZero 1.34) =
    Binary64.getIngredientAverageCost rice /\
  exists sold,
    ingredientById64
      (Binary64.handleFinalizeTransaction "t1" [rice; milk] []
         [Binary64.mkCartItem "ing_4" "Rice" 1 2 INGREDIENT]) "ing_4"
      = Some sold /\
    Binary64.stockHistory sold =
      Binary64.stockHistory rice ++
      [Binary64.mkStockHistoryItem "t1" (- 2)%float
         (Binary64.getIngredientAverageCost rice)] /\
    let restocked :=
      Binary64.handleSubmit_editing "t2" sold "Rice" "kg" 0 0 2 1.34 in
    Binary64.stockHistory restocked =
      Binary64.stockHistory sold ++
      [Binary64.mkStockHistoryItem "t2" 2
         (Binary64.getIngredientAverageCost rice)] /\
    Binary64.getIngredientTotalStock restocked =
      (Binary64.getIngredientTotalStock rice + - 2 + 2)%float /\
    Binary64.getIngredientAverageCost restocked =
      (let averageCost := Binary64.getIngredientAverageCost rice in
       let totalStock := Binary64.getIngredientTotalStock rice + - 2 + 2 in
       let totalCost :=
         spec_costBasis64 (Binary64.stockHistory rice)
         + - 2 * averageCost + 2 * averageCost in
       if totalStock <=? 0 then 0 else totalCost / totalStock)%float /\
    sameValuation (exactLedger rice) (exactLedger restocked).
Proof.
  assert (H1 : ingredientById64 [rice; milk] "ing_4" = Some rice) by reflexivity.
  assert (H2 : (0 <? 2)%float = true) by reflexivity.
  assert (H3 : Binary64.newUnitCost 2 (Binary64.orZero 1.34) =
               Binary64.getIngredientAverageCost rice) by reflexivity.
  refine (conj H1 (conj H2 (conj H3 _))).
  exact (ledger_conservation "t1" "t2" [rice; milk] [] rice "ing_4" 2 1.34
           "Rice" "Rice" "kg" 1 0 0 H1 H2 H3).
Defined.

(** C5, as first stated, fails in binary64.  Rice, 5 kg at 0.67: after
    selling 2 kg at the average cost 0.67 and restocking 2 kg at 0.67 the
    total stock is 5 again but the average cost is 0.6699999999999999.
    Milk, 30.62 l at 1: after selling and restocking 14.03 l at 1 the total
    stock is 30.620000000000005. *)
Lemma ledger_conservation_lost_in_rounding :
  let roundTrip ing id q cost :=
    map (fun sold => Binary64.handleSubmit_editing "t2" sold
                       (Binary64.ing_name sold) (Binary64.ing_unit sold)
                       0 0 q cost)
        (Binary64.handleFinalizeTransaction "t1" [ing] []
           [Binary64.mkCartItem id (Binary64.ing_name ing) 1 q INGREDIENT]) in
  (map Binary64.stockHistory (roundTrip rice "ing_4"%string 2 1.34)%float =
     [[batch64 5 0.67; Binary64.mkStockHistoryItem "t1" (-2) 0.67;
       Binary64.mkStockHistoryItem "t2" 2 0.67]] /\
   Binary64.getIngredientAverageCost rice = 0.67%float /\
   map Binary64.getIngredientAverageCost (roundTrip rice "ing_4"%string 2 1.34)%float
     = [0.6699999999999999%float] /\
   Forall (fun after => ~ sameValuation64 rice after)
          (roundTrip rice "ing_4"%string 2 1.34)%float) /\
  (map Binary64.stockHistory (roundTrip milk "ing_5"%string 14.03 14.03)%float =
     [[batch64 30.62 1; Binary64.mkStockHistoryItem "t1" (-14.03) 1;
       Binary64.mkStockHistoryItem "t2" 14.03 1]] /\
   Binary64.getIngredientTotalStock milk = 30.62%float /\
   map Binary64.getIngredientTotalStock
       (roundTrip milk "ing_5"%string 14.03 14.03)%float
     = [30.620000000000005%float] /\
   Forall (fun after => ~ sameValuation64 milk after)
          (roundTrip milk "ing_5"%string 14.03 14.03)%float).
Proof.
  cbv zeta. repeat split; try reflexivity;
    repeat constructor; intros [Ht Ha]; vm_compute in Ht, Ha; discriminate.
Qed.

(** ** Bounds of the average cost *)





(** ** The program's numbers on small inputs *)

(** 0.1 + 0.2 - 0.3 is not 0 in binary64: the guard of the average cost
    does not fire, and three batches at unit cost 1 average 1. *)
Example totalStock_of_tenths :
  Binary64.getIngredientTotalStock tenths = 5.551115123125783e-17%float /\
  Binary64.getIngredientAverageCost tenths = 1%float.
Proof. split; reflexivity. Qed.

(** 0.3 / 0.1 is 2.9999999999999996 in binary64: with 0.3 in stock and 0.1
    a piece, two pieces can be made. *)
Example stock_of_three_tenths :
  Binary64.calculateProductStock [Binary64.mkRecipeItem "ing_7" 0.1]
    [Binary64.mkIngredient "ing_7" "Saffron" "g" 0 0 [batch64 0.3 40]]
  = 2%float.
Proof. reflexivity. Qed.

Example bread_stock64 :
  Binary64.getIngredientAverageCost flour64 = 0.05%float /\
  Binary64.calculateProductStock (Binary64.recipe bread64) [flour64] = 5%float.
Proof. split; reflexivity. Qed.

Example selling_two_loaves64 :
  map Binary64.stockHistory
      (Binary64.handleFinalizeTransaction "t" [flour64] [bread64]
         [Binary64.mkCartItem "prod_1" "Bread" 60 2 PRODUCT]) =
  [[batch64 1000 0.05; Binary64.mkStockHistoryItem "t" (-400) 0.05]].
Proof. reflexivity. Qed.

(** A single batch at the average cost of a ledger need not have that
    average cost: five units of coffee at its average cost
    6.550306122448979 average 6.550306122448978. *)
Example single_batch_at_averageCost :
  Binary64.getIngredientAverageCost coffee = 6.550306122448979%float /\
  Binary64.getIngredientAverageCost
    (Binary64.setStockHistory coffee
       [batch64 5 (Binary64.getIngredientAverageCost coffee)])
  = 6.550306122448978%float.
Proof. split; reflexivity. Qed.

(** [Math.floor] on binary64 values: the largest integer not above the
    argument, with zeros, infinities and NaN returned as they are. *)
Example Math_floor_values :
  map Binary64.Math_floor
    [2.9999999999999996; 3; -0.5; 0.5; neg_zero; 0; 1e300;
     4503599627370495.5; -4503599627370495.5; 2.5; -2.5; 777.999;
     nan; infinity; 5e-324; -5e-324]%float
  = [2; 3; -1; 0; neg_zero; 0; 1e300;
     4503599627370495; -4503599627370496; 2; -3; 777;
     nan; infinity; 0; -1]%float.
Proof. reflexivity. Qed.

(** [Math.min] on binary64 values: infinity for no argument, NaN as soon
    as one argument is NaN, and the negative zero below the positive. *)
Example Math_min_values :
  map Binary64.Math_min
    [[]; [1; 2]; [2; 1]; [0; neg_zero]; [neg_zero; 0]; [1; nan; 0];
     [3; -1; 2]; [neg_infinity; 1]; [nan]]%float
  = [infinity; 1; 1; neg_zero; neg_zero; nan; -1; neg_infinity; nan]%float.
Proof. reflexivity. Qed.
(** * Further properties of the handlers *)

(** ** Saving an ingredient or a product *)

Section Upsert.
Context {A : Type} (key : A -> string).

Lemma find_replace_same (prev : list A) (x : A) :
  find (fun y => String.eqb (key y) (key x)) prev <> None ->
  find (fun y => String.eqb (key y) (key x))
       (map (fun y => if String.eqb (key y) (key x) then x else y) prev) = Some x.
Proof.
  induction prev as [|y prev IH]; cbn [find map]; [congruence|].
  destruct (String.eqb (key y) (key x)) eqn:E.
  - now rewrite String.eqb_refl.
  - rewrite E. exact IH.
Qed.

Lemma find_replace_other (prev : list A) (x : A) (k : string) :
  k <> key x ->
  find (fun y => String.eqb (key y) k)
       (map (fun y => if String.eqb (key y) (key x) then x else y) prev) =
  find (fun y => String.eqb (key y) k) prev.
Proof.
  intros Hk. induction prev as [|y prev IH]; cbn [find map]; [reflexivity|].
  destruct (String.eqb (key y) (key x)) eqn:E.
  - apply String.eqb_eq in E.
    assert (E1 : String.eqb (key x) k = false)
      by (apply String.eqb_neq; congruence).
    assert (E2 : String.eqb (key y) k = false)
      by (apply String.eqb_neq; congruence).
    now rewrite E1, E2.
  - now rewrite IH.
Qed.

Lemma find_app_none (p : A -> bool) (l1 l2 : list A) :
  find p l1 = None -> find p (l1 ++ l2) = find p l2.
Proof.
  induction l1 as [|y l1 IH]; cbn [find app]; [reflexivity|].
  destruct (p y); [discriminate | exact IH].
Qed.

Lemma find_app_some (p : A -> bool) (l1 l2 : list A) (x : A) :
  find p l1 = Some x -> find p (l1 ++ l2) = Some x.
Proof.
  induction l1 as [|y l1 IH]; cbn [find app]; [discriminate|].
  destruct (p y); [trivial | exact IH].
Qed.

Lemma upsert_lookup_same (prev : list A) (x : A) :
  find (fun y => String.eqb (key y) (key x)) (upsertBy key prev x) = Some x.
Proof.
  unfold upsertBy.
  destruct (find (fun y => String.eqb (key y) (key x)) prev) eqn:E.
  - apply find_replace_same. congruence.
  - rewrite (find_app_none _ _ _ E). cbn [find]. now rewrite String.eqb_refl.
Qed.

Lemma upsert_lookup_other (prev : list A) (x : A) (k : string) :
  k <> key x ->
  find (fun y => String.eqb (key y) k) (upsertBy key prev x) =
  find (fun y => String.eqb (key y) k) prev.
Proof.
  intros Hk. unfold upsertBy.
  destruct (find (fun y => String.eqb (key y) (key x)) prev) eqn:E.
  - now apply find_replace_other.
  - destruct (find (fun y => String.eqb (key y) k) prev) eqn:Ek.
    + now apply find_app_some.
    + rewrite (find_app_none _ _ _ Ek). cbn [find].
      assert (E1 : String.eqb (key x) k = false)
        by (apply String.eqb_neq; congruence).
      now rewrite E1.
Qed.

Lemma upsert_keys (prev : list A) (x : A) :
  map key (upsertBy key prev x) =
  match find (fun y => String.eqb (key y) (key x)) prev with
  | Some _ => map key prev
  | None => map key prev ++ [key x]
  end.
Proof.
  unfold upsertBy.
  destruct (find (fun y => String.eqb (key y) (key x)) prev) eqn:E.
  - clear E. induction prev as [|y prev IH]; cbn [map]; [reflexivity|].
    rewrite IH. destruct (String.eqb (key y) (key x)) eqn:E.
    + apply String.eqb_eq in E. now rewrite E.
    + reflexivity.
  - now rewrite map_app.
Qed.

Lemma find_key_none (prev : list A) (k : string) :
  find (fun y => String.eqb (key y) k) prev = None -> ~ In k (map key prev).
Proof.
  intros Hnone Hin. apply in_map_iff in Hin. destruct Hin as (y & <- & Hy).
  pose proof (find_none _ _ Hnone y Hy) as E. cbv beta in E.
  now rewrite String.eqb_refl in E.
Qed.

Lemma upsert_NoDup (prev : list A) (x : A) :
  NoDup (map key prev) -> NoDup (map key (upsertBy key prev x)).
Proof.
  intros Hnd. rewrite upsert_keys.
  destruct (find (fun y => String.eqb (key y) (key x)) prev) eqn:E; [exact Hnd|].
  apply NoDup_app; [exact Hnd | repeat constructor; intros [] |].
  intros k Hk [<-|[]]. now apply (find_key_none _ _ E).
Qed.

End Upsert.

(** Saving an ingredient and looking it up by id gives back what was saved;
    the ingredient found under any other id is the one found before. *)
Theorem handleIngredientSave_lookup (prev : list Ingredient)
    (ingredient : Ingredient) (id : string) :
  ingredientById (handleIngredientSave prev ingredient) id =
  if String.eqb id (ing_id ingredient) then Some ingredient
  else ingredientById prev id.
Proof.
  change (handleIngredientSave prev ingredient) with (upsertBy ing_id prev ingredient).
  unfold ingredientById, hasId.
  destruct (String.eqb id (ing_id ingredient)) eqn:E.
  - apply String.eqb_eq in E. subst id. apply upsert_lookup_same.
  - apply String.eqb_neq in E. now apply upsert_lookup_other.
Qed.

(** The same for products: the first product of the inventory with the
    saved product's id is the saved product, and other ids are not
    affected. *)
Theorem handleProductSave_lookup (prev : list Product) (product : Product)
    (id : string) :
  find (fun p => String.eqb (p_id p) id) (handleProductSave prev product) =
  if String.eqb id (p_id product) then Some product
  else find (fun p => String.eqb (p_id p) id) prev.
Proof.
  change (handleProductSave prev product) with (upsertBy p_id prev product).
  destruct (String.eqb id (p_id product)) eqn:E.
  - apply String.eqb_eq in E. subst id. apply upsert_lookup_same.
  - apply String.eqb_neq in E. now apply upsert_lookup_other.
Qed.

(** ** The ingredient form *)

Lemma isEmpty_true (s : string) : isEmpty s = true <-> s = EmptyString.
Proof. unfold isEmpty. apply String.eqb_eq. Qed.

Section Submit.
Variable toLowerCase : string -> string.

(** The form is rejected, and nothing is saved, exactly when the name or
    the unit is empty, or another ingredient (one with a different id) has
    the same name up to case, or the ingredient is new and its stock is not
    positive. *)
Theorem handleSubmit_rejects (now stamp : string) (ingredients : list Ingredient)
    (ingredient : option Ingredient) (formData : IngredientForm) :
  (exists e,
     IngredientModal.handleSubmit toLowerCase now stamp ingredients ingredient
       formData = inl e) <->
  (form_name formData = EmptyString \/
   form_unit formData = EmptyString \/
   (exists i, In i ingredients /\
              toLowerCase (ing_name i) = toLowerCase (form_name formData) /\
              ing_id i <> form_id formData) \/
   (ingredient = None /\ (form_stock formData <= 0)%Z)).
Proof.
  unfold IngredientModal.handleSubmit.
  destruct (isEmpty (form_name formData)) eqn:En.
  { cbn [orb]. apply isEmpty_true in En. split; eauto. }
  destruct (isEmpty (form_unit formData)) eqn:Eu.
  { cbn [orb]. apply isEmpty_true in Eu. split; eauto. }
  cbn [orb]. cbv zeta.
  assert (Hn : form_name formData <> EmptyString).
  { intros E. apply isEmpty_true in E. congruence. }
  assert (Hu : form_unit formData <> EmptyString).
  { intros E. apply isEmpty_true in E. congruence. }
  match goal with |- context [find ?p ingredients] => set (clash := p) end.
  assert (Hclash : forall i, clash i = true <->
            toLowerCase (ing_name i) = toLowerCase (form_name formData) /\
            ing_id i <> form_id formData).
  { intros i. unfold clash. rewrite andb_true_iff, negb_true_iff.
    now rewrite String.eqb_eq, String.eqb_neq. }
  destruct (find clash ingredients) as [i|] eqn:Ef.
  { apply find_some in Ef. destruct Ef as [Hin Hc]. apply Hclash in Hc.
    split; [|eauto]. intros _. right. right. left. exists i. tauto. }
  assert (Hno : ~ exists i, In i ingredients /\
            toLowerCase (ing_name i) = toLowerCase (form_name formData) /\
            ing_id i <> form_id formData).
  { intros (i & Hin & Hc). apply Hclash in Hc.
    pose proof (find_none _ _ Ef i Hin). congruence. }
  destruct ingredient as [ing|].
  { split; [intros [e He]; discriminate|].
    intros [H|[H|[H|[H _]]]]; try contradiction; discriminate. }
  destruct (form_stock formData <=? 0)%Z eqn:Es.
  - apply Z.leb_le in Es. split; [|eauto]. intros _. right. right. right. now split.
  - apply Z.leb_gt in Es. split; [intros [e He]; discriminate|].
    intros [H|[H|[H|[_ H]]]]; try contradiction. lia.
Qed.

(** A new ingredient that is saved has the id built from the time stamp
    and a single batch, the stock entered at the unit cost total cost /
    stock; its total stock is the stock entered, which is positive. *)
Theorem handleSubmit_new_ingredient (now stamp : string)
    (ingredients : list Ingredient) (formData : IngredientForm)
    (saved : Ingredient) :
  IngredientModal.handleSubmit toLowerCase now stamp ingredients None formData
    = inr saved ->
  ing_id saved = ("ing_" ++ stamp)%string /\
  stockHistory saved =
    [mkStockHistoryItem now (inject_Z (form_stock formData))
       (form_totalCost formData / inject_Z (form_stock formData))] /\
  getIngredientTotalStock saved == inject_Z (form_stock formData) /\
  0 < getIngredientTotalStock saved.
Proof.
  unfold IngredientModal.handleSubmit.
  destruct (isEmpty (form_name formData) || isEmpty (form_unit formData));
    [discriminate|].
  cbv zeta.
  destruct (find _ ingredients); [discriminate|].
  destruct (form_stock formData <=? 0)%Z eqn:Es; [discriminate|].
  apply Z.leb_gt in Es. intros E. injection E as <-.
  assert (Hpos : 0 < inject_Z (form_stock formData)).
  { change 0 with (inject_Z 0). now rewrite <- Zlt_Qlt. }
  match goal with |- ing_id ?i = _ /\ _ => set (saved := i) end.
  assert (Ht : getIngredientTotalStock saved == inject_Z (form_stock formData)).
  { unfold getIngredientTotalStock. cbn [saved stockHistory fold_left sh_quantity].
    ring. }
  split; [reflexivity|]. split; [reflexivity|]. split; [exact Ht|].
  rewrite Ht. exact Hpos.
Qed.

(** Editing an ingredient keeps its id and its history: the saved history
    is the old one followed by at most one batch, of positive quantity, so
    the total stock never goes down through the form. *)
Theorem handleSubmit_edit_keeps_history (now stamp : string)
    (ingredients : list Ingredient) (ingredient : Ingredient)
    (formData : IngredientForm) (saved : Ingredient) :
  IngredientModal.handleSubmit toLowerCase now stamp ingredients
    (Some ingredient) formData = inr saved ->
  ing_id saved = ing_id ingredient /\
  ing_name saved = form_name formData /\
  (stockHistory saved = stockHistory ingredient \/
   exists b, 0 < sh_quantity b /\
             stockHistory saved = stockHistory ingredient ++ [b]) /\
  getIngredientTotalStock ingredient <= getIngredientTotalStock saved.
Proof.
  unfold IngredientModal.handleSubmit.
  destruct (isEmpty (form_name formData) || isEmpty (form_unit formData));
    [discriminate|].
  cbv zeta.
  destruct (find _ ingredients); [discriminate|].
  intros E. injection E as <-. unfold handleSubmit_editing.
  destruct (Qgt_bool (form_addQuantity formData) 0) eqn:Eq.
  - apply Qgt_bool_iff in Eq.
    split; [reflexivity|]. split; [reflexivity|]. split.
    + right. eexists. split; [|reflexivity]. exact Eq.
    + rewrite totalStock_pushBatch. cbn [sh_quantity].
      rewrite !totalStock_spec. cbn [stockHistory]. lra.
  - split; [reflexivity|]. split; [reflexivity|]. split; [now left|].
    rewrite !totalStock_spec. cbn [stockHistory]. lra.
Qed.

End Submit.

Lemma NoDup_map_transfer {A B C : Type} (f : A -> B) (g : A -> C) (l : list A) :
  NoDup (map f l) ->
  (forall x y, In x l -> In y l -> g x = g y -> f x = f y) ->
  NoDup (map g l).
Proof.
  induction l as [|a l IH]; cbn [map]; intros Hnd Hfg; [constructor|].
  inversion Hnd as [|? ? Hfresh Hnd']; subst. constructor.
  - intros Hin. apply in_map_iff in Hin. destruct Hin as (y & Hy & Hyl).
    apply Hfresh. rewrite (Hfg a y); [now apply in_map | now left | now right | easy].
  - apply IH; [exact Hnd'|]. intros x y Hx Hy. apply Hfg; now right.
Qed.

Lemma NoDup_map_In_eq {A B : Type} (f : A -> B) (l : list A) (x y : A) :
  NoDup (map f l) -> In x l -> In y l -> f x = f y -> x = y.
Proof.
  induction l as [|a l IH]; cbn [map]; intros Hnd Hx Hy Hf; [destruct Hx|].
  inversion Hnd as [|? ? Hfresh Hnd']; subst.
  destruct Hx as [->|Hx], Hy as [->|Hy]; auto.
  - exfalso. apply Hfresh. rewrite Hf. now apply in_map.
  - exfalso. apply Hfresh. rewrite <- Hf. now apply in_map.
Qed.

(** Ids and names stay unique through the form.  If no two ingredients
    share an id or a name (up to case), and the form is accepted for one of
    them (or for a new ingredient whose generated id is not in use), then
    after [handleIngredientSave] still no two ingredients share an id or a
    name. *)
Theorem handleSubmit_save_keeps_unique (toLowerCase : string -> string)
    (now stamp : string) (ingredients : list Ingredient)
    (ingredient : option Ingredient) (formData : IngredientForm)
    (saved : Ingredient) :
  NoDup (map ing_id ingredients) ->
  uniqueNames toLowerCase ingredients ->
  match ingredient with
  | Some edited => In edited ingredients /\ form_id formData = ing_id edited
  | None => ~ In (form_id formData) (map ing_id ingredients) /\
            ~ In ("ing_" ++ stamp)%string (map ing_id ingredients)
  end ->
  IngredientModal.handleSubmit toLowerCase now stamp ingredients ingredient
    formData = inr saved ->
  NoDup (map ing_id (handleIngredientSave ingredients saved)) /\
  uniqueNames toLowerCase (handleIngredientSave ingredients saved).
Proof.
  intros Hids Hnames Hform Hsaved.
  change (handleIngredientSave ingredients saved)
    with (upsertBy ing_id ingredients saved).
  split; [now apply upsert_NoDup|].
  unfold IngredientModal.handleSubmit in Hsaved.
  destruct (isEmpty (form_name formData) || isEmpty (form_unit formData));
    [discriminate|].
  cbv zeta in Hsaved.
  destruct (find _ ingredients) eqn:Hclash in Hsaved; [discriminate|].
  assert (Hno : forall i, In i ingredients ->
            toLowerCase (ing_name i) = toLowerCase (form_name formData) ->
            ing_id i = form_id formData).
  { intros i Hin Hname. pose proof (find_none _ _ Hclash i Hin) as E.
    cbv beta in E. rewrite Hname, String.eqb_refl in E. cbn [andb] in E.
    apply negb_false_iff in E. now apply String.eqb_eq. }
  clear Hclash. unfold uniqueNames, upsertBy.
  destruct ingredient as [edited|].
  - destruct Hform as [Hin Hfid]. injection Hsaved as <-.
    set (saved := handleSubmit_editing _ _ _ _ _ _ _ _).
    assert (Hsid : ing_id saved = ing_id edited).
    { unfold saved, handleSubmit_editing.
      now destruct (Qgt_bool (form_addQuantity formData) 0). }
    assert (Hsname : ing_name saved = form_name formData).
    { unfold saved, handleSubmit_editing.
      now destruct (Qgt_bool (form_addQuantity formData) 0). }
    destruct (find (fun y => String.eqb (ing_id y) (ing_id saved)) ingredients)
      eqn:Hfind.
    + rewrite map_map.
      apply (NoDup_map_transfer ing_id); [exact Hids|].
      intros x y Hx Hy. rewrite Hsid.
      destruct (String.eqb (ing_id x) (ing_id edited)) eqn:Ex,
               (String.eqb (ing_id y) (ing_id edited)) eqn:Ey;
        try apply String.eqb_eq in Ex; try apply String.eqb_eq in Ey;
        rewrite ?Hsname; intros E.
      * congruence.
      * symmetry in E. rewrite (Hno y Hy E). congruence.
      * rewrite (Hno x Hx E). congruence.
      * f_equal. now apply (NoDup_map_In_eq _ _ _ _ Hnames Hx Hy).
    + exfalso. pose proof (find_none _ _ Hfind edited Hin) as E.
      cbv beta in E. now rewrite Hsid, String.eqb_refl in E.
  - destruct Hform as [Hfid Hfresh].
    destruct (form_stock formData <=? 0)%Z; [discriminate|].
    injection Hsaved as <-. cbn [ing_id].
    destruct (find _ ingredients) as [i|] eqn:Hfind.
    + exfalso. apply find_some in Hfind. destruct Hfind as [Hin E].
      apply String.eqb_eq in E. apply Hfresh. apply in_map_iff.
      exists i. split; [exact E | exact Hin].
    + rewrite map_app. cbn [map ing_name].
      apply NoDup_app; [exact Hnames | repeat constructor; intros [] |].
      intros k Hk [<-|[]]. apply in_map_iff in Hk.
      destruct Hk as (i & Hname & Hin).
      apply Hfid. rewrite <- (Hno i Hin Hname). now apply in_map.
Qed.

Lemma handleSubmit_new_ingredient_witness :
  IngredientModal.handleSubmit asciiToLowerCase "t" "17" [flour] None pepperForm
    = inr pepper /\
  (ing_id pepper = ("ing_" ++ "17")%string /\
   stockHistory pepper =
     [mkStockHistoryItem "t" (inject_Z (form_stock pepperForm))
        (form_totalCost pepperForm / inject_Z (form_stock pepperForm))] /\
   getIngredientTotalStock pepper == inject_Z (form_stock pepperForm) /\
   0 < getIngredientTotalStock pepper).
Proof.
  assert (H : IngredientModal.handleSubmit asciiToLowerCase "t" "17" [flour] None
                pepperForm = inr pepper) by reflexivity.
  refine (conj H _).
  exact (handleSubmit_new_ingredient asciiToLowerCase "t" "17" [flour]
           pepperForm pepper H).
Defined.

Lemma handleSubmit_edit_keeps_history_witness :
  IngredientModal.handleSubmit asciiToLowerCase "t" "17" [flour; oversoldSugar]
    (Some flour) flourForm = inr breadFlour /\
  (ing_id breadFlour = ing_id flour /\
   ing_name breadFlour = form_name flourForm /\
   (stockHistory breadFlour = stockHistory flour \/
    exists b, 0 < sh_quantity b /\
              stockHistory breadFlour = stockHistory flour ++ [b]) /\
   getIngredientTotalStock flour <= getIngredientTotalStock breadFlour).
Proof.
  assert (H : IngredientModal.handleSubmit asciiToLowerCase "t" "17"
                [flour; oversoldSugar] (Some flour) flourForm = inr breadFlour)
    by reflexivity.
  refine (conj H _).
  exact (handleSubmit_edit_keeps_history asciiToLowerCase "t" "17"
           [flour; oversoldSugar] flour flourForm breadFlour H).
Defined.

Lemma handleSubmit_save_keeps_unique_witness :
  NoDup (map ing_id [flour; oversoldSugar]) /\
  uniqueNames asciiToLowerCase [flour; oversoldSugar] /\
  (In flour [flour; oversoldSugar] /\ form_id flourForm = ing_id flour) /\
  IngredientModal.handleSubmit asciiToLowerCase "t" "17" [flour; oversoldSugar]
    (Some flour) flourForm = inr breadFlour /\
  (NoDup (map ing_id (handleIngredientSave [flour; oversoldSugar] breadFlour)) /\
   uniqueNames asciiToLowerCase
     (handleIngredientSave [flour; oversoldSugar] breadFlour)).
Proof.
  assert (H1 : NoDup (map ing_id [flour; oversoldSugar])).
  { cbn. repeat constructor; cbn; intuition discriminate. }
  assert (H2 : uniqueNames asciiToLowerCase [flour; oversoldSugar]).
  { unfold uniqueNames. cbn. repeat constructor; cbn; intuition discriminate. }
  assert (H3 : In flour [flour; oversoldSugar] /\ form_id flourForm = ing_id flour).
  { split; [now left | reflexivity]. }
  assert (H4 : IngredientModal.handleSubmit asciiToLowerCase "t" "17"
                 [flour; oversoldSugar] (Some flour) flourForm = inr breadFlour)
    by reflexivity.
  refine (conj H1 (conj H2 (conj H3 (conj H4 _)))).
  exact (handleSubmit_save_keeps_unique asciiToLowerCase "t" "17"
           [flour; oversoldSugar] (Some flour) flourForm breadFlour H1 H2 H3 H4).
Defined.

(** ** The recipe builder *)

Section ReplaceAt.
Context {A : Type} (key : A -> string).

Lemma findIndex_None (p : A -> bool) (l : list A) :
  findIndex p l = None -> forall y, In y l -> p y = false.
Proof.
  induction l as [|a l IH]; cbn [findIndex]; intros H y Hy; [destruct Hy|].
  destruct (p a) eqn:Ea; [discriminate|].
  destruct (findIndex p l); [discriminate|].
  destruct Hy as [<-|Hy]; auto.
Qed.

Lemma replaceAt_keys (l : list A) (k : nat) (x : A) :
  findIndex (fun y => String.eqb (key y) (key x)) l = Some k ->
  map key (replaceAt k x l) = map key l.
Proof.
  revert k. induction l as [|a l IH]; intros k; cbn [findIndex]; [discriminate|].
  destruct (String.eqb (key a) (key x)) eqn:Ea.
  - intros E. injection E as <-. apply String.eqb_eq in Ea.
    cbn [replaceAt map]. now rewrite Ea.
  - destruct (findIndex _ l) as [k'|]; [|discriminate].
    intros E. injection E as <-. cbn [replaceAt map]. now rewrite (IH k').
Qed.

Lemma replaceAt_In (l : list A) (k : nat) (x y : A) :
  In y (replaceAt k x l) -> y = x \/ In y l.
Proof.
  revert k. induction l as [|a l IH]; intros [|k]; cbn [replaceAt In]; auto.
  - intros [<-|H]; auto.
  - intros [<-|H]; auto. destruct (IH k H); auto.
Qed.

Lemma replaceAt_find (l : list A) (k : nat) (x : A) (id : string) :
  findIndex (fun y => String.eqb (key y) (key x)) l = Some k ->
  find (fun y => String.eqb (key y) id) (replaceAt k x l) =
  if String.eqb (key x) id then Some x
  else find (fun y => String.eqb (key y) id) l.
Proof.
  revert k. induction l as [|a l IH]; intros k; cbn [findIndex]; [discriminate|].
  destruct (String.eqb (key a) (key x)) eqn:Ea.
  - intros E. injection E as <-. apply String.eqb_eq in Ea.
    cbn [replaceAt find]. rewrite Ea.
    now destruct (String.eqb (key x) id).
  - destruct (findIndex _ l) as [k'|]; [|discriminate].
    intros E. injection E as <-. cbn [replaceAt find]. rewrite (IH k' eq_refl).
    destruct (String.eqb (key a) id) eqn:Eid; [|reflexivity].
    apply String.eqb_eq in Eid. subst id.
    rewrite String.eqb_sym in Ea. now rewrite Ea.
Qed.

End ReplaceAt.

(** The recipe builder keeps a recipe well formed: whatever is entered,
    each ingredient still appears once and every quantity is positive. *)
Theorem handleAddIngredientToRecipe_wellFormed (ingId : string) (qty : option Q)
    (recipe : list RecipeItem) :
  recipeWellFormed recipe ->
  recipeWellFormed (ProductModal.handleAddIngredientToRecipe ingId qty recipe).
Proof.
  intros [Hnd Hpos]. unfold ProductModal.handleAddIngredientToRecipe.
  destruct qty as [q|]; [|now split].
  destruct (isEmpty ingId); cbn [orb]; [now split|].
  destruct (Qle_bool q 0) eqn:Eq; [now split|].
  assert (Hq : 0 < q).
  { apply Qnot_le_lt. intros H. apply Qle_bool_iff in H. congruence. }
  cbv zeta. cbn [ingredientId].
  destruct (findIndex _ recipe) as [k|] eqn:Ef.
  - split.
    + now rewrite (replaceAt_keys ingredientId recipe k (mkRecipeItem ingId q) Ef).
    + apply Forall_forall. intros y Hy.
      destruct (replaceAt_In _ _ _ _ Hy) as [->|Hin]; [exact Hq|].
      exact (proj1 (Forall_forall _ _) Hpos y Hin).
  - split.
    + rewrite map_app. cbn [map ingredientId].
      apply NoDup_app; [exact Hnd | repeat constructor; intros [] |].
      intros id Hid [<-|[]]. apply in_map_iff in Hid.
      destruct Hid as (y & Hy & Hin).
      pose proof (findIndex_None _ _ Ef y Hin) as E. cbv beta in E.
      now rewrite Hy, String.eqb_refl in E.
    + apply Forall_app. split; [exact Hpos | now repeat constructor].
Qed.

(** An accepted entry (an ingredient chosen, a quantity above 0) is what
    the recipe then holds for that ingredient, whether the ingredient was
    already in the recipe or not; the lines of the other ingredients are
    found as before.  An entry that is not accepted leaves the recipe as it
    is. *)
Theorem handleAddIngredientToRecipe_lookup (ingId : string) (qty : option Q)
    (recipe : list RecipeItem) (id : string) :
  match qty with
  | Some q =>
      if isEmpty ingId || Qle_bool q 0 then
        ProductModal.handleAddIngredientToRecipe ingId qty recipe = recipe
      else
        recipeLine (ProductModal.handleAddIngredientToRecipe ingId qty recipe) id =
        if String.eqb ingId id then Some (mkRecipeItem ingId q)
        else recipeLine recipe id
  | None => ProductModal.handleAddIngredientToRecipe ingId qty recipe = recipe
  end.
Proof.
  unfold ProductModal.handleAddIngredientToRecipe, recipeLine.
  destruct qty as [q|]; [|reflexivity].
  destruct (isEmpty ingId || Qle_bool q 0); [reflexivity|].
  cbv zeta. cbn [ingredientId].
  destruct (findIndex _ recipe) as [k|] eqn:Ef.
  - now rewrite (replaceAt_find ingredientId recipe k (mkRecipeItem ingId q) id Ef).
  - destruct (find (fun line => String.eqb (ingredientId line) id) recipe)
      as [line|] eqn:El.
    + rewrite (find_app_some _ _ _ _ El).
      destruct (String.eqb ingId id) eqn:E; [|reflexivity].
      apply String.eqb_eq in E. subst id. apply find_some in El.
      destruct El as [Hin Hl].
      pose proof (findIndex_None _ _ Ef line Hin) as E. cbv beta in E. congruence.
    + rewrite (find_app_none _ _ _ El). cbn [find ingredientId].
      now destruct (String.eqb ingId id).
Qed.

Lemma filter_all {A : Type} (p : A -> bool) (l : list A) :
  (forall x, In x l -> p x = true) -> filter p l = l.
Proof.
  induction l as [|a l IH]; cbn [filter]; intros H; [reflexivity|].
  rewrite (H a (or_introl eq_refl)), IH; [reflexivity|].
  intros x Hx. apply H. now right.
Qed.

(** Removing an ingredient from a recipe, whatever the recipe, leaves no
    line for it and keeps every line of the other ingredients; and
    removing a line right after adding it, for an ingredient the recipe did
    not hold, gives back the recipe. *)
Theorem handleRemoveIngredient_undoes_add (ingId : string) (qty : option Q)
    (recipe : list RecipeItem) :
  ~ In ingId (map ingredientId (ProductModal.handleRemoveIngredient ingId recipe)) /\
  (forall line,
     In line recipe -> ingredientId line <> ingId ->
     In line (ProductModal.handleRemoveIngredient ingId recipe)) /\
  (~ In ingId (map ingredientId recipe) ->
   ProductModal.handleRemoveIngredient ingId
     (ProductModal.handleAddIngredientToRecipe ingId qty recipe) = recipe).
Proof.
  split; [|split].
  - unfold ProductModal.handleRemoveIngredient. intros Hin.
    apply in_map_iff in Hin. destruct Hin as (y & Hy & Hin).
    apply filter_In in Hin. destruct Hin as [_ E].
    now rewrite Hy, String.eqb_refl in E.
  - intros line Hin Hne. unfold ProductModal.handleRemoveIngredient.
    apply filter_In. split; [exact Hin|].
    now apply negb_true_iff, String.eqb_neq.
  - intros Hnot.
    assert (Hkeep : filter (fun item => negb (String.eqb (ingredientId item) ingId))
                           recipe = recipe).
    { apply filter_all. intros x Hx. apply negb_true_iff, String.eqb_neq.
      intros E. apply Hnot. rewrite <- E. now apply in_map. }
    unfold ProductModal.handleRemoveIngredient,
      ProductModal.handleAddIngredientToRecipe.
    destruct qty as [q|]; [|exact Hkeep].
    destruct (isEmpty ingId || Qle_bool q 0); [exact Hkeep|].
    cbv zeta. cbn [ingredientId].
    destruct (findIndex _ recipe) as [k|] eqn:Ef.
    + exfalso. apply Hnot.
      rewrite <- (replaceAt_keys ingredientId recipe k (mkRecipeItem ingId q) Ef).
      clear Hkeep Hnot. revert k Ef.
      induction recipe as [|a l IH]; intros k; cbn [findIndex]; [discriminate|].
      destruct (String.eqb (ingredientId a) ingId).
      * intros E. injection E as <-. now left.
      * destruct (findIndex _ l) as [k'|]; [|discriminate].
        intros E. injection E as <-. right. now apply (IH k').
    + rewrite filter_app, Hkeep. cbn [filter ingredientId].
      rewrite String.eqb_refl. cbn [negb]. now rewrite app_nil_r.
Qed.

Lemma handleAddIngredientToRecipe_wellFormed_witness :
  recipeWellFormed (recipe bread) /\
  recipeWellFormed
    (ProductModal.handleAddIngredientToRecipe "ing_2" (Some (5 # 2)) (recipe bread)).
Proof.
  assert (H : recipeWellFormed (recipe bread)).
  { split; cbn; repeat constructor; intros []. }
  refine (conj H _).
  exact (handleAddIngredientToRecipe_wellFormed "ing_2" (Some (5 # 2))
           (recipe bread) H).
Defined.

Lemma handleRemoveIngredient_undoes_add_witness :
  ~ In "ing_2"%string (map ingredientId (recipe bread)) /\
  ProductModal.handleRemoveIngredient "ing_2"
    (ProductModal.handleAddIngredientToRecipe "ing_2" (Some (5 # 2))
       (recipe bread)) = recipe bread.
Proof.
  assert (H : ~ In "ing_2"%string (map ingredientId (recipe bread))).
  { cbn. intuition discriminate. }
  refine (conj H _).
  exact (proj2 (proj2 (handleRemoveIngredient_undoes_add
                         "ing_2" (Some (5 # 2)) (recipe bread))) H).
Defined.

(** ** Deleting ingredients and products *)

Lemma find_filter_key {A : Type} (key : A -> string) (l : list A) (id id' : string) :
  find (fun y => String.eqb (key y) id')
       (filter (fun y => negb (String.eqb (key y) id)) l) =
  if String.eqb id id' then None else find (fun y => String.eqb (key y) id') l.
Proof.
  induction l as [|a l IH]; cbn [filter find].
  - now destruct (String.eqb id id').
  - destruct (String.eqb (key a) id) eqn:Ea; cbn [negb].
    + rewrite IH. destruct (String.eqb id id') eqn:E; [reflexivity|].
      apply String.eqb_eq in Ea. subst id. now rewrite E.
    + cbn [find]. rewrite IH.
      destruct (String.eqb id id') eqn:E; [|reflexivity].
      apply String.eqb_eq in E. subst id'. now rewrite Ea.
Qed.

(** Deleting an ingredient removes it from the set and removes every
    recipe line that refers to it; the other ingredients are found as
    before, and no product appears or disappears. *)
Theorem handleDelete_ingredient (id : string) (ingredients : list Ingredient)
    (inventory : list Product) :
  let stores := handleDelete true INGREDIENTS id ingredients inventory in
  (forall id',
     ingredientById (fst stores) id' =
     if String.eqb id id' then None else ingredientById ingredients id') /\
  Forall2 (fun p p' =>
             p_id p' = p_id p /\
             recipe p' = ProductModal.handleRemoveIngredient id (recipe p) /\
             recipeLine (recipe p') id = None)
          inventory (snd stores).
Proof.
  cbv zeta. cbn [handleDelete negb fst snd]. split.
  - intros id'. unfold ingredientById, hasId. apply find_filter_key.
  - apply Forall2_map_self, Forall_forall. intros p _.
    cbn [setRecipe p_id recipe]. split; [reflexivity|]. split; [reflexivity|].
    unfold recipeLine. rewrite find_filter_key. now rewrite String.eqb_refl.
Qed.

Lemma recipesResolve_filter (ingredients : list Ingredient)
    (inventory : list Product) (keep : Product -> bool) :
  recipesResolve ingredients inventory ->
  recipesResolve ingredients (filter keep inventory).
Proof.
  unfold recipesResolve. rewrite !Forall_forall. intros H p Hp.
  apply filter_In in Hp. now apply H.
Qed.

(** Referential integrity is kept by deletion: if every recipe line
    referred to an ingredient of the set before [handleDelete], in any tab
    and whatever the answer to the confirmation, every recipe line does so
    afterwards. *)
Theorem handleDelete_keeps_references (confirmed : bool) (activeTab : InventoryTab)
    (id : string) (ingredients : list Ingredient) (inventory : list Product) :
  recipesResolve ingredients inventory ->
  recipesResolve (fst (handleDelete confirmed activeTab id ingredients inventory))
                 (snd (handleDelete confirmed activeTab id ingredients inventory)).
Proof.
  intros H. unfold handleDelete.
  destruct confirmed; cbn [negb]; [|exact H].
  destruct activeTab; cbn [fst snd]; try exact H;
    try (now apply recipesResolve_filter).
  unfold recipesResolve in *. rewrite Forall_forall in *.
  intros p' Hp'. apply in_map_iff in Hp'. destruct Hp' as (p & <- & Hp).
  cbn [recipe setRecipe]. apply Forall_forall. intros line Hline.
  apply filter_In in Hline. destruct Hline as [Hline Hne].
  apply negb_true_iff in Hne.
  pose proof (proj1 (Forall_forall _ _) (H p Hp) line Hline) as Hres.
  unfold ingredientById, hasId in *. rewrite find_filter_key.
  rewrite String.eqb_sym in Hne. now rewrite Hne.
Qed.

Lemma Qsum_partition {A : Type} (f : A -> Q) (p : A -> bool) (l : list A) :
  Qsum (map f l) ==
  Qsum (map f (filter p l)) + Qsum (map f (filter (fun x => negb (p x)) l)).
Proof.
  induction l as [|a l IH]; cbn [map filter Qsum]; [ring|].
  destruct (p a); cbn [negb map Qsum]; rewrite IH; ring.
Qed.

Lemma Qsum_ext_In {A : Type} (f g : A -> Q) (l : list A) :
  (forall x, In x l -> f x == g x) -> Qsum (map f l) == Qsum (map g l).
Proof.
  induction l as [|a l IH]; cbn [map Qsum]; intros H; [reflexivity|].
  rewrite (H a (or_introl eq_refl)), IH; [reflexivity|].
  intros x Hx. apply H. now right.
Qed.

Lemma calculateProductCost_spec (recipe : list RecipeItem)
    (ingredients : list Ingredient) :
  calculateProductCost recipe ingredients == spec_cost recipe ingredients.
Proof. unfold calculateProductCost. rewrite calculateProductCost_from. ring. Qed.

Lemma Qsum_map_nonneg {A : Type} (f : A -> Q) (l : list A) :
  (forall x, In x l -> 0 <= f x) -> 0 <= Qsum (map f l).
Proof.
  induction l as [|a l IH]; cbn [map Qsum]; intros H; [lra|].
  pose proof (H a (or_introl eq_refl)).
  assert (0 <= Qsum (map f l)) by (apply IH; intros x Hx; apply H; now right).
  lra.
Qed.

(** Deleting an ingredient never raises the cost of a product: if the
    recipe lines of that ingredient cost 0 or more, every product costs
    after the deletion at most what it cost before. *)
Theorem handleDelete_lowers_cost (id : string) (ingredients : list Ingredient)
    (inventory : list Product) :
  Forall (fun p =>
            Forall (fun line =>
                      ingredientId line = id ->
                      0 <= spec_lineCost ingredients line)
                   (recipe p))
         inventory ->
  let stores := handleDelete true INGREDIENTS id ingredients inventory in
  Forall2 (fun p p' =>
             calculateProductCost (recipe p') (fst stores) <=
             calculateProductCost (recipe p) ingredients)
          inventory (snd stores).
Proof.
  intros Hcost. cbv zeta. cbn [handleDelete negb fst snd].
  apply Forall2_map_self, Forall_forall. intros p Hp. cbn [recipe setRecipe].
  pose proof (proj1 (Forall_forall _ _) Hcost p Hp) as Hlines. cbv beta in Hlines.
  rewrite !calculateProductCost_spec. unfold spec_cost.
  rewrite (Qsum_partition (spec_lineCost ingredients)
             (fun line => String.eqb (ingredientId line) id) (recipe p)).
  assert (Hremoved :
    0 <= Qsum (map (spec_lineCost ingredients)
                   (filter (fun line => String.eqb (ingredientId line) id)
                           (recipe p)))).
  { apply Qsum_map_nonneg. intros line Hline. apply filter_In in Hline.
    destruct Hline as [Hin E]. apply String.eqb_eq in E.
    exact (proj1 (Forall_forall _ _) Hlines line Hin E). }
  assert (Hkept :
    Qsum (map (spec_lineCost
                 (filter (fun i => negb (String.eqb (ing_id i) id)) ingredients))
              (ProductModal.handleRemoveIngredient id (recipe p))) ==
    Qsum (map (spec_lineCost ingredients)
              (filter (fun line => negb (String.eqb (ingredientId line) id))
                      (recipe p)))).
  { apply Qsum_ext_In. intros line Hline.
    apply filter_In in Hline. destruct Hline as [_ Hne].
    apply negb_true_iff in Hne.
    unfold spec_lineCost, ingredientById, hasId. rewrite find_filter_key.
    rewrite String.eqb_sym in Hne. rewrite Hne. reflexivity. }
  rewrite Hkept. lra.
Qed.

Lemma handleDelete_lowers_cost_witness :
  Forall (fun p =>
            Forall (fun line =>
                      ingredientId line = "ing_1"%string ->
                      0 <= spec_lineCost [flour; oversoldSugar] line)
                   (recipe p))
         [bread; syrup] /\
  Forall2 (fun p p' =>
             calculateProductCost (recipe p')
               (fst (handleDelete true INGREDIENTS "ing_1" [flour; oversoldSugar]
                                  [bread; syrup])) <=
             calculateProductCost (recipe p) [flour; oversoldSugar])
          [bread; syrup]
          (snd (handleDelete true INGREDIENTS "ing_1" [flour; oversoldSugar]
                             [bread; syrup])).
Proof.
  assert (H : Forall (fun p =>
                        Forall (fun line =>
                                  ingredientId line = "ing_1"%string ->
                                  0 <= spec_lineCost [flour; oversoldSugar] line)
                               (recipe p))
                     [bread; syrup]).
  { repeat constructor; intros _; vm_compute; discriminate. }
  refine (conj H _).
  exact (handleDelete_lowers_cost "ing_1" [flour; oversoldSugar] [bread; syrup] H).
Defined.

Lemma filter_filter_and {A : Type} (p q : A -> bool) (l : list A) :
  filter q (filter p l) = filter (fun x => p x && q x) l.
Proof.
  induction l as [|a l IH]; cbn [filter]; [reflexivity|].
  destruct (p a); cbn [filter andb]; [|exact IH].
  destruct (q a); now rewrite IH.
Qed.

Lemma filter_ext_all {A : Type} (p q : A -> bool) (l : list A) :
  (forall x, p x = q x) -> filter p l = filter q l.
Proof.
  intros H. induction l as [|a l IH]; cbn [filter]; [reflexivity|].
  now rewrite H, IH.
Qed.

Lemma setRecipe_same (p : Product) : setRecipe p (recipe p) = p.
Proof. now destruct p. Qed.

(** A bulk delete is the deletion of the selected ids one after the other:
    in the ingredients, products and misc tabs, [handleBulkDelete] leaves
    the two stores as the successive [handleDelete] calls would. *)
Theorem handleBulkDelete_iterates (activeTab : InventoryTab)
    (selectedItems : list string)
    (ingredients : list Ingredient) (inventory : list Product) :
  activeTab = INGREDIENTS \/ activeTab = PRODUCTS \/ activeTab = MISC ->
  handleBulkDelete true activeTab selectedItems ingredients inventory =
  fold_left (fun stores id =>
               handleDelete true activeTab id (fst stores) (snd stores))
            selectedItems (ingredients, inventory).
Proof.
  intros Htab. revert ingredients inventory.
  induction selectedItems as [|id sel IH]; intros ingredients inventory.
  - cbn [fold_left handleBulkDelete has existsb negb].
    assert (Hinv : filter (fun _ : Product => true) inventory = inventory)
      by (now apply filter_all).
    destruct Htab as [->|[->| ->]]; rewrite ?Hinv; try reflexivity.
    f_equal; [now apply filter_all|].
    rewrite <- (map_id inventory) at 2. apply map_ext. intros p.
    rewrite (filter_all _ (recipe p)) by reflexivity. apply setRecipe_same.
  - cbn [fold_left fst snd].
    destruct (handleDelete true activeTab id ingredients inventory)
      as [ingredients' inventory'] eqn:Estep.
    rewrite <- IH. revert Estep.
    unfold handleBulkDelete, handleDelete. cbn [negb has existsb].
    destruct Htab as [->|[->| ->]]; intros Estep; injection Estep as <- <-.
    + f_equal.
      * rewrite filter_filter_and. apply filter_ext_all. intros i.
        now rewrite negb_orb.
      * rewrite map_map. apply map_ext. intros p.
        cbn [setRecipe recipe p_id p_name p_price p_quantity p_cost p_type].
        unfold setRecipe. f_equal.
        rewrite filter_filter_and. apply filter_ext_all. intros r.
        now rewrite negb_orb.
    + f_equal. rewrite filter_filter_and. apply filter_ext_all. intros p.
      now rewrite negb_orb.
    + f_equal. rewrite filter_filter_and. apply filter_ext_all. intros p.
      now rewrite negb_orb.
Qed.

Lemma handleBulkDelete_iterates_witness :
  (INGREDIENTS = INGREDIENTS \/ INGREDIENTS = PRODUCTS \/ INGREDIENTS = MISC) /\
  handleBulkDelete true INGREDIENTS ["ing_2"%string; "ing_1"%string]
    [flour; oversoldSugar; salt] [bread; syrup] =
  fold_left (fun stores id =>
               handleDelete true INGREDIENTS id (fst stores) (snd stores))
            ["ing_2"%string; "ing_1"%string]
            ([flour; oversoldSugar; salt], [bread; syrup]).
Proof.
  assert (H : INGREDIENTS = INGREDIENTS \/ INGREDIENTS = PRODUCTS \/
              INGREDIENTS = MISC) by (now left).
  refine (conj H _).
  exact (handleBulkDelete_iterates INGREDIENTS ["ing_2"%string; "ing_1"%string]
           [flour; oversoldSugar; salt] [bread; syrup] H).
Defined.

Lemma handleDelete_keeps_references_witness :
  recipesResolve [flour; oversoldSugar] [bread; syrup] /\
  recipesResolve
    (fst (handleDelete true INGREDIENTS "ing_2" [flour; oversoldSugar]
            [bread; syrup]))
    (snd (handleDelete true INGREDIENTS "ing_2" [flour; oversoldSugar]
            [bread; syrup])).
Proof.
  assert (H : recipesResolve [flour; oversoldSugar] [bread; syrup]).
  { unfold recipesResolve. repeat constructor; cbn; discriminate. }
  refine (conj H _).
  exact (handleDelete_keeps_references true INGREDIENTS "ing_2"
           [flour; oversoldSugar] [bread; syrup] H).
Defined.

(** ** The cart *)

Lemma find_map_same_key {A : Type} (p : A -> bool) (g : A -> A) (l : list A) :
  (forall y, p (g y) = p y) ->
  find p (map g l) = option_map g (find p l).
Proof.
  intros H. induction l as [|a l IH]; cbn [map find]; [reflexivity|].
  rewrite H. destruct (p a); [reflexivity | exact IH].
Qed.

(** The item is added only while the cart holds less of it than the stock
    shown: then the quantity of that item goes up by exactly one (from 0 if
    it was not in the cart) and every other quantity stays.  Otherwise the
    cart is left as it is and the stock error is raised for the item. *)
Theorem addToCart_quantity (cart : list CartItem) (item : SellableItem) :
  if Qgt_bool (item_stock item) (cartQuantity cart (item_id item)) then
    snd (POSView.addToCart cart item) = None /\
    forall id,
      cartQuantity (fst (POSView.addToCart cart item)) id =
      if String.eqb (item_id item) id
      then cartQuantity cart (item_id item) + 1
      else cartQuantity cart id
  else POSView.addToCart cart item = (cart, Some (item_id item)).
Proof.
  unfold POSView.addToCart, cartQuantity. cbv zeta.
  destruct (Qgt_bool (item_stock item) _); [|reflexivity].
  split; [reflexivity|]. intros id. cbn [fst].
  destruct (find (fun ci => String.eqb (itemId ci) (item_id item)) cart)
    as [ci|] eqn:Ef.
  - rewrite find_map_same_key.
    2:{ intros y. now destruct (String.eqb (itemId y) (item_id item)). }
    destruct (String.eqb (item_id item) id) eqn:E.
    + apply String.eqb_eq in E. subst id. rewrite Ef. cbn [option_map].
      apply find_some in Ef. destruct Ef as [_ Ec]. now rewrite Ec.
    + destruct (find (fun ci0 => String.eqb (itemId ci0) id) cart) as [c|] eqn:Ec;
        [|reflexivity].
      cbn [option_map]. apply find_some in Ec. destruct Ec as [_ Ec].
      apply String.eqb_eq in Ec. subst id. rewrite String.eqb_sym in E.
      now rewrite E.
  - destruct (find (fun ci => String.eqb (itemId ci) id) cart) as [c|] eqn:Ec.
    + rewrite (find_app_some _ _ _ _ Ec).
      destruct (String.eqb (item_id item) id) eqn:E; [|reflexivity].
      apply String.eqb_eq in E. subst id. congruence.
    + rewrite (find_app_none _ _ _ Ec). cbn [find itemId ci_quantity].
      destruct (String.eqb (item_id item) id); [ring_simplify|]; reflexivity.
Qed.

(** Changing a quantity: for an item that is on sale and in the cart, a new
    quantity above the stock is refused (the cart stays, the stock error is
    raised); a new quantity of 0 or less takes the item out of the cart;
    any other new quantity replaces the old one.  The other items keep
    their quantities, and for an item that is not on sale or not in the
    cart nothing happens. *)
Theorem updateCartQuantity_quantity (sellable : list SellableItem)
    (cart : list CartItem) (id : string) (amount : Q) :
  let result := POSView.updateCartQuantity sellable cart id amount in
  match find (fun p => String.eqb (item_id p) id) sellable,
        find (fun i => String.eqb (itemId i) id) cart with
  | Some sellableItem, Some item =>
      let newQuantity := ci_quantity item + amount in
      (cartQuantity (fst result) id =
         if Qgt_bool newQuantity (item_stock sellableItem) then ci_quantity item
         else if Qle_bool newQuantity 0 then 0
         else newQuantity) /\
      (snd result =
         if Qgt_bool newQuantity (item_stock sellableItem) then Some id else None) /\
      (forall id', id' <> id ->
         cartQuantity (fst result) id' = cartQuantity cart id')
  | _, _ => result = (cart, None)
  end.
Proof.
  cbv zeta. unfold POSView.updateCartQuantity.
  destruct (find (fun p => String.eqb (item_id p) id) sellable) as [s|];
    [|reflexivity].
  destruct (find (fun i => String.eqb (itemId i) id) cart) as [item|] eqn:Ef;
    [|reflexivity].
  unfold cartQuantity.
  destruct (Qgt_bool (ci_quantity item + amount) (item_stock s)).
  { cbn [fst snd]. rewrite Ef. now repeat split. }
  destruct (Qle_bool (ci_quantity item + amount) 0); cbn [fst snd].
  - split; [|split; [reflexivity|]].
    + rewrite find_filter_key. now rewrite String.eqb_refl.
    + intros id' Hne. rewrite find_filter_key.
      assert (E : String.eqb id id' = false) by (apply String.eqb_neq; congruence).
      now rewrite E.
  - assert (Hkey : forall y,
              String.eqb
                (itemId (if String.eqb (itemId y) id
                         then setQuantity y (ci_quantity item + amount) else y)) id
              = String.eqb (itemId y) id).
    { intros y. now destruct (String.eqb (itemId y) id) eqn:E. }
    split; [|split; [reflexivity|]].
    + rewrite find_map_same_key by exact Hkey. rewrite Ef. cbn [option_map].
      apply find_some in Ef. destruct Ef as [_ E]. now rewrite E.
    + intros id' Hne. rewrite find_map_same_key.
      2:{ intros y. now destruct (String.eqb (itemId y) id). }
      destruct (find (fun ci => String.eqb (itemId ci) id') cart) as [c|] eqn:Ec;
        [|reflexivity].
      cbn [option_map]. apply find_some in Ec. destruct Ec as [_ Ec].
      apply String.eqb_eq in Ec. subst id'.
      assert (E : String.eqb (itemId c) id = false) by (now apply String.eqb_neq).
      now rewrite E.
Qed.

(** The cart handlers keep the cart well formed: after [addToCart] and
    after [updateCartQuantity] each item is still there at most once, in a
    positive quantity. *)
Theorem cart_handlers_keep_wellFormed (sellable : list SellableItem)
    (cart : list CartItem) (item : SellableItem) (id : string) (amount : Q) :
  cartWellFormed cart ->
  cartWellFormed (fst (POSView.addToCart cart item)) /\
  cartWellFormed (fst (POSView.updateCartQuantity sellable cart id amount)).
Proof.
  intros [Hnd Hpos]. split.
  - unfold POSView.addToCart. cbv zeta.
    destruct (Qgt_bool (item_stock item) _); cbn [fst]; [|now split].
    destruct (find (fun ci => String.eqb (itemId ci) (item_id item)) cart)
      as [ci|] eqn:Ef.
    + split.
      * rewrite map_map. erewrite map_ext; [exact Hnd|].
        intros y. now destruct (String.eqb (itemId y) (item_id item)).
      * apply Forall_forall. intros y Hy. apply in_map_iff in Hy.
        destruct Hy as (x & <- & Hx).
        pose proof (proj1 (Forall_forall _ _) Hpos x Hx) as Hq. cbv beta in Hq.
        destruct (String.eqb (itemId x) (item_id item));
          cbn [setQuantity ci_quantity]; lra.
    + split.
      * rewrite map_app. cbn [map itemId].
        apply NoDup_app; [exact Hnd | repeat constructor; intros [] |].
        intros k Hk [<-|[]]. now apply (find_key_none itemId _ _ Ef).
      * apply Forall_app. split; [exact Hpos|]. now repeat constructor.
  - unfold POSView.updateCartQuantity.
    destruct (find (fun p => String.eqb (item_id p) id) sellable) as [s|];
      [|now split].
    destruct (find (fun i => String.eqb (itemId i) id) cart) as [it|];
      [|now split].
    cbv zeta. destruct (Qgt_bool (ci_quantity it + amount) (item_stock s));
      [now split|].
    destruct (Qle_bool (ci_quantity it + amount) 0) eqn:El; cbn [fst].
    + split.
      * clear Hpos. induction cart as [|c cart IH]; cbn [filter map]; [constructor|].
        inversion Hnd as [|? ? Hfresh Hnd']; subst.
        destruct (negb (String.eqb (itemId c) id)); cbn [map]; [|now apply IH].
        constructor; [|now apply IH]. intros Hin. apply Hfresh.
        apply in_map_iff in Hin. destruct Hin as (y & Hy & Hin).
        apply filter_In in Hin. rewrite <- Hy. apply in_map. tauto.
      * apply Forall_forall. intros y Hy. apply filter_In in Hy.
        exact (proj1 (Forall_forall _ _) Hpos y (proj1 Hy)).
    + assert (Hnew : 0 < ci_quantity it + amount).
      { apply Qnot_le_lt. intros H. apply Qle_bool_iff in H. congruence. }
      split.
      * rewrite map_map. erewrite map_ext; [exact Hnd|].
        intros y. now destruct (String.eqb (itemId y) id).
      * apply Forall_forall. intros y Hy. apply in_map_iff in Hy.
        destruct Hy as (x & <- & Hx).
        pose proof (proj1 (Forall_forall _ _) Hpos x Hx) as Hq.
        now destruct (String.eqb (itemId x) id).
Qed.

Lemma cart_handlers_keep_wellFormed_witness :
  let cart := [mkCartItem "prod_1" "Bread" 60 2 PRODUCT] in
  let sellable := POSView.allSellableItems [bread; syrup] [flour; oversoldSugar] in
  cartWellFormed cart /\
  cartWellFormed
    (fst (POSView.addToCart cart (mkSellableItem "prod_1" "Bread" 60 5 PRODUCT))) /\
  cartWellFormed (fst (POSView.updateCartQuantity sellable cart "prod_1" (- (1)))).
Proof.
  cbv zeta.
  assert (H : cartWellFormed [mkCartItem "prod_1" "Bread" 60 2 PRODUCT]).
  { split; cbn; repeat constructor; intros []. }
  refine (conj H _).
  exact (cart_handlers_keep_wellFormed
           (POSView.allSellableItems [bread; syrup] [flour; oversoldSugar])
           [mkCartItem "prod_1" "Bread" 60 2 PRODUCT]
           (mkSellableItem "prod_1" "Bread" 60 5 PRODUCT) "prod_1" (- (1)) H).
Defined.

(** ** Totals, payment and order numbers *)

Lemma cartSubtotal_spec (cart : list CartItem) :
  CartView.cartSubtotal cart ==
  Qsum (map (fun item => ci_price item * ci_quantity item) cart).
Proof. apply (reduce_add (fun item => ci_price item * ci_quantity item)). Qed.

Lemma Qsum_scale (c : Q) (l : list Q) :
  Qsum (map (fun x => c * x) l) == c * Qsum l.
Proof.
  induction l as [|x l IH]; cbn [map Qsum]; [ring|]. rewrite IH. ring.
Qed.

Lemma totalTax_spec (taxes : list Tax) (cart : list CartItem) :
  CartView.totalTax taxes cart ==
  CartView.cartSubtotal cart * (Qsum (map rate taxes) / 100).
Proof.
  unfold CartView.totalTax, CartView.taxBreakdown.
  rewrite (reduce_add (fun t : Tax * Q => snd t)), map_map. cbn [snd].
  set (s := CartView.cartSubtotal cart).
  induction taxes as [|t taxes IH]; cbn [map Qsum]; [field|].
  rewrite IH. field.
Qed.

(** The total shown in the cart.  With no tax, or only taxes at rate 0, it
    is the subtotal; with a single tax it is the subtotal plus the subtotal
    times the tax rate in percent; and for an empty cart it is 0 whatever
    the taxes. *)
Theorem cart_total_with_taxes (taxes : list Tax) (cart : list CartItem) :
  (Forall (fun tax => rate tax == 0) taxes ->
   CartView.total taxes cart == CartView.cartSubtotal cart) /\
  (forall tax,
     taxes = [tax] ->
     CartView.total taxes cart ==
     CartView.cartSubtotal cart + CartView.cartSubtotal cart * (rate tax / 100)) /\
  CartView.total taxes [] == 0.
Proof.
  unfold CartView.total. split; [|split].
  - intros Hzero. rewrite totalTax_spec, (Qsum_zero rate taxes Hzero). field.
  - intros tax ->. unfold CartView.totalTax, CartView.taxBreakdown.
    cbn [map fold_left snd]. ring.
  - rewrite totalTax_spec. unfold CartView.cartSubtotal. cbn [fold_left]. field.
Qed.

(** A payment records the cart as it is and clears it, and the recorded
    total is the cart subtotal: the tax shown in the cart is not part of
    it, so the total shown is the recorded total plus the total tax.  An
    employee meal records the same items at total 0, marked as employee
    meal, and takes the same stock as a payment. *)
Theorem handlePayment_records_subtotal (now stamp : string)
    (inventory : list Product) (paymentMode : PaymentMode) (taxes : list Tax)
    (st : PosState) :
  let paid := POSView.handlePayment now stamp inventory paymentMode st in
  let meal := POSView.handleEmployeeMeal true now stamp inventory st in
  (exists t,
     pos_transactions paid = pos_transactions st ++ [t] /\
     tx_items t = pos_cart st /\ isEmployeeMeal t = false /\
     tx_total t == CartView.cartSubtotal (pos_cart st) /\
     CartView.total taxes (pos_cart st) ==
       tx_total t + CartView.totalTax taxes (pos_cart st)) /\
  (exists t,
     pos_transactions meal = pos_transactions st ++ [t] /\
     tx_items t = pos_cart st /\ isEmployeeMeal t = true /\ tx_total t = 0) /\
  pos_ingredients meal = pos_ingredients paid /\
  pos_cart paid = [] /\ pos_cart meal = [].
Proof.
  cbv zeta. split; [|split; [|now repeat split]].
  - eexists. split; [reflexivity|]. cbn [tx_items tx_total isEmployeeMeal d_total
      d_isEmployeeMeal]. split; [reflexivity|]. split; [reflexivity|].
    split; [reflexivity|]. unfold CartView.total, CartView.cartSubtotal.
    reflexivity.
  - eexists. split; [reflexivity|]. now repeat split.
Qed.

(** Order numbers of one day are consecutive.  However many sales are paid
    on the same day, one after the other, the kitchen orders they add are
    numbered start+1, start+2, ..., where start is the last number of that
    day, or 0 if the last order was on another day. *)
Theorem order_numbers_consecutive (inventory : list Product) (today : string)
    (sales : list (string * string * list CartItem)) :
  forall st : PosState,
  Forall (fun sale => beforeT (fst (fst sale)) = today) sales ->
  let start :=
    if String.eqb (lo_date (pos_lastOrderNumber st)) today
    then lo_number (pos_lastOrderNumber st) else 0%Z in
  map orderNumber (pos_kitchenOrders (fold_left (payFor inventory) sales st)) =
  map orderNumber (pos_kitchenOrders st) ++
  map (fun k => (start + Z.of_nat k)%Z) (seq 1 (List.length sales)).
Proof.
  induction sales as [|sale sales IH]; intros st Hday; cbv zeta.
  - cbn. now rewrite app_nil_r.
  - inversion Hday as [|? ? Hsale Hrest]; subst.
    cbn [fold_left List.length]. rewrite (IH _ Hrest).
    unfold payFor at 1 2 3. unfold POSView.handlePayment,
      POSView.handleFinalizeTransaction. cbv zeta.
    cbn [pos_kitchenOrders pos_lastOrderNumber lo_date lo_number setCart].
    rewrite String.eqb_refl, map_app, <- app_assoc. f_equal.
    cbn [map orderNumber app seq].
    set (start := if String.eqb (lo_date (pos_lastOrderNumber st))
                                (beforeT (fst (fst sale)))
                  then lo_number (pos_lastOrderNumber st) else 0%Z).
    assert (Hnext : (if String.eqb (lo_date (pos_lastOrderNumber st))
                                   (beforeT (fst (fst sale)))
                     then (lo_number (pos_lastOrderNumber st) + 1)%Z else 1%Z)
                    = (start + 1)%Z).
    { unfold start. now destruct (String.eqb _ _). }
    rewrite Hnext. f_equal.
    rewrite <- (seq_shift (List.length sales) 1), map_map.
    apply map_ext. intros k. lia.
Qed.

Lemma order_numbers_consecutive_witness :
  Forall (fun sale => beforeT (fst (fst sale)) = "2024-01-02"%string)
         secondOfJanuary /\
  map orderNumber
      (pos_kitchenOrders (fold_left (payFor [bread]) secondOfJanuary openTill)) =
  map orderNumber (pos_kitchenOrders openTill) ++
  map (fun k =>
         ((if String.eqb (lo_date (pos_lastOrderNumber openTill)) "2024-01-02"
           then lo_number (pos_lastOrderNumber openTill) else 0) + Z.of_nat k)%Z)
      (seq 1 (List.length secondOfJanuary)).
Proof.
  assert (H : Forall (fun sale => beforeT (fst (fst sale)) = "2024-01-02"%string)
                     secondOfJanuary).
  { repeat constructor. }
  refine (conj H _).
  exact (order_numbers_consecutive [bread] "2024-01-02" secondOfJanuary openTill H).
Defined.

(** ** What a sale does to stock and cost *)

Lemma Qsum_opp (l : list Q) : Qsum (map (fun d => - d) l) == - Qsum l.
Proof.
  induction l as [|d l IH]; cbn [map Qsum]; [ring|]. rewrite IH. ring.
Qed.

Lemma Qsum_opp_scale (c : Q) (l : list Q) :
  Qsum (map (fun d => - d * c) l) == - (c * Qsum l).
Proof.
  induction l as [|d l IH]; cbn [map Qsum]; [ring|]. rewrite IH. ring.
Qed.

Lemma withDeductions_totals (now : string) (c : Q) (ded : list Q) (ing : Ingredient) :
  spec_totalStock (stockHistory (withDeductions now c ded ing)) ==
    spec_totalStock (stockHistory ing) - Qsum ded /\
  spec_costBasis (stockHistory (withDeductions now c ded ing)) ==
    spec_costBasis (stockHistory ing) - c * Qsum ded.
Proof.
  unfold withDeductions. cbn [setStockHistory stockHistory].
  unfold spec_totalStock, spec_costBasis.
  rewrite !map_app, !Qsum_app, !map_map. cbn [sh_quantity sh_unitCost].
  rewrite Qsum_opp, Qsum_opp_scale. split; ring.
Qed.

Lemma spec_deductions_nonneg (inventory : list Product) (cart : list CartItem)
    (id : string) :
  Forall (fun cartLine => 0 <= ci_quantity cartLine) cart ->
  Forall (fun p => Forall (fun line => 0 <= ri_quantity line) (recipe p))
         inventory ->
  forall d, In d (spec_deductions inventory cart id) -> 0 <= d.
Proof.
  intros Hcart Hinv d Hd. unfold spec_deductions in Hd.
  apply in_flat_map in Hd. destruct Hd as (cartLine & Hline & Hd).
  pose proof (proj1 (Forall_forall _ _) Hcart cartLine Hline) as Hq.
  cbv beta in Hq.
  destruct (ci_type cartLine).
  - destruct (find _ inventory) as [product|] eqn:Hfind; [|destruct Hd].
    apply find_some in Hfind. destruct Hfind as [Hin _].
    pose proof (proj1 (Forall_forall _ _) Hinv product Hin) as Hlines.
    cbv beta in Hlines.
    apply in_flat_map in Hd. destruct Hd as (line & Hl & Hd).
    pose proof (proj1 (Forall_forall _ _) Hlines line Hl) as Hr. cbv beta in Hr.
    destruct (String.eqb (ingredientId line) id); [|destruct Hd].
    destruct Hd as [<-|[]]. now apply Qmult_le_0_compat.
  - destruct (String.eqb (itemId cartLine) id); [|destruct Hd].
    now destruct Hd as [<-|[]].
Qed.

(** A sale never adds stock.  With cart quantities and recipe quantities
    of 0 or more, every ingredient is still found under its id after the
    sale, and its total stock is at most what it was at sale start. *)
Theorem sale_never_adds_stock (now : string) (ingredients : list Ingredient)
    (inventory : list Product) (cart : list CartItem) (id : string)
    (ing : Ingredient) :
  Forall (fun cartLine => 0 <= ci_quantity cartLine) cart ->
  Forall (fun p => Forall (fun line => 0 <= ri_quantity line) (recipe p))
         inventory ->
  ingredientById ingredients id = Some ing ->
  exists sold,
    ingredientById (handleFinalizeTransaction now ingredients inventory cart) id
      = Some sold /\
    getIngredientTotalStock sold <= getIngredientTotalStock ing.
Proof.
  intros Hcart Hinv Hfind.
  pose proof (handleFinalizeTransaction_ledger now ingredients inventory id cart)
    as Hledger.
  unfold holdsDeductions in Hledger. rewrite Hfind in Hledger.
  cbn [option_map] in Hledger.
  eexists. split; [exact Hledger|].
  set (ded := spec_deductions inventory cart id).
  destruct (withDeductions_totals now (getIngredientAverageCost ing) ded ing)
    as [Hs _].
  rewrite !totalStock_spec, Hs.
  assert (Hsum : 0 <= Qsum (map (fun d => d) ded)).
  { apply Qsum_map_nonneg. intros d Hd.
    exact (spec_deductions_nonneg inventory cart id Hcart Hinv d Hd). }
  rewrite map_id in Hsum. lra.
Qed.

Lemma sale_never_adds_stock_witness :
  Forall (fun cartLine => 0 <= ci_quantity cartLine)
         [mkCartItem "prod_1" "Bread" 60 2 PRODUCT] /\
  Forall (fun p => Forall (fun line => 0 <= ri_quantity line) (recipe p))
         [bread; syrup] /\
  ingredientById [flour; oversoldSugar] "ing_1" = Some flour /\
  exists sold,
    ingredientById
      (handleFinalizeTransaction "t" [flour; oversoldSugar] [bread; syrup]
         [mkCartItem "prod_1" "Bread" 60 2 PRODUCT]) "ing_1" = Some sold /\
    getIngredientTotalStock sold <= getIngredientTotalStock flour.
Proof.
  assert (H1 : Forall (fun cartLine => 0 <= ci_quantity cartLine)
                      [mkCartItem "prod_1" "Bread" 60 2 PRODUCT]).
  { repeat constructor. cbn. discriminate. }
  assert (H2 : Forall (fun p => Forall (fun line => 0 <= ri_quantity line)
                                       (recipe p))
                      [bread; syrup]).
  { repeat constructor; cbn; discriminate. }
  assert (H3 : ingredientById [flour; oversoldSugar] "ing_1" = Some flour)
    by reflexivity.
  refine (conj H1 (conj H2 (conj H3 _))).
  exact (sale_never_adds_stock "t" [flour; oversoldSugar] [bread; syrup]
           [mkCartItem "prod_1" "Bread" 60 2 PRODUCT] "ing_1" flour H1 H2 H3).
Defined.

(** ** More stock never means less to sell *)

Lemma Math_min_monotone (xs ys : list Q) :
  Forall2 Qle xs ys ->
  forall x y, x <= y -> Math_min x xs <= Math_min y ys.
Proof.
  unfold Math_min. induction 1 as [|a b xs ys Hab _ IH]; intros x y Hxy; cbn [fold_left].
  - exact Hxy.
  - apply IH. now apply Q.min_le_compat.
Qed.

Lemma Math_floor_monotone (x y : Q) : x <= y -> Math_floor x <= Math_floor y.
Proof.
  intros H. unfold Math_floor. rewrite <- Zle_Qle. now apply Qfloor_resp_le.
Qed.

Lemma Math_floor_nonneg (x : Q) : 0 <= x -> 0 <= Math_floor x.
Proof. intros H. apply (Math_floor_monotone 0 x H). Qed.

Lemma Math_floor_negative (x : Q) : x < 0 -> Math_floor x < 0.
Proof.
  intros H. unfold Math_floor. eapply Qle_lt_trans; [apply Qfloor_le | exact H].
Qed.

(** What a recipe line allows does not go down when the stock of its
    ingredient goes up, for a line quantity that is not negative. *)
Lemma lineStock_monotone (s s' q : Q) :
  0 <= q -> s <= s' ->
  (if Qeq_dec s 0 then 0 else if Qeq_dec q 0 then 0 else Math_floor (s / q)) <=
  (if Qeq_dec s' 0 then 0 else if Qeq_dec q 0 then 0 else Math_floor (s' / q)).
Proof.
  intros Hq Hs.
  destruct (Qeq_dec q 0) as [|Hq0].
  { destruct (Qeq_dec s 0), (Qeq_dec s' 0); apply Qle_refl. }
  assert (Hqpos : 0 < q) by lra.
  destruct (Qeq_dec s 0) as [Hs0|Hs0], (Qeq_dec s' 0) as [Hs0'|Hs0'].
  - apply Qle_refl.
  - apply Math_floor_nonneg. apply Qle_shift_div_l; lra.
  - apply Qlt_le_weak, Math_floor_negative. apply Qlt_shift_div_r; lra.
  - apply Math_floor_monotone. apply Qle_shift_div_l; [exact Hqpos|].
    assert (E : s / q * q == s) by (field; lra). rewrite E. exact Hs.
Qed.

(** Stock monotonicity: if the recipe quantities are not negative and every
    ingredient has at least as much stock in a second ledger as in a first
    one (same ids in both), the product stock computed from the second
    ledger is at least the one computed from the first. *)
Theorem calculateProductStock_monotone (recipe : list RecipeItem)
    (ingredients ingredients' : list Ingredient) :
  Forall (fun line => 0 <= ri_quantity line) recipe ->
  (forall id,
     match ingredientById ingredients id, ingredientById ingredients' id with
     | Some i, Some i' => getIngredientTotalStock i <= getIngredientTotalStock i'
     | None, None => True
     | _, _ => False
     end) ->
  calculateProductStock recipe ingredients <=
  calculateProductStock recipe ingredients'.
Proof.
  intros Hq Hstock.
  assert (Hline : forall line, 0 <= ri_quantity line ->
            stockLevel ingredients line <= stockLevel ingredients' line).
  { intros line Hl. rewrite !stockLevel_spec. unfold spec_lineStock.
    specialize (Hstock (ingredientId line)).
    destruct (ingredientById ingredients (ingredientId line)) as [i|],
             (ingredientById ingredients' (ingredientId line)) as [i'|];
      try contradiction; [|apply Qle_refl].
    now apply lineStock_monotone. }
  destruct recipe as [|first rest]; [apply Qle_refl|].
  inversion Hq as [|? ? Hfirst Hrest]; subst.
  cbn [calculateProductStock]. apply Math_min_monotone; [|now apply Hline].
  clear Hq Hfirst. induction rest as [|line rest IH]; cbn [map]; constructor.
  - apply Hline. now inversion Hrest.
  - apply IH. now inversion Hrest.
Qed.

Lemma calculateProductStock_monotone_witness :
  Forall (fun line => 0 <= ri_quantity line) (recipe bread) /\
  (forall id,
     match ingredientById [flour] id, ingredientById [flourTraded] id with
     | Some i, Some i' => getIngredientTotalStock i <= getIngredientTotalStock i'
     | None, None => True
     | _, _ => False
     end) /\
  calculateProductStock (recipe bread) [flour] <=
  calculateProductStock (recipe bread) [flourTraded].
Proof.
  assert (H1 : Forall (fun line => 0 <= ri_quantity line) (recipe bread)).
  { repeat constructor. cbn. discriminate. }
  assert (H2 : forall id,
     match ingredientById [flour] id, ingredientById [flourTraded] id with
     | Some i, Some i' => getIngredientTotalStock i <= getIngredientTotalStock i'
     | None, None => True
     | _, _ => False
     end).
  { intros id. unfold ingredientById, hasId. cbn [find flour flourTraded pushBatch
      setStockHistory ing_id].
    destruct (String.eqb "ing_1" id); [|exact I]. vm_compute. discriminate. }
  refine (conj H1 (conj H2 _)).
  exact (calculateProductStock_monotone (recipe bread) [flour] [flourTraded] H1 H2).
Defined.

(** ** Applying a stock count *)

(** With unique ingredient ids, applying a finalized count replaces the
    history of every ingredient by a single batch: the quantity counted for
    it (the number entered, or the expected stock where the field was left
    empty) at the average cost it had before the count.  Its total stock
    is then the quantity counted. *)
Theorem handleFinalizeCount_sets_stock (ingredients : list Ingredient)
    (edits : list (string * option Q)) (stockCounts : list StockCount)
    (stamp now : string) :
  NoDup (map ing_id ingredients) ->
  let countItems := countItemsAfter ingredients edits in
  let stores :=
    handleFinalizeCount true true stamp now ingredients countItems stockCounts in
  Forall2 (fun before after =>
             exists item,
               In item countItems /\
               sc_ingredientId item = ing_id before /\
               ing_id after = ing_id before /\
               getIngredientTotalStock after == spec_actual item /\
               stockHistory after =
                 [mkStockHistoryItem now (spec_actual item)
                    (getIngredientAverageCost before)])
          ingredients (fst stores).
Proof.
  intros Hnodup. cbv zeta.
  pose proof (countItemsAfter_drafted ingredients edits) as Hdraft.
  set (countItems := countItemsAfter ingredients edits) in *.
  destruct (finalizeItem_from countItems ([], 0)) as [Hitems _].
  cbn [fst snd app] in Hitems.
  unfold handleFinalizeCount. cbn [negb fst snd]. rewrite Hitems.
  apply Forall2_map_self, Forall_forall. intros ing Hin.
  destruct (Forall2_In_left _ _ _ _ Hdraft Hin) as (item & Hpair & Hd & Hitem).
  match goal with |- context [map ?f countItems] => set (finalOf := f) end.
  rewrite (find_counted finalOf _ _ (fun _ => eq_refl) Hdraft Hnodup _ _ Hpair).
  subst finalOf. cbn [fc_actualStock fc_unitCost].
  destruct Hd as (Hid & _ & Hcost).
  exists item. split; [exact Hitem|]. split; [exact Hid|]. split; [reflexivity|].
  set (after := setStockHistory ing _).
  assert (Ht : getIngredientTotalStock after == spec_actual item).
  { unfold getIngredientTotalStock. cbn [after setStockHistory stockHistory fold_left
      sh_quantity]. ring. }
  split; [exact Ht|].
  cbn [after setStockHistory stockHistory]. now rewrite Hcost.
Qed.

Lemma handleFinalizeCount_sets_stock_witness :
  let ingredients := [flour; oversoldSugar] in
  let edits := [("ing_1"%string, Some 950); ("ing_2"%string, Some 3)] in
  NoDup (map ing_id ingredients) /\
  Forall2 (fun before after =>
             exists item,
               In item (countItemsAfter ingredients edits) /\
               sc_ingredientId item = ing_id before /\
               ing_id after = ing_id before /\
               getIngredientTotalStock after == spec_actual item /\
               stockHistory after =
                 [mkStockHistoryItem "t" (spec_actual item)
                    (getIngredientAverageCost before)])
          ingredients
          (fst (handleFinalizeCount true true "1" "t" ingredients
                  (countItemsAfter ingredients edits) [])).
Proof.
  cbv zeta.
  assert (H : NoDup (map ing_id [flour; oversoldSugar])).
  { cbn. repeat constructor; cbn; intuition discriminate. }
  refine (conj H _).
  exact (handleFinalizeCount_sets_stock [flour; oversoldSugar]
           [("ing_1"%string, Some 950); ("ing_2"%string, Some 3)] [] "1" "t" H).
Defined.

(** ** Time clock *)

Lemma length_two_distinct {A : Type} (l : list A) (a b : A) :
  In a l -> In b l -> a <> b -> (2 <= List.length l)%nat.
Proof.
  destruct l as [|x [|y l]]; cbn [In List.length]; intros Ha Hb Hne.
  - destruct Ha.
  - destruct Ha as [<-|[]], Hb as [<-|[]]. congruence.
  - lia.
Qed.

Section Clock.
Variable getTime : string -> Q.

(** The time clock is a toggle that never opens a second shift.  The
    time stamp written at clock-out is not the empty string.  If no user
    has two open shifts, none has after [handleTimeClock]; a user without
    an open shift gets one, starting now, and the inventory is not touched;
    a user with an open shift has none afterwards. *)
Theorem handleTimeClock_toggles (now stamp : string) (currentUser : User)
    (timeClockEntries : list TimeClockEntry) (inventory : list Product) :
  now <> EmptyString ->
  atMostOneOpenShift timeClockEntries ->
  let stores :=
    handleTimeClock getTime now stamp currentUser timeClockEntries inventory in
  atMostOneOpenShift (fst stores) /\
  match openShift timeClockEntries currentUser with
  | None =>
      openShift (fst stores) currentUser =
        Some (mkTimeClockEntry ("tc_" ++ stamp) (user_id currentUser) now None) /\
      snd stores = inventory
  | Some _ => openShift (fst stores) currentUser = None
  end.
Proof.
  intros Hnow Hone. cbv zeta. unfold handleTimeClock.
  assert (Hended : notEnded (mkTimeClockEntry EmptyString EmptyString EmptyString
                                              (Some now)) = false).
  { unfold notEnded, isEmpty. cbn [endTime]. now apply String.eqb_neq. }
  destruct (openShift timeClockEntries currentUser) as [shift|] eqn:Hopen.
  - set (close := fun e =>
           if String.eqb (tc_id e) (tc_id shift)
           then mkTimeClockEntry (tc_id e) (tc_userId e) (startTime e) (Some now)
           else e).
    assert (Hfst : fst (match dailyRate currentUser with
                        | Some r =>
                            if Qgt_bool r 0 then
                              (map close timeClockEntries,
                               inventory ++
                               [mkProduct ("misc_" ++ stamp)
                                  ("Labor Cost: " ++ user_name currentUser) 0 1
                                  (laborCost getTime r (startTime shift) now)
                                  KindMiscCost []])
                            else (map close timeClockEntries, inventory)
                        | None => (map close timeClockEntries, inventory)
                        end) = map close timeClockEntries).
    { destruct (dailyRate currentUser) as [r|]; [|reflexivity].
      now destruct (Qgt_bool r 0). }
    cbv zeta. fold close. rewrite Hfst. clear Hfst.
    assert (Hclose : forall uid e,
              (String.eqb (tc_userId (close e)) uid && notEnded (close e)) = true ->
              close e = e /\
              (String.eqb (tc_userId e) uid && notEnded e) = true).
    { intros uid e. unfold close.
      destruct (String.eqb (tc_id e) (tc_id shift)).
      - change (notEnded (mkTimeClockEntry (tc_id e) (tc_userId e) (startTime e)
                                           (Some now)))
          with (notEnded (mkTimeClockEntry EmptyString EmptyString EmptyString
                                           (Some now))).
        rewrite Hended, andb_false_r. discriminate.
      - now split. }
    split.
    + intros uid. specialize (Hone uid). unfold openShiftsOf in *.
      eapply Nat.le_trans; [|exact Hone].
      clear Hone Hopen. induction timeClockEntries as [|e l IH]; cbn [map filter];
        [constructor|].
      destruct (String.eqb (tc_userId (close e)) uid && notEnded (close e)) eqn:E.
      * destruct (Hclose uid e E) as [_ E']. rewrite E'. cbn [List.length]. lia.
      * destruct (String.eqb (tc_userId e) uid && notEnded e);
          cbn [List.length]; lia.
    + unfold openShift.
      destruct (find _ (map close timeClockEntries)) as [e'|] eqn:Hfind;
        [exfalso|reflexivity].
      apply find_some in Hfind. destruct Hfind as [Hin Hpred].
      apply in_map_iff in Hin. destruct Hin as (e & <- & Hin).
      destruct (Hclose _ _ Hpred) as [Hkept Hpred'].
      unfold openShift in Hopen. apply find_some in Hopen.
      destruct Hopen as [Hsin Hspred].
      assert (Hne : e <> shift).
      { intros ->. unfold close in Hkept. rewrite String.eqb_refl in Hkept.
        rewrite <- Hkept in Hpred'.
        change (notEnded (mkTimeClockEntry (tc_id shift) (tc_userId shift)
                                           (startTime shift) (Some now)))
          with (notEnded (mkTimeClockEntry EmptyString EmptyString EmptyString
                                           (Some now))) in Hpred'.
        rewrite Hended, andb_false_r in Hpred'. discriminate. }
      specialize (Hone (user_id currentUser)). unfold openShiftsOf in Hone.
      match type of Hone with
      | (List.length (filter ?p _) <= 1)%nat =>
          pose proof (length_two_distinct (filter p timeClockEntries) e shift
                        (proj2 (filter_In p e timeClockEntries) (conj Hin Hpred'))
                        (proj2 (filter_In p shift timeClockEntries)
                               (conj Hsin Hspred))
                        Hne) as H2
      end.
      lia.
  - cbn [fst snd]. unfold openShift in Hopen.
    assert (Hnone : forall uid,
              openShiftsOf (timeClockEntries ++
                            [mkTimeClockEntry ("tc_" ++ stamp) (user_id currentUser)
                                              now None]) uid =
              openShiftsOf timeClockEntries uid ++
              (if String.eqb (user_id currentUser) uid
               then [mkTimeClockEntry ("tc_" ++ stamp) (user_id currentUser) now None]
               else [])).
    { intros uid. unfold openShiftsOf. rewrite filter_app. f_equal.
      unfold notEnded. cbn [filter tc_userId endTime]. rewrite andb_true_r.
      now destruct (String.eqb (user_id currentUser) uid). }
    split; [|split; [|reflexivity]].
    + intros uid. rewrite Hnone, length_app.
      destruct (String.eqb (user_id currentUser) uid) eqn:E.
      * apply String.eqb_eq in E. subst uid.
        assert (Hempty : openShiftsOf timeClockEntries (user_id currentUser) = []).
        { unfold openShiftsOf.
          destruct (filter _ timeClockEntries) as [|e l] eqn:Ef; [reflexivity|].
          assert (Hin : In e (e :: l)) by (now left). rewrite <- Ef in Hin.
          apply filter_In in Hin. destruct Hin as [Hin Hp].
          pose proof (find_none _ _ Hopen e Hin) as Hq. cbv beta in Hq. congruence. }
        rewrite Hempty. cbn. lia.
      * specialize (Hone uid). cbn [List.length]. lia.
    + unfold openShift. rewrite (find_app_none _ _ _ Hopen).
      unfold notEnded. cbn [find tc_userId endTime]. now rewrite String.eqb_refl.
Qed.

(** What a shift costs.  Clocking out a user with a positive daily rate
    books one "Labor Cost: <name>" item, which the dashboard counts as
    labor.  The hourly rate is a twelfth of the daily rate; if the clock
    has not gone backwards the cost is between 0 and twelve hourly rates,
    and it is twelve hourly rates once the shift lasted twelve hours or
    more. *)
Theorem handleTimeClock_labor_cost (now stamp : string) (currentUser : User)
    (timeClockEntries : list TimeClockEntry) (inventory : list Product)
    (shift : TimeClockEntry) (r : Q) :
  openShift timeClockEntries currentUser = Some shift ->
  dailyRate currentUser = Some r ->
  0 < r ->
  getTime (startTime shift) <= getTime now ->
  exists item,
    snd (handleTimeClock getTime now stamp currentUser timeClockEntries inventory)
      = inventory ++ [item] /\
    p_type item = KindMiscCost /\
    DashboardView.isLaborCost item = true /\
    0 <= p_cost item /\ p_cost item <= 12 * (r / 12) /\
    (12 * 3600000 <= getTime now - getTime (startTime shift) ->
     p_cost item == 12 * (r / 12)).
Proof.
  intros Hopen Hrate Hr Htime. unfold handleTimeClock.
  rewrite Hopen, Hrate.
  assert (Hgt : Qgt_bool r 0 = true) by (now apply Qgt_bool_iff).
  rewrite Hgt. cbv zeta. cbn [snd]. eexists. split; [reflexivity|].
  cbn [p_type p_cost]. split; [reflexivity|]. split; [reflexivity|].
  unfold laborCost. cbv zeta.
  set (d := (getTime now - getTime (startTime shift)) / (1000 * 60 * 60)).
  assert (Hd : 0 <= d).
  { unfold d. apply Qle_shift_div_l; [reflexivity|]. lra. }
  assert (Hmin0 : 0 <= Qmin d 12) by (apply Q.min_glb; [exact Hd | discriminate]).
  assert (Hmin12 : Qmin d 12 <= 12) by apply Q.le_min_r.
  assert (Hh : 0 < r / 12) by (apply Qlt_shift_div_l; [reflexivity | lra]).
  split; [|split].
  - apply Qmult_le_0_compat; lra.
  - apply Qmult_le_compat_r; lra.
  - intros Hlong.
    assert (H12 : 12 <= d).
    { unfold d. apply Qle_shift_div_l; [reflexivity|].
      assert (E : 12 * (1000 * 60 * 60) == 12 * 3600000) by reflexivity.
      rewrite E. exact Hlong. }
    rewrite (Q.min_r d 12 H12). reflexivity.
Qed.

End Clock.

Lemma handleTimeClock_toggles_witness :
  "21"%string <> EmptyString /\
  atMostOneOpenShift anaOnShift /\
  (atMostOneOpenShift
     (fst (handleTimeClock hoursClock "21" "9" ana anaOnShift [bread])) /\
   match openShift anaOnShift ana with
   | None =>
       openShift (fst (handleTimeClock hoursClock "21" "9" ana anaOnShift [bread]))
                 ana =
         Some (mkTimeClockEntry ("tc_" ++ "9") (user_id ana) "21" None) /\
       snd (handleTimeClock hoursClock "21" "9" ana anaOnShift [bread]) = [bread]
   | Some _ =>
       openShift (fst (handleTimeClock hoursClock "21" "9" ana anaOnShift [bread]))
                 ana = None
   end).
Proof.
  assert (H0 : "21"%string <> EmptyString) by discriminate.
  assert (H : atMostOneOpenShift anaOnShift).
  { intros uid. unfold openShiftsOf, anaOnShift, notEnded.
    cbn [filter tc_userId endTime].
    destruct (String.eqb "user_1" uid); cbn; lia. }
  refine (conj H0 (conj H _)).
  exact (handleTimeClock_toggles hoursClock "21" "9" ana anaOnShift [bread] H0 H).
Defined.

Lemma handleTimeClock_labor_cost_witness :
  openShift anaOnShift ana = Some (mkTimeClockEntry "tc_1" "user_1" "8" None) /\
  dailyRate ana = Some 600 /\
  0 < 600 /\
  hoursClock "8" <= hoursClock "21" /\
  exists item,
    snd (handleTimeClock hoursClock "21" "9" ana anaOnShift [bread])
      = [bread] ++ [item] /\
    p_type item = KindMiscCost /\
    DashboardView.isLaborCost item = true /\
    0 <= p_cost item /\ p_cost item <= 12 * (600 / 12) /\
    (12 * 3600000 <= hoursClock "21" - hoursClock "8" ->
     p_cost item == 12 * (600 / 12)).
Proof.
  assert (H1 : openShift anaOnShift ana =
               Some (mkTimeClockEntry "tc_1" "user_1" "8" None)) by reflexivity.
  assert (H2 : dailyRate ana = Some 600) by reflexivity.
  assert (H3 : 0 < 600) by reflexivity.
  assert (H4 : hoursClock "8" <= hoursClock "21") by (vm_compute; discriminate).
  refine (conj H1 (conj H2 (conj H3 (conj H4 _)))).
  exact (handleTimeClock_labor_cost hoursClock "21" "9" ana anaOnShift [bread]
           (mkTimeClockEntry "tc_1" "user_1" "8" None) 600 H1 H2 H3 H4).
Defined.

(** ** Dashboard figures *)


Lemma filter_last {A : Type} (p : A -> bool) (l : list A) (x : A) :
  filter p (l ++ [x]) = filter p l ++ (if p x then [x] else []).
Proof. rewrite filter_app. cbn [filter]. now destruct (p x). Qed.

(** What one more transaction does to the revenue.  A paid transaction
    adds its recorded total to the total revenue; an employee meal leaves
    the total revenue as it is.  The labor cost, the operating costs and
    the product count do not depend on the transactions. *)
Theorem stats_one_more_transaction (inventory : list Product)
    (ingredients : list Ingredient) (transactions : list Transaction)
    (t : Transaction) (miscCosts : list Product) :
  let before := DashboardView.stats inventory ingredients transactions miscCosts in
  let after :=
    DashboardView.stats inventory ingredients (transactions ++ [t]) miscCosts in
  totalRevenue after ==
    (if isEmployeeMeal t then totalRevenue before
     else totalRevenue before + tx_total t) /\
  totalLaborCost after = totalLaborCost before /\
  totalOperatingCosts after = totalOperatingCosts before /\
  productCount after = productCount before.
Proof.
  cbv zeta. unfold DashboardView.stats. cbv zeta.
  cbn [totalRevenue totalLaborCost totalOperatingCosts productCount].
  split; [|now repeat split].
  rewrite filter_last.
  destruct (isEmployeeMeal t); cbn [negb].
  - now rewrite app_nil_r.
  - rewrite fold_left_app. reflexivity.
Qed.

(** ** Taxes *)

(** Tax rates never become negative: adding a tax through the form and
    deleting one keep every rate at 0 or above, and with such rates the
    total shown for a cart with a subtotal of 0 or more is never below the
    subtotal. *)
Theorem taxes_stay_nonnegative (stamp newTaxName id : string)
    (newTaxRate : option Q) (taxes : list Tax) :
  Forall (fun t => 0 <= rate t) taxes ->
  Forall (fun t => 0 <= rate t)
         (SettingsView.handleAddTax stamp newTaxName newTaxRate taxes) /\
  Forall (fun t => 0 <= rate t) (SettingsView.handleDeleteTax id taxes) /\
  (forall cart, 0 <= CartView.cartSubtotal cart ->
                CartView.cartSubtotal cart <= CartView.total taxes cart).
Proof.
  intros Hrates. split; [|split].
  - unfold SettingsView.handleAddTax.
    destruct newTaxRate as [r|]; [|exact Hrates].
    destruct (isEmpty newTaxName); [exact Hrates|].
    destruct (Qgt_bool 0 r) eqn:E; [exact Hrates|].
    apply Forall_app. split; [exact Hrates|]. repeat constructor. cbn [rate].
    apply Qnot_lt_le. intros Hlt. apply Qgt_bool_iff in Hlt. congruence.
  - unfold SettingsView.handleDeleteTax. apply Forall_forall. intros t Ht.
    apply filter_In in Ht. exact (proj1 (Forall_forall _ _) Hrates t (proj1 Ht)).
  - intros cart Hsub. unfold CartView.total. rewrite totalTax_spec.
    assert (Hsum : 0 <= Qsum (map rate taxes)).
    { clear Hsub. induction Hrates as [|t l Ht _ IH]; cbn [map Qsum]; lra. }
    assert (Hfrac : 0 <= Qsum (map rate taxes) / 100).
    { apply Qle_shift_div_l; [reflexivity | lra]. }
    pose proof (Qmult_le_0_compat _ _ Hsub Hfrac). lra.
Qed.

Lemma taxes_stay_nonnegative_witness :
  let taxes := [mkTax "tax_default" "Sales Tax" 0] in
  Forall (fun t => 0 <= rate t) taxes /\
  (Forall (fun t => 0 <= rate t)
          (SettingsView.handleAddTax "5" "VAT" (Some 12) taxes) /\
   Forall (fun t => 0 <= rate t) (SettingsView.handleDeleteTax "tax_default" taxes) /\
   (forall cart, 0 <= CartView.cartSubtotal cart ->
                 CartView.cartSubtotal cart <= CartView.total taxes cart)).
Proof.
  cbv zeta.
  assert (H : Forall (fun t => 0 <= rate t) [mkTax "tax_default" "Sales Tax" 0]).
  { repeat constructor. cbn. discriminate. }
  refine (conj H _).
  exact (taxes_stay_nonnegative "5" "VAT" "tax_default" (Some 12)
           [mkTax "tax_default" "Sales Tax" 0] H).
Defined.

(** ** Migration of stored ingredients *)

Lemma orZero_twice (x : option StoredNumber) :
  orZero (Some (orZero x)) = orZero x.
Proof.
  unfold orZero. destruct x as [[|v]|]; try reflexivity.
  destruct (Qeq_bool v 0) eqn:E; [reflexivity | now rewrite E].
Qed.

(** The migration can run at every start of the application: a migrated
    record has its price, its low-stock threshold and its history, a
    record that had a [stock] property (a number or [null]) and no history
    has exactly one batch, with that stock, and has lost the legacy
    properties; and migrating a migrated record again, at any later time,
    does not change it. *)
Theorem migrateIngredient_idempotent (now later : string) (i : StoredIngredient) :
  let migrated := migrateIngredient now i in
  st_price migrated <> None /\
  st_lowStockThreshold migrated <> None /\
  st_stockHistory migrated <> None /\
  (forall stock,
     st_stockHistory i = None -> st_stock i = Some stock ->
     exists unitCost,
       st_stockHistory migrated = Some [mkStoredBatch now stock (JNumber unitCost)] /\
       st_stock migrated = None /\
       st_unitCost migrated = None /\ st_cost migrated = None) /\
  migrateIngredient later migrated = migrated.
Proof.
  cbv zeta. unfold migrateIngredient. cbv zeta.
  destruct (st_stockHistory i) as [h|], (st_stock i) as [stock|];
    cbn [st_price st_lowStockThreshold st_stockHistory st_stock st_unitCost st_cost
         st_id st_name st_unit];
    rewrite !orZero_twice; repeat split; try discriminate.
  intros stock' _ E. injection E as <-.
  destruct (st_unitCost i) as [[|u]|].
  - destruct (st_cost i) as [cost|];
      [destruct (Qgt_bool (toNumber stock) 0)|]; eexists; now repeat split.
  - eexists; now repeat split.
  - destruct (st_cost i) as [cost|];
      [destruct (Qgt_bool (toNumber stock) 0)|]; eexists; now repeat split.
Qed.

